(** * Financial-Document-Analyzer: the extraction and scoring heuristics

    A shallow embedding of [InvestmentTool._run] and [RiskTool._run]
    (src/tools.py) together with the parts of the Python runtime they call:
    [str.split], [str.join], [str.lower], [str.count], [str.replace],
    [str.isdigit], substring test [in], [re.findall] with [re.IGNORECASE],
    [float], [statistics.mean], float division, multiplication and
    comparison, and the format specifications [:.2f] and [:,.2f].

    Conventions of the model.
    - A Python [str] is the [string] of its bytes in UTF-8, so that a
      character of ASCII is one element of it.  The classes [\w], [\s] and
      [\d], [str.split], [str.lower] and [str.isdigit] are Python's on the
      characters of ASCII; they take the bytes from 128 on for characters
      that are neither word characters, white space nor digits, and [lower]
      leaves them alone.  The literals of a pattern are matched as
      [re.IGNORECASE] matches them on every text: a letter of ASCII is also
      matched by the characters beyond ASCII that Python takes for it
      (U+0130 and U+0131 for [i], U+017F for [s], U+212A for [k]).
      Beyond ASCII the model follows Python no further than that; a
      statement that fails there is stated of the texts of ASCII
      ([isascii]).
    - A Python [float] is a [spec_float] of binary64 ([prec = 53],
      [emax = 1024]); no rounding is abstracted away.
    - An exception is the [Raise] case of [result].
    - A method that fills a list in place is also given statement by
      statement on a heap (module [Store]), where the list is an object
      among those that were there before the call. *)

From Stdlib Require Import ZArith NArith List String Ascii Bool Lia.
From Stdlib Require Import Floats.SpecFloat Numbers.DecimalString.
Import ListNotations.
Open Scope string_scope.

(** ** Exceptions *)

Inductive exn : Type :=
| ZeroDivisionError
| StatisticsError.

Inductive result (A : Type) : Type :=
| Ok (a : A)
| Raise (e : exn).
Arguments Ok {A} a.
Arguments Raise {A} e.

Definition bind {A B : Type} (m : result A) (f : A -> result B) : result B :=
  match m with
  | Ok a => f a
  | Raise e => Raise e
  end.

Notation "x <- m ;; k" := (bind m (fun x => k))
  (at level 61, m at next level, right associativity).

(** ** Python [str] *)

Module PyStr.

Definition code (c : ascii) : N := N_of_ascii c.

Definition between (lo hi : N) (c : ascii) : bool :=
  (lo <=? code c)%N && (code c <=? hi)%N.

(** [str.isspace] of one character, also the class [\s]:
    TAB LF VT FF CR, FS GS RS US, and the blank. *)
Definition is_space (c : ascii) : bool :=
  between 9 13 c || between 28 31 c || (code c =? 32)%N.

(** The class [\d], and [str.isdigit] of one character. *)
Definition is_digit (c : ascii) : bool := between 48 57 c.

Definition is_upper (c : ascii) : bool := between 65 90 c.
Definition is_lower (c : ascii) : bool := between 97 122 c.

(** The class [\w]. *)
Definition is_word (c : ascii) : bool :=
  is_upper c || is_lower c || is_digit c || (code c =? 95)%N.

Definition lower_char (c : ascii) : ascii :=
  if is_upper c then ascii_of_N (code c + 32) else c.

(** [s.lower()] *)
Fixpoint lower (s : string) : string :=
  match s with
  | EmptyString => EmptyString
  | String c s' => String (lower_char c) (lower s')
  end.

Definition is_empty (s : string) : bool :=
  match s with
  | EmptyString => true
  | String _ _ => false
  end.

(** [s.isascii()] *)
Fixpoint isascii (s : string) : bool :=
  match s with
  | EmptyString => true
  | String c s' => (code c <? 128)%N && isascii s'
  end.

(** [s.split()]: the maximal runs of characters that are not white space;
    [cur] is the run being read. *)
Fixpoint split_from (cur s : string) : list string :=
  match s with
  | EmptyString => if is_empty cur then [] else [cur]
  | String c s' =>
      if is_space c
      then (if is_empty cur then split_from EmptyString s'
            else cur :: split_from EmptyString s')
      else split_from (cur ++ String c EmptyString) s'
  end.

Definition split (s : string) : list string := split_from EmptyString s.

(** [sep.join(l)] *)
Fixpoint join (sep : string) (l : list string) : string :=
  match l with
  | [] => EmptyString
  | [x] => x
  | x :: l' => x ++ sep ++ join sep l'
  end.

(** [s.startswith(w)] *)
Fixpoint starts_with (w s : string) : bool :=
  match w with
  | EmptyString => true
  | String p w' =>
      match s with
      | EmptyString => false
      | String c s' => Ascii.eqb p c && starts_with w' s'
      end
  end.

(** [w in s] *)
Fixpoint contains (w s : string) : bool :=
  starts_with w s ||
  match s with
  | EmptyString => false
  | String _ s' => contains w s'
  end.

(** [s.count(w)]: occurrences of [w] in [s] that do not overlap, read
    from the left; [skip] characters of the last occurrence are still to
    be passed. *)
Fixpoint count_from (w s : string) (skip : nat) : nat :=
  match s with
  | EmptyString => 0
  | String _ s' =>
      match skip with
      | S k => count_from w s' k
      | O => if starts_with w s
             then S (count_from w s' (String.length w - 1))
             else count_from w s' 0
      end
  end.

Definition count (s w : string) : nat :=
  if is_empty w then S (String.length s) else count_from w s 0.

(** [s.replace] of every comma by the empty string. *)
Fixpoint remove_commas (s : string) : string :=
  match s with
  | EmptyString => EmptyString
  | String c s' =>
      if (code c =? 44)%N then remove_commas s'
      else String c (remove_commas s')
  end.

Fixpoint all_digits (s : string) : bool :=
  match s with
  | EmptyString => true
  | String c s' => is_digit c && all_digits s'
  end.

(** [s.isdigit()] *)
Definition isdigit (s : string) : bool :=
  negb (is_empty s) && all_digits s.

(** The lines of [s] cut at every line feed. *)
Fixpoint lines_from (cur s : string) : list string :=
  match s with
  | EmptyString => [cur]
  | String c s' =>
      if (code c =? 10)%N then cur :: lines_from EmptyString s'
      else lines_from (cur ++ String c EmptyString) s'
  end.

Definition lines (s : string) : list string := lines_from EmptyString s.

End PyStr.

(** ** Python [re]: the backtracking matcher on the fragment the patterns use *)

Module PyRe.
Import PyStr.

(** The members of a bracketed class. *)
Inductive item : Type :=
| IChar (c : ascii)
| IWord
| ISpace
| IDigit.

Definition item_match (c : ascii) (i : item) : bool :=
  match i with
  | IChar p => Ascii.eqb (lower_char c) (lower_char p)
  | IWord => is_word c
  | ISpace => is_space c
  | IDigit => is_digit c
  end.

Definition class_match (cls : list item) (c : ascii) : bool :=
  existsb (item_match c) cls.

Inductive regex : Type :=
| RLit (w : string)               (* a literal, letters in either case *)
| RClass (cls : list item)        (* [...] *)
| RSeq (r1 r2 : regex)
| RAlt (r1 r2 : regex)            (* r1|r2 *)
| ROpt (r : regex)                (* r?  *)
| RPlus (cls : list item)         (* [...]+  greedy, no letter in it *)
| RStarLazy (cls : list item)     (* [...]*? no letter in it *)
| RGroup (r : regex).             (* (r) *)

(** A continuation receives the rest of the text and the groups closed
    so far, and answers with the end of the whole match. *)
Definition answer : Type := option (string * list string).
Definition cont : Type := string -> list string -> answer.

Definition or_else (a b : answer) : answer :=
  match a with
  | Some _ => a
  | None => b
  end.

(** The rest of [s] after its prefix [w]. *)
Fixpoint after (w s : string) : option string :=
  match w with
  | EmptyString => Some s
  | String p w' =>
      match s with
      | EmptyString => None
      | String c s' => if Ascii.eqb p c then after w' s' else None
      end
  end.

(** The characters beyond ASCII that [re.IGNORECASE] takes for a letter of
    ASCII, as their bytes in UTF-8: the capital I with a dot (U+0130) and
    the i without a dot (U+0131) for [i], the long s (U+017F) for [s], the
    Kelvin sign (U+212A) for [k]. *)
Definition folded (p : ascii) : list string :=
  let n := code (lower_char p) in
  if (n =? 105)%N
  then [String "196"%char (String "176"%char EmptyString);
        String "196"%char (String "177"%char EmptyString)]
  else if (n =? 115)%N
  then [String "197"%char (String "191"%char EmptyString)]
  else if (n =? 107)%N
  then [String "226"%char
          (String "132"%char (String "170"%char EmptyString))]
  else [].

Definition first_after (ws : list string) (s : string) : option string :=
  fold_right
    (fun w r => match after w s with Some s' => Some s' | None => r end)
    None ws.

(** The rest of [s] after one character that is the literal [p], letters
    in either case. *)
Definition lit_char (p : ascii) (s : string) : option string :=
  match s with
  | EmptyString => None
  | String c s' =>
      if Ascii.eqb (lower_char c) (lower_char p) then Some s'
      else first_after (folded p) s
  end.

(** The rest of [s] after one character of the class [cls]. *)
Definition class_char (cls : list item) (s : string) : option string :=
  match s with
  | EmptyString => None
  | String c s' =>
      if class_match cls c then Some s'
      else
        first_after
          (flat_map (fun i => match i with
                              | IChar p => folded p
                              | _ => []
                              end) cls) s
  end.

Fixpoint lit (w s : string) (caps : list string) (k : cont) : answer :=
  match w with
  | EmptyString => k s caps
  | String p w' =>
      match lit_char p s with
      | Some s' => lit w' s' caps k
      | None => None
      end
  end.

Fixpoint star_greedy (cls : list item) (s : string) (caps : list string)
         (k : cont) : answer :=
  match s with
  | EmptyString => k s caps
  | String c s' =>
      if class_match cls c
      then or_else (star_greedy cls s' caps k) (k s caps)
      else k s caps
  end.

Fixpoint star_lazy (cls : list item) (s : string) (caps : list string)
         (k : cont) : answer :=
  or_else (k s caps)
    match s with
    | EmptyString => None
    | String c s' =>
        if class_match cls c then star_lazy cls s' caps k else None
    end.

(** The text consumed between [s] and its suffix [rest]. *)
Definition consumed (s rest : string) : string :=
  substring 0 (String.length s - String.length rest) s.

Fixpoint run (r : regex) (s : string) (caps : list string) (k : cont)
  : answer :=
  match r with
  | RLit w => lit w s caps k
  | RClass cls =>
      match class_char cls s with
      | Some s' => k s' caps
      | None => None
      end
  | RSeq r1 r2 => run r1 s caps (fun s' caps' => run r2 s' caps' k)
  | RAlt r1 r2 => or_else (run r1 s caps k) (run r2 s caps k)
  | ROpt r1 => or_else (run r1 s caps k) (k s caps)
  | RPlus cls =>
      match s with
      | EmptyString => None
      | String c s' =>
          if class_match cls c then star_greedy cls s' caps k else None
      end
  | RStarLazy cls => star_lazy cls s caps k
  | RGroup r1 =>
      run r1 s caps (fun s' caps' => k s' (caps' ++ [consumed s s'])%list)
  end.

(** One attempt at the head of [s]: the rest after the match and the
    groups. *)
Definition match_here (r : regex) (s : string) : answer :=
  run r s [] (fun s' caps => Some (s', caps)).

(** [re.findall]: the groups of the matches from left to right, a match
    starting where the one before ended; [skip] characters of the last
    match are still to be passed. *)
Fixpoint findall_from (r : regex) (s : string) (skip : nat)
  : list (list string) :=
  match s with
  | EmptyString =>
      match match_here r s with
      | Some (_, caps) => [caps]
      | None => []
      end
  | String _ s' =>
      match skip with
      | S k => findall_from r s' k
      | O =>
          match match_here r s with
          | Some (rest, caps) =>
              caps ::
              findall_from r s' (String.length s - String.length rest - 1)
          | None => findall_from r s' 0
          end
      end
  end.

Definition findall (r : regex) (s : string) : list (list string) :=
  findall_from r s 0.


(** The value of group [n] (from 1) of one match; a group that took no
    part in the match reads as the empty string. *)
Definition group (n : nat) (caps : list string) : string :=
  nth (n - 1) caps EmptyString.

End PyRe.

(** ** Python [float]: binary64 *)

Module PyFloat.
Import PyStr.

Definition prec : Z := 53.
Definition emax : Z := 1024.

Definition float : Type := spec_float.

(** [float(n)] of an integer: the nearest double, ties to even. *)
Definition of_Z (n : Z) : float := binary_normalize prec emax n 0 false.

Definition digit_value (c : ascii) : Z := Z.of_N (code c) - 48.

Definition int_of_digits (s : string) : Z :=
  fold_left (fun acc c => (10 * acc + digit_value c)%Z)
    (list_ascii_of_string s) 0%Z.

(** [float(s)] for a string of digits. *)
Definition of_str (s : string) : float := of_Z (int_of_digits s).

Definition is_zero (x : float) : bool :=
  match x with
  | S754_zero _ => true
  | _ => false
  end.

Definition is_finite (x : float) : bool :=
  match x with
  | S754_zero _ | S754_finite _ _ _ => true
  | _ => false
  end.

(** Truth value of a float: anything but zero. *)
Definition truthy (x : float) : bool := negb (is_zero x).

(** [x / y] *)
Definition div (x y : float) : result float :=
  if is_zero y then Raise ZeroDivisionError else Ok (SFdiv prec emax x y).

(** [x * y] *)
Definition mul (x y : float) : float := SFmul prec emax x y.

(** [x > y] and [x < y] *)
Definition gt (x y : float) : bool := SFltb y x.
Definition lt (x y : float) : bool := SFltb x y.

Definition inf : float := S754_infinity false.

(** A number [num * 2 ^ exp], the exact value of a finite float or of a
    sum of them. *)
Definition dyadic : Type := (Z * Z)%type.

Definition dyadic_of (x : float) : dyadic :=
  match x with
  | S754_finite s m e => (cond_Zopp s (Zpos m), e)
  | _ => (0, 0)%Z
  end.

Definition dyadic_add (a b : dyadic) : dyadic :=
  let e := Z.min (snd a) (snd b) in
  (fst a * 2 ^ (snd a - e) + fst b * 2 ^ (snd b - e), e)%Z.

(** The double nearest to [num * 2 ^ exp / den], ties to even, for
    [den > 0]. *)
Definition round_ratio (a : dyadic) (den : Z) : float :=
  let sign := (fst a <? 0)%Z in
  match Z.abs (fst a) with
  | Z0 => S754_zero false
  | n =>
      let '(q, e, l) := SFdiv_core_binary prec emax n (snd a) den 0 in
      binary_round_aux prec emax sign q e l
  end.

(** A decimal literal such as [0.6], read as [6 / 10]. *)
Definition decimal (num den : Z) : float := round_ratio (num, 0%Z) den.

(** [statistics.mean]: the exact sum of the data divided by their number,
    rounded once; data that are not all finite give the float sum of the
    infinite ones, divided by their number. *)
Definition mean (data : list float) : result float :=
  match data with
  | [] => Raise StatisticsError
  | _ =>
      let n := Z.of_nat (List.length data) in
      if forallb is_finite data
      then Ok (round_ratio
                 (fold_left dyadic_add (map dyadic_of data) (0, 0)%Z) n)
      else Ok (SFdiv prec emax
                 (fold_left (SFadd prec emax)
                    (filter (fun x => negb (is_finite x)) data)
                    (S754_zero false))
                 (of_Z n))
  end.

(** The exact value [m * 2 ^ e] in hundredths, rounded to the nearest
    integer, ties to even. *)
Definition hundredths (m : positive) (e : Z) : Z :=
  match e with
  | Zneg p =>
      let d := (2 ^ Zpos p)%Z in
      let n := (Zpos m * 100)%Z in
      let q := (n / d)%Z in
      match (2 * (n mod d) ?= d)%Z with
      | Lt => q
      | Gt => (q + 1)%Z
      | Eq => if Z.even q then q else (q + 1)%Z
      end
  | _ => (Zpos m * 2 ^ e * 100)%Z
  end.

Definition digits_of (n : Z) : string :=
  NilZero.string_of_uint (N.to_uint (Z.to_N n)).

(** The thousands separators of the [,] option. *)
Fixpoint group3 (s : string) : string :=
  match s with
  | EmptyString => EmptyString
  | String c s' =>
      String c
        (if negb (is_empty s') && (String.length s' mod 3 =? 0)%nat
         then "," ++ group3 s' else group3 s')
  end.

Definition two_digits (n : Z) : string :=
  digits_of (n / 10) ++ digits_of (n mod 10).

Definition sign_of (s : bool) : string := if s then "-" else EmptyString.

(** [format(x, ".2f")], and [format(x, ",.2f")] when [commas] is set. *)
Definition format_2f (commas : bool) (x : float) : string :=
  match x with
  | S754_nan => "nan"
  | S754_infinity s => sign_of s ++ "inf"
  | S754_zero s => sign_of s ++ "0.00"
  | S754_finite s m e =>
      let h := hundredths m e in
      let whole := digits_of (h / 100) in
      sign_of s ++ (if commas then group3 whole else whole)
      ++ "." ++ two_digits (h mod 100)
  end.

End PyFloat.


(** ** The extraction shared by the two tools *)

Module Extract.
Import PyStr PyRe PyFloat.

Notation "a >> b" := (RSeq a b) (at level 60, right associativity).

(** The tail of every pattern: [[\w\s]*?\$?([\d,.]+)] *)
Definition amount_tail : regex :=
  RStarLazy [IWord; ISpace] >> ROpt (RLit "$") >>
  RGroup (RPlus [IDigit; IChar ","; IChar "."]).

(** [revenue[s]?\s+[\w\s]*?\$?([\d,.]+)] *)
Definition revenue_pattern : regex :=
  RLit "revenue" >> ROpt (RClass [IChar "s"]) >> RPlus [ISpace] >>
  amount_tail.

(** [(net income|profit)[\w\s]*?\$?([\d,.]+)] *)
Definition profit_pattern : regex :=
  RGroup (RAlt (RLit "net income") (RLit "profit")) >> amount_tail.

(** [(debt|liabilities)[\w\s]*?\$?([\d,.]+)] *)
Definition debt_pattern : regex :=
  RGroup (RAlt (RLit "debt") (RLit "liabilities")) >> amount_tail.

(** [(asset[s]?)[\w\s]*?\$?([\d,.]+)] *)
Definition asset_pattern : regex :=
  RGroup (RLit "asset" >> ROpt (RClass [IChar "s"])) >> amount_tail.

(** The comprehension that builds every list of amounts: the captures that
    are digits once their commas are removed, each read as a float. *)
Definition amounts (captures : list string) : list float :=
  map (fun r => of_str (remove_commas r))
    (filter (fun r => isdigit (remove_commas r)) captures).

(** [" ".join(text.split())] *)
Definition processed (financial_document_data : string) : string :=
  join " " (split financial_document_data).

Definition revenue_matches (processed_data : string) : list string :=
  map (group 1) (findall revenue_pattern processed_data).
Definition profit_matches (processed_data : string) : list string :=
  map (group 2) (findall profit_pattern processed_data).
Definition debt_matches (processed_data : string) : list string :=
  map (group 2) (findall debt_pattern processed_data).
Definition asset_matches (processed_data : string) : list string :=
  map (group 2) (findall asset_pattern processed_data).

Definition revenues (text : string) : list float :=
  amounts (revenue_matches (processed text)).
Definition profits (text : string) : list float :=
  amounts (profit_matches (processed text)).
Definition debts (text : string) : list float :=
  amounts (debt_matches (processed text)).
Definition assets (text : string) : list float :=
  amounts (asset_matches (processed text)).

(** Truth value of a list. *)
Definition nonempty {A : Type} (l : list A) : bool :=
  match l with
  | [] => false
  | _ :: _ => true
  end.

Definition newline : string := String (ascii_of_N 10) EmptyString.

(** [l.append(x)] *)
Definition append {A : Type} (l : list A) (x : A) : list A :=
  (l ++ [x])%list.

End Extract.

(** ** The store of the interpreter

    What outlives an expression: the instances of the tools and the lists
    that a method fills.  A method is run on a heap and returns the heap it
    leaves with its value or its exception, so that what a call does to the
    objects that were there before it is read off its result. *)

Module Store.
Import Extract.

Inductive object : Type :=
| Instance (name description : string)   (* a tool and its fields *)
| ListOf (items : list string).          (* a list of strings *)

(** A reference is the place of an object in the heap. *)
Definition ref : Type := nat.
Definition heap : Type := list object.

Definition exec (A : Type) : Type := heap -> heap * result A.

Definition ret {A : Type} (a : A) : exec A := fun h => (h, Ok a).

(** An expression that may raise and does not touch the heap. *)
Definition lift {A : Type} (r : result A) : exec A := fun h => (h, r).

Definition bind {A B : Type} (m : exec A) (f : A -> exec B) : exec B :=
  fun h =>
    match m h with
    | (h', Ok a) => f a h'
    | (h', Raise e) => (h', Raise e)
    end.

(** The heap with [o] at [l]. *)
Fixpoint put (h : heap) (l : ref) (o : object) : heap :=
  match h with
  | [] => []
  | x :: h' =>
      match l with
      | O => o :: h'
      | S l' => x :: put h' l' o
      end
  end.

(** [[]]: a new, empty list. *)
Definition new_list : exec ref :=
  fun h => ((h ++ [ListOf []])%list, Ok (List.length h)).

(** [l.append(x)]: the list at [l] is changed in place. *)
Definition append_to (l : ref) (x : string) : exec unit :=
  fun h =>
    match nth_error h l with
    | Some (ListOf items) => (put h l (ListOf (append items x)), Ok tt)
    | _ => (h, Ok tt)
    end.

(** The items of the list at [l], as an expression reads them. *)
Definition items_of (l : ref) : exec (list string) :=
  fun h =>
    (h, Ok match nth_error h l with
           | Some (ListOf items) => items
           | _ => []
           end).

End Store.

Notation "x <~ m ;; k" := (Store.bind m (fun x => k))
  (at level 61, m at next level, right associativity).
Notation "m ;;; k" := (Store.bind m (fun _ => k))
  (at level 61, right associativity).

(** ** [InvestmentTool] *)

Module InvestmentTool.
Import PyStr PyFloat Extract.

(** An instance: the fields [name] and [description]. *)
Definition new : Store.object :=
  Store.Instance "Investment Analysis Tool"
    "Analyzes financial document data for investment insights.".

Definition positive_keywords : list string :=
  ["growth"; "expansion"; "profit"; "strong"; "increase"; "positive"].
Definition negative_keywords : list string :=
  ["loss"; "decline"; "risk"; "decrease"; "negative"; "litigation"].

(** [sum(processed_data.lower().count(word) for word in keywords)] *)
Definition hits (processed_data : string) (keywords : list string) : nat :=
  list_sum (map (count (lower processed_data)) keywords).

Definition positive_hits (text : string) : nat :=
  hits (processed text) positive_keywords.
Definition negative_hits (text : string) : nat :=
  hits (processed text) negative_keywords.

(** Step 3, first block: revenue, profit and margin lines. *)
Definition margin_lines (revenues profits : list float)
           (insights : list string) : result (list string) :=
  if nonempty revenues && nonempty profits then
    avg_revenue <- mean revenues ;;
    avg_profit <- mean profits ;;
    profit_margin <-
      (if truthy avg_revenue
       then q <- div avg_profit avg_revenue ;; Ok (mul q (of_Z 100))
       else Ok (of_Z 0)) ;;
    let insights :=
      append insights ("📊 Average Revenue: $" ++ format_2f true avg_revenue) in
    let insights :=
      append insights ("📊 Average Profit: $" ++ format_2f true avg_profit) in
    let insights :=
      append insights
        ("📊 Profit Margin: " ++ format_2f false profit_margin ++ "%") in
    Ok insights
  else Ok insights.

(** Step 3, second block: the guard of the division tests the list
    [profits], which is not empty here. *)
Definition debt_lines (debts profits : list float)
           (insights : list string) : result (list string) :=
  if nonempty debts && nonempty profits then
    avg_debt <- mean debts ;;
    debt_to_income <-
      (if nonempty profits
       then m <- mean profits ;; div avg_debt m
       else Ok (of_Z 0)) ;;
    let insights :=
      append insights ("⚖️ Avg Debt: $" ++ format_2f true avg_debt) in
    let insights :=
      append insights
        ("⚖️ Debt-to-Income Ratio: " ++ format_2f false debt_to_income) in
    Ok insights
  else Ok insights.

(** Step 4 *)
Definition positive_outlook : string :=
  "✅ Positive financial outlook detected.".
Definition negative_outlook : string :=
  "⚠️ Negative financial risks detected.".
Definition neutral_outlook : string := "ℹ️ Neutral outlook.".

Definition sentiment (positive_hits negative_hits : nat) : string :=
  if (negative_hits <? positive_hits)%nat then positive_outlook
  else if (positive_hits <? negative_hits)%nat then negative_outlook
  else neutral_outlook.

(** The margin of step 5: no guard on the divisor. *)
Definition margin (profits revenues : list float) : result float :=
  mp <- mean profits ;;
  mr <- mean revenues ;;
  q <- div mp mr ;;
  Ok (mul q (of_Z 100)).

(** The two tests of step 5; [recommendation] stays ["Hold"] when both
    fail. *)
Definition verdict (margin : float) (positive_hits negative_hits : nat)
  : string :=
  if gt margin (of_Z 15) && (negative_hits <? positive_hits)%nat
  then "Buy"
  else if lt margin (of_Z 5) || (positive_hits <? negative_hits)%nat
  then "Sell"
  else "Hold".

(** Step 5 *)
Definition recommendation (profits revenues : list float)
           (positive_hits negative_hits : nat) : result string :=
  if nonempty profits && nonempty revenues then
    margin <- margin profits revenues ;;
    Ok (verdict margin positive_hits negative_hits)
  else Ok "Hold".

Definition recommendation_line (recommendation : string) : string :=
  "📌 Investment Recommendation: " ++ recommendation.

Definition fallback : string :=
  "No meaningful financial insights extracted.".

(** The list [insights] at the [return]. *)
Definition insights_of (financial_document_data : string)
  : result (list string) :=
  let processed_data := processed financial_document_data in
  let revenues := amounts (revenue_matches processed_data) in
  let profits := amounts (profit_matches processed_data) in
  let debts := amounts (debt_matches processed_data) in
  let insights := [] in
  insights <- margin_lines revenues profits insights ;;
  insights <- debt_lines debts profits insights ;;
  let positive_hits := hits processed_data positive_keywords in
  let negative_hits := hits processed_data negative_keywords in
  let insights :=
    append insights (sentiment positive_hits negative_hits) in
  recommendation <-
    recommendation profits revenues positive_hits negative_hits ;;
  Ok (append insights (recommendation_line recommendation)).

Definition _run (financial_document_data : string) : result string :=
  insights <- insights_of financial_document_data ;;
  Ok (if nonempty insights then join newline insights else fallback).

(** The method statement by statement, on the heap: a call
    [self._run(financial_document_data)], [self] being the reference of the
    instance.  The list [insights] is made on the heap and filled in
    place. *)
Definition call (self : Store.ref) (financial_document_data : string)
  : Store.exec string :=
  let processed_data := processed financial_document_data in
  let revenue_matches := revenue_matches processed_data in
  let profit_matches := profit_matches processed_data in
  let debt_matches := debt_matches processed_data in
  let revenues := amounts revenue_matches in
  let profits := amounts profit_matches in
  let debts := amounts debt_matches in
  insights <~ Store.new_list ;;
  (if nonempty revenues && nonempty profits then
     avg_revenue <~ Store.lift (mean revenues) ;;
     avg_profit <~ Store.lift (mean profits) ;;
     profit_margin <~
       Store.lift
         (if truthy avg_revenue
          then q <- div avg_profit avg_revenue ;; Ok (mul q (of_Z 100))
          else Ok (of_Z 0)) ;;
     Store.append_to insights
       ("📊 Average Revenue: $" ++ format_2f true avg_revenue) ;;;
     Store.append_to insights
       ("📊 Average Profit: $" ++ format_2f true avg_profit) ;;;
     Store.append_to insights
       ("📊 Profit Margin: " ++ format_2f false profit_margin ++ "%")
   else Store.ret tt) ;;;
  (if nonempty debts && nonempty profits then
     avg_debt <~ Store.lift (mean debts) ;;
     debt_to_income <~
       Store.lift
         (if nonempty profits
          then m <- mean profits ;; div avg_debt m
          else Ok (of_Z 0)) ;;
     Store.append_to insights
       ("⚖️ Avg Debt: $" ++ format_2f true avg_debt) ;;;
     Store.append_to insights
       ("⚖️ Debt-to-Income Ratio: " ++ format_2f false debt_to_income)
   else Store.ret tt) ;;;
  let positive_hits := hits processed_data positive_keywords in
  let negative_hits := hits processed_data negative_keywords in
  let sentiment := sentiment positive_hits negative_hits in
  Store.append_to insights sentiment ;;;
  recommendation <~
    Store.lift (recommendation profits revenues positive_hits negative_hits) ;;
  Store.append_to insights (recommendation_line recommendation) ;;;
  items <~ Store.items_of insights ;;
  Store.ret (if nonempty items then join newline items else fallback).

End InvestmentTool.

(** ** [RiskTool] *)

Module RiskTool.
Import PyStr PyFloat Extract.

(** An instance: the fields [name] and [description]. *)
Definition new : Store.object :=
  Store.Instance "Risk Assessment Tool"
    "Analyzes financial documents for risk assessment.".

Definition high_marker : string := "❌".
Definition medium_marker : string := "⚠️".

Definition high_solvency : string :=
  "❌ High solvency risk: Company relies heavily on debt.".
Definition moderate_solvency : string :=
  "⚠️ Moderate solvency risk: Debt levels may be concerning.".
Definition healthy_solvency : string := "✅ Healthy solvency position.".

(** [debt_to_assets = (avg_debt / avg_assets) if avg_assets else 0] *)
Definition debt_to_assets (avg_debt avg_assets : float) : result float :=
  if truthy avg_assets then div avg_debt avg_assets else Ok (of_Z 0).

Definition solvency_class (debt_to_assets : float) : string :=
  if gt debt_to_assets (decimal 6 10) then high_solvency
  else if gt debt_to_assets (decimal 4 10) then moderate_solvency
  else healthy_solvency.

(** Step 3, first block *)
Definition solvency_lines (assets debts : list float)
           (insights : list string) : result (list string) :=
  if nonempty assets && nonempty debts then
    avg_assets <- mean assets ;;
    avg_debt <- mean debts ;;
    ratio <- debt_to_assets avg_debt avg_assets ;;
    let insights :=
      append insights ("⚖️ Debt-to-Assets Ratio: " ++ format_2f false ratio) in
    let insights := append insights (solvency_class ratio) in
    Ok insights
  else Ok insights.

(** [debt_to_income]: [avg_debt / avg_profit] if [avg_profit] is not zero,
    else the float infinity. *)
Definition debt_to_income (avg_debt avg_profit : float) : result float :=
  if truthy avg_profit then div avg_debt avg_profit else Ok inf.

Definition high_servicing : string :=
  "❌ High debt servicing risk: Profits may not cover obligations.".
Definition moderate_servicing : string := "⚠️ Moderate debt servicing risk.".
Definition manageable_servicing : string :=
  "✅ Debt levels manageable relative to income.".

Definition servicing_class (debt_to_income : float) : string :=
  if gt debt_to_income (of_Z 4) then high_servicing
  else if gt debt_to_income (of_Z 2) then moderate_servicing
  else manageable_servicing.

(** Step 3, second block *)
Definition servicing_lines (profits debts : list float)
           (insights : list string) : result (list string) :=
  if nonempty profits && nonempty debts then
    avg_profit <- mean profits ;;
    avg_debt <- mean debts ;;
    ratio <- debt_to_income avg_debt avg_profit ;;
    let insights :=
      append insights ("⚖️ Debt-to-Income Ratio: " ++ format_2f false ratio) in
    let insights := append insights (servicing_class ratio) in
    Ok insights
  else Ok insights.

Definition market_risks : list string :=
  ["competition"; "inflation"; "recession"; "regulation"; "currency";
   "volatility"].
Definition operational_risks : list string :=
  ["lawsuit"; "litigation"; "supply chain"; "strike"; "fraud";
   "management failure"].
Definition negative_signals : list string :=
  ["loss"; "decline"; "uncertain"; "risk"; "default"; "bankruptcy";
   "crisis"].

(** [[word for word in vocabulary if word in processed_data.lower()]] *)
Definition found (processed_data : string) (vocabulary : list string)
  : list string :=
  filter (fun word => contains word (lower processed_data)) vocabulary.

(** Step 4: one line for each vocabulary with a word found. *)
Definition keyword_line (label : string) (found : list string)
           (insights : list string) : list string :=
  if nonempty found
  then append insights (label ++ join ", " found)
  else insights.

Definition market_label : string := "📉 Market Risks detected: ".
Definition operational_label : string := "🏭 Operational Risks detected: ".
Definition negative_label : string := "⚠️ Negative Signals: ".

(** Step 5 *)
Definition risk_score (insights : list string) : nat :=
  (if existsb (contains high_marker) insights then 2 else 0) +
  (if existsb (contains medium_marker) insights then 1 else 0).

Definition high_risk : string := "🔴 High Risk Investment".
Definition medium_risk : string := "🟠 Medium Risk Investment".
Definition low_risk : string := "🟢 Low Risk Investment".

Definition overall (risk_score : nat) : string :=
  if (3 <=? risk_score)%nat then high_risk
  else if (risk_score =? 2)%nat then medium_risk
  else low_risk.

Definition rating_line (overall : string) : string :=
  "📌 Overall Risk Rating: " ++ overall.

Definition fallback : string := "No significant risks detected.".

(** The list [insights] before step 5. *)
Definition findings (financial_document_data : string)
  : result (list string) :=
  let processed_data := processed financial_document_data in
  let debts := amounts (debt_matches processed_data) in
  let assets := amounts (asset_matches processed_data) in
  let profits := amounts (profit_matches processed_data) in
  let insights := [] in
  insights <- solvency_lines assets debts insights ;;
  insights <- servicing_lines profits debts insights ;;
  let market_hits := found processed_data market_risks in
  let operational_hits := found processed_data operational_risks in
  let negative_hits := found processed_data negative_signals in
  let insights := keyword_line market_label market_hits insights in
  let insights := keyword_line operational_label operational_hits insights in
  let insights := keyword_line negative_label negative_hits insights in
  Ok insights.

(** The list [insights] at the [return]. *)
Definition insights_of (financial_document_data : string)
  : result (list string) :=
  insights <- findings financial_document_data ;;
  Ok (append insights (rating_line (overall (risk_score insights)))).

(** The body of the coroutine [_run]: what awaiting it returns. *)
Definition _run (financial_document_data : string) : result string :=
  insights <- insights_of financial_document_data ;;
  Ok (if nonempty insights then join newline insights else fallback).

(** The body of the coroutine statement by statement, on the heap: a call
    [await self._run(financial_document_data)], [self] being the reference
    of the instance.  The body holds no [await].  The list [insights] is
    made on the heap and filled in place; step 5 reads it there. *)
Definition call (self : Store.ref) (financial_document_data : string)
  : Store.exec string :=
  let processed_data := processed financial_document_data in
  let debt_matches := debt_matches processed_data in
  let asset_matches := asset_matches processed_data in
  let profit_matches := profit_matches processed_data in
  let debts := amounts debt_matches in
  let assets := amounts asset_matches in
  let profits := amounts profit_matches in
  insights <~ Store.new_list ;;
  (if nonempty assets && nonempty debts then
     avg_assets <~ Store.lift (mean assets) ;;
     avg_debt <~ Store.lift (mean debts) ;;
     debt_to_assets <~ Store.lift (debt_to_assets avg_debt avg_assets) ;;
     Store.append_to insights
       ("⚖️ Debt-to-Assets Ratio: " ++ format_2f false debt_to_assets) ;;;
     Store.append_to insights (solvency_class debt_to_assets)
   else Store.ret tt) ;;;
  (if nonempty profits && nonempty debts then
     avg_profit <~ Store.lift (mean profits) ;;
     avg_debt <~ Store.lift (mean debts) ;;
     debt_to_income <~ Store.lift (debt_to_income avg_debt avg_profit) ;;
     Store.append_to insights
       ("⚖️ Debt-to-Income Ratio: " ++ format_2f false debt_to_income) ;;;
     Store.append_to insights (servicing_class debt_to_income)
   else Store.ret tt) ;;;
  let market_hits := found processed_data market_risks in
  let operational_hits := found processed_data operational_risks in
  let negative_hits := found processed_data negative_signals in
  (if nonempty market_hits
   then Store.append_to insights (market_label ++ join ", " market_hits)
   else Store.ret tt) ;;;
  (if nonempty operational_hits
   then Store.append_to insights
          (operational_label ++ join ", " operational_hits)
   else Store.ret tt) ;;;
  (if nonempty negative_hits
   then Store.append_to insights (negative_label ++ join ", " negative_hits)
   else Store.ret tt) ;;;
  items <~ Store.items_of insights ;;
  let risk_score := risk_score items in
  let overall := overall risk_score in
  Store.append_to insights (rating_line overall) ;;;
  items <~ Store.items_of insights ;;
  Store.ret (if nonempty items then join newline items else fallback).

End RiskTool.


(** ** What the statements below observe *)

Module Observe.
Import PyStr PyFloat Extract.

(** The last line of an output and the line before it. *)
Definition last_line (out : string) : string :=
  last (lines out) EmptyString.

Definition line_before_last (out : string) : string :=
  last (removelast (lines out)) EmptyString.

(** [w] occurs in the cleaned text, letters in either case. *)
Definition occurs (w text : string) : bool :=
  contains w (lower (processed text)).





(** All five vocabularies of the two tools. *)
Definition vocabularies : list string :=
  (InvestmentTool.positive_keywords ++ InvestmentTool.negative_keywords ++
   RiskTool.market_risks ++ RiskTool.operational_risks ++
   RiskTool.negative_signals)%list.

(** A decimal point in a captured numeral. *)
Fixpoint has_point (s : string) : bool :=
  match s with
  | EmptyString => false
  | String c s' => (code c =? 46)%N || has_point s'
  end.

(** One of the three solvency classifications. *)
Definition is_solvency_line (line : string) : bool :=
  String.eqb line RiskTool.high_solvency ||
  String.eqb line RiskTool.moderate_solvency ||
  String.eqb line RiskTool.healthy_solvency.

(** Lines that are not a solvency classification. *)
Definition other_lines (extra : list string) : Prop :=
  Forall (fun line => is_solvency_line line = false) extra.

(** The line of the debt-to-assets ratio. *)
Definition ratio_line (ratio : float) : string :=
  "⚖️ Debt-to-Assets Ratio: " ++ format_2f false ratio.

End Observe.

(** ** Further observations on the two tools *)

Module Facts.
Import PyStr PyRe PyFloat Extract Observe.

(** Every character of [s] passes [p]. *)
Fixpoint all_chars (p : ascii -> bool) (s : string) : bool :=
  match s with
  | EmptyString => true
  | String c s' => p c && all_chars p s'
  end.

(** A character of the class [[\d,.]]. *)
Definition numeral_char (c : ascii) : bool :=
  is_digit c || (code c =? 44)%N || (code c =? 46)%N.

(** What the group [([\d,.]+)] can capture. *)
Definition numeral (g : string) : bool :=
  negb (is_empty g) && all_chars numeral_char g.

Fixpoint has_digit (s : string) : bool :=
  match s with
  | EmptyString => false
  | String c s' => is_digit c || has_digit s'
  end.

(** The captures that become an amount: no decimal point, one digit at
    least. *)
Definition kept (c : string) : bool := negb (has_point c) && has_digit c.

(** A pattern without a group. *)
Fixpoint groupless (r : regex) : bool :=
  match r with
  | RGroup _ => false
  | RSeq r1 r2 | RAlt r1 r2 => groupless r1 && groupless r2
  | ROpt r1 => groupless r1
  | RLit _ | RClass _ | RPlus _ | RStarLazy _ => true
  end.

(** Zero, a positive number or the positive infinity. *)
Definition nonneg (x : float) : bool :=
  match x with
  | S754_zero false | S754_infinity false | S754_finite false _ _ => true
  | _ => false
  end.

(** The mean of [data] exists and is zero. *)
Definition zero_mean (data : list float) : bool :=
  match mean data with
  | Ok m => is_zero m
  | Raise _ => false
  end.

(** The texts on which a division of [InvestmentTool._run] meets a zero
    mean: the debt-to-income ratio of step 3, the margin of step 5. *)
Definition divides_by_zero (text : string) : bool :=
  (nonempty (debts text) && nonempty (profits text)
   && zero_mean (profits text)) ||
  (nonempty (profits text) && nonempty (revenues text)
   && zero_mean (revenues text)).

(** Printable characters of ASCII, from the blank to the tilde. *)
Definition printable (s : string) : bool := all_chars (between 32 126) s.

(** No line feed in [s]. *)
Definition newline_free (s : string) : bool :=
  all_chars (fun c => negb (code c =? 10)%N) s.

(** Bytes from 128 on: the bytes of the decorative symbols. *)
Definition high_bytes (s : string) : bool :=
  all_chars (fun c => (128 <=? code c)%N) s.

(** The solvency classification that [RiskTool._run] appends, if any. *)
Definition solvency (text : string) : option string :=
  if nonempty (assets text) && nonempty (debts text) then
    match (avg_assets <- mean (assets text) ;;
           avg_debt <- mean (debts text) ;;
           RiskTool.debt_to_assets avg_debt avg_assets) with
    | Ok ratio => Some (RiskTool.solvency_class ratio)
    | Raise _ => None
    end
  else None.

(** The debt servicing classification that [RiskTool._run] appends, if
    any. *)
Definition servicing (text : string) : option string :=
  if nonempty (profits text) && nonempty (debts text) then
    match (avg_profit <- mean (profits text) ;;
           avg_debt <- mean (debts text) ;;
           RiskTool.debt_to_income avg_debt avg_profit) with
    | Ok ratio => Some (RiskTool.servicing_class ratio)
    | Raise _ => None
    end
  else None.

Definition is_line (line : string) (class : option string) : bool :=
  match class with
  | Some c => String.eqb c line
  | None => false
  end.

(** A high classification was appended. *)
Definition flagged_high (text : string) : bool :=
  is_line RiskTool.high_solvency (solvency text) ||
  is_line RiskTool.high_servicing (servicing text).

(** A moderate classification or the line of the negative signals was
    appended. *)
Definition flagged_medium (text : string) : bool :=
  is_line RiskTool.moderate_solvency (solvency text) ||
  is_line RiskTool.moderate_servicing (servicing text) ||
  nonempty (RiskTool.found (processed text) RiskTool.negative_signals).

(** The rating that the flags give. *)
Definition rating_of_flags (high medium : bool) : string :=
  if high then (if medium then RiskTool.high_risk else RiskTool.medium_risk)
  else RiskTool.low_risk.

(** What a block of lines contributes to the two tests of step 5, and that
    none of its lines holds a line feed. *)
Definition block (lines : list string) (high medium : bool) (n : nat) : Prop :=
  existsb (contains RiskTool.high_marker) lines = high /\
  existsb (contains RiskTool.medium_marker) lines = medium /\
  Forall (fun x => newline_free x = true) lines /\
  List.length lines <= n.

(** The answer of a match on the text in small letters. *)
Definition lower_answer (a : answer) : answer :=
  match a with
  | Some (rest, caps) => Some (lower rest, map lower caps)
  | None => None
  end.

End Facts.

(** ** More of Python: [str.replace], [str.endswith], [str.strip],
    [json.dumps], [os.path] *)

Module PyLib.
Import PyStr PyFloat.

(** [s.replace(old, new)] for [old] not empty: the occurrences of [old] from
    the left that do not overlap; [skip] characters of the last occurrence
    are still to be passed. *)
Fixpoint replace_from (old new s : string) (skip : nat) : string :=
  match s with
  | EmptyString => EmptyString
  | String c s' =>
      match skip with
      | S k => replace_from old new s' k
      | O =>
          if starts_with old s
          then new ++ replace_from old new s' (String.length old - 1)
          else String c (replace_from old new s' 0)
      end
  end.

(** With [old] empty, [new] goes in front of every character and at the
    end. *)
Fixpoint intersperse (new s : string) : string :=
  match s with
  | EmptyString => new
  | String c s' => new ++ String c (intersperse new s')
  end.

Definition replace (s old new : string) : string :=
  if is_empty old then intersperse new s else replace_from old new s 0.

(** [s.endswith(suffix)] *)
Definition ends_with (suffix s : string) : bool :=
  (String.length suffix <=? String.length s)%nat &&
  String.eqb
    (substring (String.length s - String.length suffix)
       (String.length suffix) s)
    suffix.

(** [s.lstrip()], [s.rstrip()], [s.strip()] *)
Fixpoint lstrip (s : string) : string :=
  match s with
  | EmptyString => EmptyString
  | String c s' => if is_space c then lstrip s' else s
  end.

Fixpoint rstrip (s : string) : string :=
  match s with
  | EmptyString => EmptyString
  | String c s' =>
      if is_space c && is_empty (rstrip s') then EmptyString
      else String c (rstrip s')
  end.

Definition strip (s : string) : string := rstrip (lstrip s).

(** The double quote and the backslash. *)
Definition quote : string := String (ascii_of_N 34) EmptyString.
Definition backslash : string := String (ascii_of_N 92) EmptyString.

Definition hex_digit (n : N) : ascii :=
  if (n <? 10)%N then ascii_of_N (48 + n) else ascii_of_N (87 + n).

(** What [json.dumps] writes for one character of a string, with
    [ensure_ascii]: the printable characters but the quote and the
    backslash as they are, the others escaped. *)
Definition json_char (c : ascii) : string :=
  let n := code c in
  if (n =? 34)%N then backslash ++ quote
  else if (n =? 92)%N then backslash ++ backslash
  else if (n =? 8)%N then backslash ++ "b"
  else if (n =? 12)%N then backslash ++ "f"
  else if (n =? 10)%N then backslash ++ "n"
  else if (n =? 13)%N then backslash ++ "r"
  else if (n =? 9)%N then backslash ++ "t"
  else if between 32 126 c then String c EmptyString
  else backslash ++ "u00"
       ++ String (hex_digit (n / 16)) (String (hex_digit (n mod 16)) EmptyString).

Fixpoint json_chars (s : string) : string :=
  match s with
  | EmptyString => EmptyString
  | String c s' => json_char c ++ json_chars s'
  end.

(** A string as [json.dumps] writes it. *)
Definition json_string (s : string) : string :=
  quote ++ json_chars s ++ quote.

End PyLib.

(** ** [os.path] on POSIX *)

Module PosixPath.
Import PyStr PyLib.

(** [p.rfind(c)] for one character: the last index of [c], counted from
    [i]; [last] is the one found so far. *)
Fixpoint rfind_from (c : ascii) (p : string) (i : nat) (last : option nat)
  : option nat :=
  match p with
  | EmptyString => last
  | String a p' =>
      rfind_from c p' (S i) (if Ascii.eqb a c then Some i else last)
  end.

Definition rfind (c : ascii) (p : string) : option nat :=
  rfind_from c p 0 None.

(** The loop of [_splitext] that passes the dots in front of the base name:
    [n] indices are left before [dotIndex]. *)
Fixpoint skip_dots (p : string) (filenameIndex n dotIndex : nat)
  : string * string :=
  match n with
  | O => (p, EmptyString)
  | S n' =>
      match get filenameIndex p with
      | Some c =>
          if Ascii.eqb c "." then skip_dots p (S filenameIndex) n' dotIndex
          else (substring 0 dotIndex p,
                substring dotIndex (String.length p - dotIndex) p)
      | None => (substring 0 dotIndex p,
                 substring dotIndex (String.length p - dotIndex) p)
      end
  end.

(** [os.path.splitext(p)] *)
Definition splitext (p : string) : string * string :=
  match rfind "." p with
  | None => (p, EmptyString)
  | Some dotIndex =>
      match rfind "/" p with
      | None => skip_dots p 0 dotIndex dotIndex
      | Some sepIndex =>
          if (sepIndex <? dotIndex)%nat
          then skip_dots p (S sepIndex) (dotIndex - S sepIndex) dotIndex
          else (p, EmptyString)
      end
  end.

(** [os.path.join(a, b)] *)
Definition join (a b : string) : string :=
  if starts_with "/" b then b
  else if is_empty a || ends_with "/" a then a ++ b
  else a ++ "/" ++ b.

End PosixPath.

(** ** [FinancialDocumentTool] *)

Module FinancialDocumentTool.
Import PyStr PyFloat PyLib Extract.

(** One entry of [pages]. *)
Record page_entry : Type :=
  { page : nat;
    content : string }.

(** The dictionary [result]. *)
Record result_dict : Type :=
  { pages : list page_entry;
    full_text : string }.

(** [data.page_content.replace] of two line feeds by one. *)
Definition clean (page_content : string) : string :=
  replace page_content (newline ++ newline) newline.

(** The loop over [enumerate(docs, start=1)]; [docs] are the page contents
    that the loader returned. *)
Fixpoint loop (docs : list string) (i : nat) (pages : list page_entry)
         (full_report : list string) : list page_entry * list string :=
  match docs with
  | [] => (pages, full_report)
  | data :: docs' =>
      let content := clean data in
      let pages := append pages {| page := i; content := content |} in
      let full_report := append full_report content in
      loop docs' (S i) pages full_report
  end.

Definition build (docs : list string) : result_dict :=
  let '(pages, full_report) := loop docs 1 [] [] in
  {| pages := pages; full_text := join newline full_report |}.

(** [json.dumps(result, indent=2)] *)
Definition page_json (p : page_entry) : string :=
  "    {" ++ newline ++
  "      " ++ quote ++ "page" ++ quote ++ ": "
  ++ digits_of (Z.of_nat (page p)) ++ "," ++ newline ++
  "      " ++ quote ++ "content" ++ quote ++ ": "
  ++ json_string (content p) ++ newline ++
  "    }".

Definition pages_json (pages : list page_entry) : string :=
  match pages with
  | [] => "[]"
  | _ => "[" ++ newline ++ join ("," ++ newline) (map page_json pages)
         ++ newline ++ "  ]"
  end.

Definition dumps (result : result_dict) : string :=
  "{" ++ newline ++
  "  " ++ quote ++ "pages" ++ quote ++ ": " ++ pages_json (pages result)
  ++ "," ++ newline ++
  "  " ++ quote ++ "full_text" ++ quote ++ ": "
  ++ json_string (full_text result) ++ newline ++
  "}".

(** [_run], given the pages that [PyPDFLoader(path).load()] returned. *)
Definition _run (docs : list string) : string := dumps (build docs).

End FinancialDocumentTool.

(** ** main.py: the upload handler *)

Module Main.
Import PyStr PyLib.

(** What is raised inside the handler: an [HTTPException], or another
    exception with its text [str(e)]. *)
Inductive exception : Type :=
| HTTPException (status_code : nat) (detail : string)
| OtherException (message : string).

Inductive outcome (A : Type) : Type :=
| Returned (a : A)
| Raised (e : exception).
Arguments Returned {A} a.
Arguments Raised {A} e.

(** What the client gets: the dictionary of a success, a [JSONResponse], or
    the [HTTPException] that left the handler. *)
Inductive response : Type :=
| Success (query analysis file_processed : string)
| JSONResponse (status_code : nat) (detail error : string)
| Failure (status_code : nat) (detail : string).

Definition default_query : string :=
  "Analyze this financial document for investment insights".

(** [filename.lower().endswith(".pdf")] *)
Definition allowed (filename : string) : bool :=
  ends_with ".pdf" (lower filename).

(** [os.path.splitext(filename)[-1].lower()] *)
Definition ext_of (filename : string) : string :=
  lower (snd (PosixPath.splitext filename)).

(** [os.path.join("data", f"{file_id}{ext}")] *)
Definition file_path_of (file_id filename : string) : string :=
  PosixPath.join "data" (file_id ++ ext_of filename).

Definition max_size : N := 10 * 1024 * 1024.

(** The loop that saves the upload; [reads] are the chunks that the
    successive [file.read] return, an empty one or their end being the end
    of the upload; [written] is what went to the file so far.  The result
    is the content of the file when the loop is left, and [size] or the
    exception. *)
Fixpoint save (reads : list string) (size : N) (written : string)
  : string * outcome N :=
  match reads with
  | [] => (written, Returned size)
  | chunk :: reads' =>
      if is_empty chunk then (written, Returned size)
      else
        let size := (size + N.of_nat (String.length chunk))%N in
        if (max_size <? size)%N
        then (written,
              Raised (HTTPException 413
                        "Uploaded file too large (max 10 MB)."))
        else save reads' size (written ++ chunk)
  end.

(** [(query or "").strip() or default] *)
Definition normalize_query (query : string) : string :=
  let stripped := strip query in
  if is_empty stripped then default_query else stripped.

(** The handler [except Exception as e]. *)
Definition on_exception (message : string) : response :=
  if contains "BadRequestError" message
     || contains "huggingface" (lower message)
  then JSONResponse 422 "Hugging Face API request failed" message
  else Failure 500 "Unexpected error processing document.".

(** What is at a path: a file with its content, and whether [os.remove]
    can remove it (it cannot when the file or its directory is
    protected). *)
Record entry : Type :=
  { content : string;
    removable : bool }.

(** The files on disk, by path. *)
Definition disk : Type := string -> option entry.

(** [open(path, "wb")] and the writes that follow: a new file, which can be
    removed. *)
Definition write_file (d : disk) (path content : string) : disk :=
  fun p =>
    if String.eqb p path
    then Some {| content := content; removable := true |}
    else d p.

(** The disk without what is at [path]. *)
Definition without (d : disk) (path : string) : disk :=
  fun p => if String.eqb p path then None else d p.

(** [os.remove(path)]: raises when nothing is at [path] or when what is
    there cannot be removed, and the disk stays as it is. *)
Definition os_remove (d : disk) (path : string) : outcome disk :=
  match d path with
  | Some e =>
      if removable e then Returned (without d path)
      else Raised (OtherException "PermissionError")
  | None => Raised (OtherException "FileNotFoundError")
  end.

(** The crew is outside this file: called with the query and the absolute
    path, it may change the disk, and returns its analysis or raises. *)
Definition crew_type : Type :=
  string -> string -> disk -> disk * outcome string.

(** [analyze_document].  The calls to the operating system but [os.remove]
    are taken to succeed; directories are not part of [disk].  [file_id] is
    the text of the fresh UUID, [abspath] is [os.path.abspath]. *)
Definition analyze_document (crew : crew_type) (abspath : string -> string)
           (file_id : string) (file_filename : option string)
           (reads : list string) (query : string) (d : disk)
  : disk * response :=
  let filename :=
    match file_filename with
    | Some f => f
    | None => EmptyString
    end in
  if negb (allowed filename)
  then (d, Failure 400 "Only PDF uploads are supported.")
  else
    let file_path := file_path_of file_id filename in
    (* try *)
    let '(d, result) :=
      let '(written, saved) := save reads 0 EmptyString in
      let d := write_file d file_path written in
      match saved with
      | Raised e => (d, Raised e)
      | Returned _ =>
          let query := normalize_query query in
          let '(d, analysis) := crew query (abspath file_path) d in
          match analysis with
          | Returned a => (d, Returned (Success query a filename))
          | Raised e => (d, Raised e)
          end
      end in
    (* except *)
    let answer :=
      match result with
      | Returned r => r
      | Raised (HTTPException status_code detail) =>
          Failure status_code detail
      | Raised (OtherException message) => on_exception message
      end in
    (* finally: the exception of [os.remove] is caught *)
    let d :=
      match d file_path with
      | Some _ =>
          match os_remove d file_path with
          | Returned d' => d'
          | Raised _ => d
          end
      | None => d
      end in
    (d, answer).

End Main.

(** ** Observations on the document tool and on the handler *)

Module Facts2.
Import PyStr PyLib Facts.

(** [s] without its line feeds. *)
Fixpoint without_newlines (s : string) : string :=
  match s with
  | EmptyString => EmptyString
  | String c s' =>
      if (code c =? 10)%N then without_newlines s'
      else String c (without_newlines s')
  end.

(** The number of line feeds of [s]. *)
Fixpoint line_feeds (s : string) : nat :=
  match s with
  | EmptyString => 0
  | String c s' => (if (code c =? 10)%N then 1 else 0) + line_feeds s'
  end.

(** Printable characters of ASCII and line feeds only. *)
Definition plain_text (s : string) : bool :=
  all_chars (fun c => between 32 126 c || (code c =? 10)%N) s.

(** The chunks of an upload up to its end: the first empty chunk. *)
Fixpoint chunks_of (reads : list string) : list string :=
  match reads with
  | [] => []
  | chunk :: reads' =>
      if is_empty chunk then [] else chunk :: chunks_of reads'
  end.

(** The bytes of an upload. *)
Definition upload (reads : list string) : string :=
  String.concat EmptyString (chunks_of reads).

Definition size_of (s : string) : N := N.of_nat (String.length s).

(** White space only. *)
Definition blank (s : string) : bool := all_chars is_space s.

(** The characters of the text of a UUID: hexadecimal digits and hyphens. *)
Definition uuid_text (s : string) : bool :=
  negb (is_empty s) &&
  all_chars (fun c => is_digit c || between 97 102 c || (code c =? 45)%N) s.

End Facts2.

Import PyStr PyRe PyFloat Extract Observe.

(** ** Strings *)

Section StringFacts.

Lemma string_app_assoc (a b c : string) : (a ++ b) ++ c = a ++ b ++ c.
Proof. induction a as [|x a IH]; simpl; [reflexivity | now rewrite IH]. Qed.

Lemma starts_with_app (w s : string) : starts_with w (w ++ s) = true.
Proof.
  induction w as [|c w IH]; simpl; [reflexivity|].
  now rewrite Ascii.eqb_refl.
Qed.

Lemma contains_prefix (w s : string) :
  starts_with w s = true -> contains w s = true.
Proof. intros H. destruct s; cbn [contains]; rewrite H; reflexivity. Qed.

Lemma contains_tail (w : string) (c : ascii) (s : string) :
  contains w (String c s) = false -> contains w s = false.
Proof. cbn [contains]. intros H. apply orb_false_iff in H. tauto. Qed.

Lemma contains_head (w s : string) :
  contains w s = false -> starts_with w s = false.
Proof.
  destruct s; cbn [contains]; intros H; apply orb_false_iff in H; tauto.
Qed.

Lemma count_from_absent (w s : string) (skip : nat) :
  contains w s = false -> count_from w s skip = 0.
Proof.
  revert skip. induction s as [|c s IH]; intros skip H; [reflexivity|].
  pose proof (contains_head _ _ H) as Hp.
  pose proof (contains_tail _ _ _ H) as Ht.
  cbn [count_from]. destruct skip; [rewrite Hp|]; now apply IH.
Qed.

Lemma count_absent (s w : string) :
  is_empty w = false -> contains w s = false -> count s w = 0.
Proof.
  intros Hw H. unfold count. rewrite Hw. now apply count_from_absent.
Qed.

Lemma lines_from_app (a b cur : string) :
  lines_from cur (a ++ newline ++ b)
  = (lines_from cur a ++ lines_from EmptyString b)%list.
Proof.
  revert cur. induction a as [|c a IH]; intros cur; [reflexivity|].
  change (String c a ++ newline ++ b) with (String c (a ++ newline ++ b)).
  cbn [lines_from]. destruct (code c =? 10)%N.
  - rewrite IH. reflexivity.
  - apply IH.
Qed.

Lemma lines_app (a b : string) :
  lines (a ++ newline ++ b) = (lines a ++ lines b)%list.
Proof. apply lines_from_app. Qed.

Lemma join_append (sep : string) (l : list string) (x : string) :
  join sep (append l x)
  = if nonempty l then join sep l ++ sep ++ x else x.
Proof.
  unfold append. induction l as [|y l IH]; [reflexivity|].
  cbn [nonempty]. destruct l as [|z l].
  - reflexivity.
  - change (join sep ((y :: z :: l) ++ [x])%list)
      with (y ++ sep ++ join sep ((z :: l) ++ [x])%list).
    rewrite IH. cbn [nonempty].
    change (join sep (y :: z :: l)) with (y ++ sep ++ join sep (z :: l)).
    now rewrite !string_app_assoc.
Qed.

Lemma nonempty_append {A : Type} (l : list A) (x : A) :
  nonempty (append l x) = true.
Proof. now destruct l. Qed.

Lemma lines_nonempty (s : string) : lines s <> [].
Proof.
  unfold lines. generalize EmptyString.
  induction s as [|c s IH]; intros cur; cbn [lines_from].
  - discriminate.
  - destruct (code c =? 10)%N; [discriminate | apply IH].
Qed.

End StringFacts.

(** ** A word without white space occurs in the cleaned text only where it
    occurs in the text *)

Section Cleaning.










End Cleaning.

(** ** The matcher: a match starts with a label word *)

Section Anchors.

Lemma or_else_some (a b : answer) (x : string * list string) :
  or_else a b = Some x -> a = Some x \/ b = Some x.
Proof. destruct a; simpl; intros H; [left | right]; exact H. Qed.






Lemma high_differs (p c : ascii) :
  (128 <=? code p)%N = true -> (code c <? 128)%N = true ->
  Ascii.eqb p c = false.
Proof.
  intros Hp Hc. destruct (Ascii.eqb_spec p c) as [->|]; [|reflexivity].
  apply N.leb_le in Hp. apply N.ltb_lt in Hc. lia.
Qed.











End Anchors.

(** ** The two tools, step by step *)

Section Steps.

Lemma investment_steps (text : string) :
  InvestmentTool.insights_of text =
  (insights <- InvestmentTool.margin_lines (revenues text) (profits text) [] ;;
   insights <- InvestmentTool.debt_lines (debts text) (profits text) insights ;;
   recommendation <-
     InvestmentTool.recommendation (profits text) (revenues text)
       (InvestmentTool.positive_hits text) (InvestmentTool.negative_hits text) ;;
   Ok (append
         (append insights
            (InvestmentTool.sentiment (InvestmentTool.positive_hits text)
               (InvestmentTool.negative_hits text)))
         (InvestmentTool.recommendation_line recommendation))).
Proof. reflexivity. Qed.

Lemma risk_steps (text : string) :
  RiskTool.findings text =
  (insights <- RiskTool.solvency_lines (assets text) (debts text) [] ;;
   insights <- RiskTool.servicing_lines (profits text) (debts text) insights ;;
   Ok (RiskTool.keyword_line RiskTool.negative_label
         (RiskTool.found (processed text) RiskTool.negative_signals)
         (RiskTool.keyword_line RiskTool.operational_label
            (RiskTool.found (processed text) RiskTool.operational_risks)
            (RiskTool.keyword_line RiskTool.market_label
               (RiskTool.found (processed text) RiskTool.market_risks)
               insights)))).
Proof. reflexivity. Qed.

Lemma ok_inj {A : Type} (a b : A) : Ok a = Ok b -> a = b.
Proof. now intros [=]. Qed.

Lemma mean_returns (data : list float) :
  data <> [] -> exists m, mean data = Ok m.
Proof.
  destruct data as [|x data]; [congruence|]. intros _. unfold mean.
  destruct (forallb is_finite (x :: data)); eexists; reflexivity.
Qed.

Lemma nonempty_true {A : Type} (l : list A) : nonempty l = true <-> l <> [].
Proof. destruct l; simpl; split; congruence. Qed.

Lemma risk_div_returns (x y : float) :
  truthy y = true -> exists q, div x y = Ok q.
Proof.
  unfold truthy, div. destruct (is_zero y); [discriminate|].
  intros _. eexists; reflexivity.
Qed.

Lemma solvency_lines_returns (assets debts : list float) (l : list string) :
  exists l', RiskTool.solvency_lines assets debts l = Ok l'.
Proof.
  unfold RiskTool.solvency_lines.
  destruct (nonempty assets && nonempty debts) eqn:E; [|eexists; reflexivity].
  apply andb_true_iff in E. destruct E as [Ea Ed].
  destruct (mean_returns assets) as [a ->]; [now apply nonempty_true|].
  destruct (mean_returns debts) as [d ->]; [now apply nonempty_true|].
  cbn [bind]. unfold RiskTool.debt_to_assets.
  destruct (truthy a) eqn:T.
  - destruct (risk_div_returns d a T) as [q ->]. eexists; reflexivity.
  - eexists; reflexivity.
Qed.

Lemma servicing_lines_returns (profits debts : list float) (l : list string) :
  exists l', RiskTool.servicing_lines profits debts l = Ok l'.
Proof.
  unfold RiskTool.servicing_lines.
  destruct (nonempty profits && nonempty debts) eqn:E; [|eexists; reflexivity].
  apply andb_true_iff in E. destruct E as [Ep Ed].
  destruct (mean_returns profits) as [a ->]; [now apply nonempty_true|].
  destruct (mean_returns debts) as [d ->]; [now apply nonempty_true|].
  cbn [bind]. unfold RiskTool.debt_to_income.
  destruct (truthy a) eqn:T.
  - destruct (risk_div_returns d a T) as [q ->]. eexists; reflexivity.
  - eexists; reflexivity.
Qed.

(** [RiskTool._run] never raises. *)
Lemma risk_findings_return (text : string) :
  exists l, RiskTool.findings text = Ok l.
Proof.
  rewrite risk_steps.
  destruct (solvency_lines_returns (assets text) (debts text) []) as [l1 ->].
  cbn [bind].
  destruct (servicing_lines_returns (profits text) (debts text) l1) as [l2 ->].
  eexists; reflexivity.
Qed.

Lemma risk_run_returns (text : string) :
  exists l,
    RiskTool.findings text = Ok l /\
    RiskTool._run text =
    Ok (join newline
          (append l (RiskTool.rating_line
                       (RiskTool.overall (RiskTool.risk_score l))))).
Proof.
  destruct (risk_findings_return text) as [l Hl]. exists l. split; [exact Hl|].
  unfold RiskTool._run, RiskTool.insights_of. rewrite Hl. cbn [bind].
  now rewrite nonempty_append.
Qed.

End Steps.

(** ** Extraction *)

Section Extraction.


Lemma point_not_digits (s : string) :
  has_point s = true -> all_digits s = false.
Proof.
  induction s as [|c s IH]; [discriminate|].
  cbn [has_point all_digits]. intros H. apply orb_true_iff in H.
  destruct H as [H|H].
  - apply N.eqb_eq in H. unfold is_digit, between. rewrite H. reflexivity.
  - rewrite (IH H). apply andb_false_r.
Qed.

Lemma amounts_app (l1 l2 : list string) :
  amounts (l1 ++ l2) = (amounts l1 ++ amounts l2)%list.
Proof. unfold amounts. now rewrite filter_app, map_app. Qed.

Lemma amounts_drop (before after : list string) (c : string) :
  isdigit (remove_commas c) = false ->
  amounts (before ++ c :: after) = amounts (before ++ after).
Proof.
  intros H. rewrite !amounts_app. f_equal.
  unfold amounts. cbn [filter]. now rewrite H.
Qed.

End Extraction.

(** ** The shape of the outputs *)

Section Shapes.

Lemma last_line_join (l : list string) (x : string) :
  lines x = [x] -> last_line (join newline (append l x)) = x.
Proof.
  intros Hx. unfold last_line. rewrite join_append.
  destruct (nonempty l).
  - rewrite lines_app, Hx. apply last_last.
  - now rewrite Hx.
Qed.

Lemma line_before_last_join (l : list string) (x y : string) :
  lines x = [x] -> lines y = [y] ->
  line_before_last (join newline (append (append l x) y)) = x.
Proof.
  intros Hx Hy. unfold line_before_last.
  rewrite join_append, nonempty_append, lines_app, Hy, removelast_last.
  now apply last_line_join.
Qed.

Lemma verdict_cases (m : float) (p n : nat) :
  InvestmentTool.verdict m p n = "Buy" \/
  InvestmentTool.verdict m p n = "Sell" \/
  InvestmentTool.verdict m p n = "Hold".
Proof.
  unfold InvestmentTool.verdict.
  destruct (gt m (of_Z 15) && (n <? p)%nat); [now left|].
  destruct (lt m (of_Z 5) || (p <? n)%nat); [right; now left | right; now right].
Qed.

Lemma recommendation_cases (ps rs : list float) (p n : nat) (r : string) :
  InvestmentTool.recommendation ps rs p n = Ok r ->
  r = "Buy" \/ r = "Sell" \/ r = "Hold".
Proof.
  unfold InvestmentTool.recommendation.
  destruct (nonempty ps && nonempty rs).
  - destruct (InvestmentTool.margin ps rs) as [m|]; cbn [bind]; [|discriminate].
    intros [= <-]. apply verdict_cases.
  - intros [= <-]. right; now right.
Qed.

Lemma recommendation_line_lines (r : string) :
  r = "Buy" \/ r = "Sell" \/ r = "Hold" ->
  lines (InvestmentTool.recommendation_line r)
  = [InvestmentTool.recommendation_line r].
Proof. intros [-> | [-> | ->]]; reflexivity. Qed.

Lemma sentiment_lines (p n : nat) :
  lines (InvestmentTool.sentiment p n) = [InvestmentTool.sentiment p n].
Proof.
  unfold InvestmentTool.sentiment.
  destruct (n <? p)%nat; [reflexivity|]. destruct (p <? n)%nat; reflexivity.
Qed.

Lemma recommendation_line_inj (a b : string) :
  InvestmentTool.recommendation_line a = InvestmentTool.recommendation_line b ->
  a = b.
Proof. unfold InvestmentTool.recommendation_line. simpl. now intros [=]. Qed.

(** What [InvestmentTool._run] returns, when it returns. *)
Lemma investment_run_shape (text out : string) :
  InvestmentTool._run text = Ok out ->
  exists pre r,
    InvestmentTool.recommendation (profits text) (revenues text)
      (InvestmentTool.positive_hits text) (InvestmentTool.negative_hits text)
    = Ok r /\
    out = join newline
            (append
               (append pre
                  (InvestmentTool.sentiment (InvestmentTool.positive_hits text)
                     (InvestmentTool.negative_hits text)))
               (InvestmentTool.recommendation_line r)).
Proof.
  unfold InvestmentTool._run. rewrite investment_steps.
  destruct (InvestmentTool.margin_lines _ _ _) as [l1|]; [|discriminate].
  cbn [bind].
  destruct (InvestmentTool.debt_lines _ _ _) as [l2|]; [|discriminate].
  cbn [bind].
  destruct (InvestmentTool.recommendation _ _ _ _) as [r|]; [|discriminate].
  cbn [bind]. rewrite nonempty_append. intros [= <-].
  exists l2, r. split; reflexivity.
Qed.

Lemma investment_last_lines (text out : string) :
  InvestmentTool._run text = Ok out ->
  exists r,
    InvestmentTool.recommendation (profits text) (revenues text)
      (InvestmentTool.positive_hits text) (InvestmentTool.negative_hits text)
    = Ok r /\
    last_line out = InvestmentTool.recommendation_line r /\
    line_before_last out
    = InvestmentTool.sentiment (InvestmentTool.positive_hits text)
        (InvestmentTool.negative_hits text).
Proof.
  intros H. destruct (investment_run_shape _ _ H) as [pre [r [Hr ->]]].
  exists r. split; [exact Hr|].
  pose proof (recommendation_line_lines r (recommendation_cases _ _ _ _ _ Hr))
    as Hl.
  split.
  - now apply last_line_join.
  - apply line_before_last_join; [apply sentiment_lines | exact Hl].
Qed.

Lemma rating_line_lines (n : nat) :
  lines (RiskTool.rating_line (RiskTool.overall n))
  = [RiskTool.rating_line (RiskTool.overall n)].
Proof.
  unfold RiskTool.overall.
  destruct (3 <=? n)%nat; [reflexivity|]. destruct (n =? 2)%nat; reflexivity.
Qed.

Lemma hits_absent (processed_data : string) (keywords : list string) :
  (forall w, In w keywords ->
             is_empty w = false /\
             contains w (lower processed_data) = false) ->
  InvestmentTool.hits processed_data keywords = 0.
Proof.
  unfold InvestmentTool.hits, list_sum.
  induction keywords as [|w ws IH]; intros H; [reflexivity|].
  cbn [map fold_right]. destruct (H w (or_introl eq_refl)) as [He Hc].
  rewrite (count_absent _ _ He Hc), IH; [reflexivity|].
  intros v Hv. apply H. now right.
Qed.

Lemma found_absent (processed_data : string) (vocabulary : list string) :
  (forall w, In w vocabulary -> contains w (lower processed_data) = false) ->
  RiskTool.found processed_data vocabulary = [].
Proof.
  unfold RiskTool.found.
  induction vocabulary as [|w ws IH]; intros H; [reflexivity|].
  cbn [filter]. rewrite (H w (or_introl eq_refl)). apply IH.
  intros v Hv. apply H. now right.
Qed.

Lemma found_present (processed_data : string) (vocabulary : list string)
      (w : string) :
  In w vocabulary -> contains w (lower processed_data) = true ->
  RiskTool.found processed_data vocabulary <> [].
Proof.
  intros Hw Hc E.
  assert (Hin : In w (RiskTool.found processed_data vocabulary)).
  { apply filter_In. now split. }
  rewrite E in Hin. destruct Hin.
Qed.

Lemma vocabulary_words_nonempty (w : string) :
  In w vocabularies -> is_empty w = false.
Proof.
  unfold vocabularies. simpl.
  intros H. repeat (destruct H as [<-|H]; [reflexivity|]). destruct H.
Qed.

End Shapes.

(** ** Floats and the steps that divide *)

Section Divisions.

Lemma zero_profit_margin (mp mr : float) :
  is_zero mp = true -> is_zero mr = false ->
  gt (mul (SFdiv prec emax mp mr) (of_Z 100)) (of_Z 15) = false /\
  SFeqb (mul (SFdiv prec emax mp mr) (of_Z 100)) (of_Z 15) = false.
Proof.
  destruct mp as [s| | |]; try discriminate. intros _.
  destruct mr as [s'|s'| |s' m e]; try discriminate; intros _;
    try destruct s; try destruct s'; split; vm_compute; reflexivity.
Qed.

Lemma eqb_finite (x : float) (m : positive) (e : Z) :
  SFeqb x (S754_finite false m e) = true ->
  x = S754_finite false m e.
Proof.
  unfold SFeqb, SFcompare.
  destruct x as [s|s| |s m' e']; try discriminate.
  - destruct s; discriminate.
  - destruct s; [discriminate|].
    destruct (Z.compare_spec e' e) as [->| |]; try discriminate.
    change (Pos.compare_cont Eq m' m) with (Pos.compare m' m).
    destruct (Pos.compare_spec m' m) as [->| |]; try discriminate.
    reflexivity.
Qed.

Lemma eqb_15 (x : float) :
  SFeqb x (of_Z 15) = true -> x = of_Z 15.
Proof. apply eqb_finite. Qed.

Lemma margin_lines_returns (rs ps : list float) (l : list string) :
  exists l', InvestmentTool.margin_lines rs ps l = Ok l'.
Proof.
  unfold InvestmentTool.margin_lines.
  destruct (nonempty rs && nonempty ps) eqn:E; [|eexists; reflexivity].
  apply andb_true_iff in E. destruct E as [Er Ep].
  destruct (mean_returns rs) as [a ->]; [now apply nonempty_true|].
  destruct (mean_returns ps) as [b ->]; [now apply nonempty_true|].
  cbn [bind]. destruct (truthy a) eqn:T.
  - destruct (risk_div_returns b a T) as [q ->]. eexists; reflexivity.
  - eexists; reflexivity.
Qed.

Lemma debt_lines_returns (ds ps : list float) (l : list string) (mp : float) :
  mean ps = Ok mp -> is_zero mp = false ->
  exists l', InvestmentTool.debt_lines ds ps l = Ok l'.
Proof.
  intros Hm Hz. unfold InvestmentTool.debt_lines.
  destruct (nonempty ds && nonempty ps) eqn:E; [|eexists; reflexivity].
  apply andb_true_iff in E. destruct E as [Ed Ep].
  destruct (mean_returns ds) as [d ->]; [now apply nonempty_true|].
  cbn [bind]. rewrite Ep, Hm. cbn [bind]. unfold div. rewrite Hz.
  eexists; reflexivity.
Qed.

Lemma recommendation_value (ps rs : list float) (p n : nat) (mp mr : float) :
  ps <> [] -> rs <> [] -> mean ps = Ok mp -> mean rs = Ok mr ->
  is_zero mr = false ->
  InvestmentTool.recommendation ps rs p n
  = Ok (InvestmentTool.verdict (mul (SFdiv prec emax mp mr) (of_Z 100)) p n).
Proof.
  intros Hp Hr Hmp Hmr Hz. unfold InvestmentTool.recommendation.
  apply nonempty_true in Hp, Hr. rewrite Hp, Hr. cbn [andb].
  unfold InvestmentTool.margin. rewrite Hmp, Hmr. cbn [bind].
  unfold div. rewrite Hz. reflexivity.
Qed.

Lemma investment_run_returns (text : string) (mp mr : float) :
  profits text <> [] -> revenues text <> [] ->
  mean (profits text) = Ok mp -> mean (revenues text) = Ok mr ->
  is_zero mp = false -> is_zero mr = false ->
  exists out, InvestmentTool._run text = Ok out.
Proof.
  intros Hp Hr Hmp Hmr Hzp Hzr.
  unfold InvestmentTool._run. rewrite investment_steps.
  destruct (margin_lines_returns (revenues text) (profits text) [])
    as [l1 ->]. cbn [bind].
  destruct (debt_lines_returns (debts text) (profits text) l1 mp Hmp Hzp)
    as [l2 ->]. cbn [bind].
  rewrite (recommendation_value _ _ _ _ mp mr Hp Hr Hmp Hmr Hzr).
  eexists; reflexivity.
Qed.

Lemma verdict_buy (m : float) (p n : nat) :
  InvestmentTool.verdict m p n = "Buy" <->
  gt m (of_Z 15) = true /\ n < p.
Proof.
  unfold InvestmentTool.verdict. rewrite <- Nat.ltb_lt.
  destruct (gt m (of_Z 15)); destruct (n <? p)%nat; cbn [andb];
    try (destruct (lt m (of_Z 5) || (p <? n)%nat));
    split; try tauto; try discriminate; intros [? ?]; discriminate.
Qed.

Lemma verdict_sell (m : float) (p n : nat) :
  ~ (gt m (of_Z 15) = true /\ n < p) ->
  lt m (of_Z 5) = true \/ p < n ->
  InvestmentTool.verdict m p n = "Sell".
Proof.
  unfold InvestmentTool.verdict. rewrite <- !Nat.ltb_lt. intros Hb Hs.
  destruct (gt m (of_Z 15) && (n <? p)%nat) eqn:E.
  - apply andb_true_iff in E. tauto.
  - destruct Hs as [-> | ->]; [reflexivity | now rewrite orb_true_r].
Qed.

Lemma verdict_hold (m : float) (p n : nat) :
  ~ (gt m (of_Z 15) = true /\ n < p) ->
  ~ (lt m (of_Z 5) = true \/ p < n) ->
  InvestmentTool.verdict m p n = "Hold".
Proof.
  unfold InvestmentTool.verdict. rewrite <- !Nat.ltb_lt. intros Hb Hs.
  destruct (gt m (of_Z 15) && (n <? p)%nat) eqn:E.
  - apply andb_true_iff in E. tauto.
  - destruct (lt m (of_Z 5) || (p <? n)%nat) eqn:F; [|reflexivity].
    apply orb_true_iff in F. tauto.
Qed.

End Divisions.

(** ** Comparisons with the thresholds of the risk tool *)

Section Thresholds.

Lemma compare_antisym (x y : float) :
  SFcompare y x = option_map CompOpp (SFcompare x y).
Proof.
  destruct x as [s|s| |s m e], y as [s'|s'| |s' m' e'];
    try reflexivity; try (destruct s; reflexivity);
    try (destruct s'; reflexivity);
    try (destruct s, s'; reflexivity).
  destruct s, s'; cbn [SFcompare option_map]; try reflexivity;
    rewrite (Z.compare_antisym e e');
    destruct (e ?= e')%Z; cbn [CompOpp]; try reflexivity;
    change (Pos.compare_cont Eq m' m) with (Pos.compare m' m);
    change (Pos.compare_cont Eq m m') with (Pos.compare m m');
    rewrite (Pos.compare_antisym m m'); now destruct (m ?= m')%positive.
Qed.

Lemma leb_not_gt (x c : float) : SFleb x c = true -> gt x c = false.
Proof.
  unfold gt, SFleb, SFltb. rewrite (compare_antisym x c).
  destruct (SFcompare x c) as [[| |]|]; cbn; congruence.
Qed.

Lemma leb_04_not_gt_06 (x : float) :
  SFleb x (decimal 4 10) = true -> gt x (decimal 6 10) = false.
Proof.
  change (decimal 4 10) with (S754_finite false 7205759403792794 (-54)).
  change (decimal 6 10) with (S754_finite false 5404319552844595 (-53)).
  unfold gt, SFleb, SFltb.
  destruct x as [s|s| |s m e]; cbn [SFcompare]; try reflexivity.
  - destruct s; [reflexivity | discriminate].
  - destruct s; [reflexivity|].
    destruct (Z.compare_spec e (-54)) as [E|E|E]; try discriminate.
    + subst e. reflexivity.
    + intros _. destruct (Z.compare_spec (-53) e); try reflexivity; lia.
Qed.

Lemma solvency_class_high (r : float) :
  gt r (decimal 6 10) = true -> RiskTool.solvency_class r = RiskTool.high_solvency.
Proof. unfold RiskTool.solvency_class. now intros ->. Qed.

Lemma solvency_class_moderate (r : float) :
  gt r (decimal 4 10) = true -> SFleb r (decimal 6 10) = true ->
  RiskTool.solvency_class r = RiskTool.moderate_solvency.
Proof.
  unfold RiskTool.solvency_class. intros -> H.
  now rewrite (leb_not_gt _ _ H).
Qed.

Lemma solvency_class_healthy (r : float) :
  SFleb r (decimal 4 10) = true ->
  RiskTool.solvency_class r = RiskTool.healthy_solvency.
Proof.
  unfold RiskTool.solvency_class. intros H.
  now rewrite (leb_04_not_gt_06 _ H), (leb_not_gt _ _ H).
Qed.

Lemma solvency_class_at_06 (r : float) :
  SFeqb r (decimal 6 10) = true ->
  RiskTool.solvency_class r = RiskTool.moderate_solvency.
Proof.
  change (decimal 6 10) with (S754_finite false 5404319552844595 (-53)).
  intros H. apply eqb_finite in H. subst r. reflexivity.
Qed.

Lemma solvency_class_counts (r : float) :
  is_solvency_line (RiskTool.solvency_class r) = true.
Proof.
  unfold RiskTool.solvency_class.
  destruct (gt r (decimal 6 10)); [reflexivity|].
  destruct (gt r (decimal 4 10)); reflexivity.
Qed.

Lemma filter_other_lines (extra : list string) :
  other_lines extra -> filter is_solvency_line extra = [].
Proof.
  induction 1 as [|x l Hx _ IH]; [reflexivity|].
  cbn [filter]. now rewrite Hx.
Qed.

Lemma other_lines_app (a b : list string) :
  other_lines a -> other_lines b -> other_lines (a ++ b).
Proof. intros Ha Hb. apply Forall_app. now split. Qed.

Lemma ratio_line_other (r : float) : is_solvency_line (ratio_line r) = false.
Proof. reflexivity. Qed.

Lemma servicing_lines_extend (ps ds : list float) (l l' : list string) :
  RiskTool.servicing_lines ps ds l = Ok l' ->
  exists extra, l' = (l ++ extra)%list /\ other_lines extra.
Proof.
  unfold RiskTool.servicing_lines.
  destruct (nonempty ps && nonempty ds).
  - destruct (mean ps) as [a|]; [|discriminate].
    destruct (mean ds) as [d|]; [|discriminate]. cbn [bind].
    destruct (RiskTool.debt_to_income d a) as [r|]; [|discriminate].
    cbn [bind]. intros H. apply ok_inj in H. subst l'.
    exists ["⚖️ Debt-to-Income Ratio: " ++ format_2f false r;
            RiskTool.servicing_class r].
    split; [unfold append; now rewrite <- app_assoc|].
    repeat constructor.
    unfold RiskTool.servicing_class.
    destruct (gt r (of_Z 4)); [reflexivity|].
    destruct (gt r (of_Z 2)); reflexivity.
  - intros H. apply ok_inj in H. subst l'. exists [].
    split; [now rewrite app_nil_r | constructor].
Qed.

Lemma keyword_line_extend (label : string) (found l : list string) :
  (forall tail, is_solvency_line (label ++ tail) = false) ->
  exists extra,
    RiskTool.keyword_line label found l = (l ++ extra)%list /\
    other_lines extra.
Proof.
  intros H. unfold RiskTool.keyword_line. destruct (nonempty found).
  - eexists. split; [reflexivity|]. repeat constructor. apply H.
  - exists []. split; [now rewrite app_nil_r | constructor].
Qed.

Lemma findings_extend (text : string) (l1 l : list string) :
  RiskTool.solvency_lines (assets text) (debts text) [] = Ok l1 ->
  RiskTool.findings text = Ok l ->
  exists extra, l = (l1 ++ extra)%list /\ other_lines extra.
Proof.
  intros H1 H. rewrite risk_steps, H1 in H. cbn [bind] in H.
  destruct (RiskTool.servicing_lines _ _ _) as [l2|] eqn:H2; [|discriminate].
  cbn [bind] in H. apply ok_inj in H.
  destruct (servicing_lines_extend _ _ _ _ H2) as [e2 [-> O2]].
  destruct (keyword_line_extend RiskTool.market_label
              (RiskTool.found (processed text) RiskTool.market_risks)
              (l1 ++ e2)) as [e3 [E3 O3]]; [reflexivity|].
  rewrite E3 in H.
  destruct (keyword_line_extend RiskTool.operational_label
              (RiskTool.found (processed text) RiskTool.operational_risks)
              ((l1 ++ e2) ++ e3)) as [e4 [E4 O4]]; [reflexivity|].
  rewrite E4 in H.
  destruct (keyword_line_extend RiskTool.negative_label
              (RiskTool.found (processed text) RiskTool.negative_signals)
              (((l1 ++ e2) ++ e3) ++ e4)) as [e5 [E5 O5]]; [reflexivity|].
  rewrite E5 in H. subst l.
  exists (e2 ++ e3 ++ e4 ++ e5)%list. split.
  - now rewrite <- !app_assoc.
  - repeat apply other_lines_app; assumption.
Qed.

Lemma rating_line_other (n : nat) :
  other_lines [RiskTool.rating_line (RiskTool.overall n)].
Proof.
  repeat constructor.
Qed.

End Thresholds.

(** ** The two methods on the heap *)

Section Calls.

Lemma firstn_app_length {A : Type} (h l : list A) :
  firstn (List.length h) (h ++ l)%list = h.
Proof. induction h as [|x h IH]; [reflexivity|]. cbn. now rewrite IH. Qed.

Lemma nth_error_last (h : Store.heap) (o : Store.object) :
  nth_error (h ++ [o])%list (List.length h) = Some o.
Proof. induction h as [|x h IH]; [reflexivity | exact IH]. Qed.

Lemma put_last (h : Store.heap) (o o' : Store.object) :
  Store.put (h ++ [o])%list (List.length h) o' = (h ++ [o'])%list.
Proof. induction h as [|x h IH]; [reflexivity|]. cbn. now rewrite IH. Qed.

Lemma append_to_last (h : Store.heap) (l : list string) (x : string) :
  Store.append_to (List.length h) x (h ++ [Store.ListOf l])%list
  = ((h ++ [Store.ListOf (append l x)])%list, Ok tt).
Proof. unfold Store.append_to. now rewrite nth_error_last, put_last. Qed.

Lemma items_of_last (h : Store.heap) (l : list string) :
  Store.items_of (List.length h) (h ++ [Store.ListOf l])%list
  = ((h ++ [Store.ListOf l])%list, Ok l).
Proof. unfold Store.items_of. now rewrite nth_error_last. Qed.

Ltac run_call :=
  repeat first
    [ rewrite append_to_last
    | rewrite items_of_last
    | progress cbv beta iota
    | progress cbn [bind fst snd]
    | match goal with
      | |- context [mean ?d] => destruct (mean d)
      | |- context [div ?x ?y] => destruct (div x y)
      | |- context [truthy ?x] => destruct (truthy x)
      | |- context [RiskTool.debt_to_assets ?x ?y] =>
          destruct (RiskTool.debt_to_assets x y)
      | |- context [RiskTool.debt_to_income ?x ?y] =>
          destruct (RiskTool.debt_to_income x y)
      | |- context [nonempty ?a && nonempty ?b] =>
          destruct (nonempty a && nonempty b)
      | |- context [InvestmentTool.recommendation ?a ?b ?c ?d] =>
          destruct (InvestmentTool.recommendation a b c d)
      | |- context [if nonempty ?l then _ else _] => destruct (nonempty l)
      end ].

(** A call of [InvestmentTool._run] adds one list to the heap, the list
    [insights], and returns what the function [_run] gives. *)
Lemma investment_call (text : string) (h : Store.heap) (self : Store.ref) :
  exists l,
    fst (InvestmentTool.call self text h) = (h ++ [Store.ListOf l])%list /\
    snd (InvestmentTool.call self text h) = InvestmentTool._run text.
Proof.
  unfold InvestmentTool._run. rewrite investment_steps.
  unfold InvestmentTool.call, InvestmentTool.positive_hits,
    InvestmentTool.negative_hits, revenues, profits, debts.
  cbv zeta.
  generalize (amounts (revenue_matches (processed text))) as revs.
  generalize (amounts (profit_matches (processed text))) as profs.
  generalize (amounts (debt_matches (processed text))) as dbts.
  generalize (InvestmentTool.hits (processed text)
                InvestmentTool.positive_keywords) as ph.
  generalize (InvestmentTool.hits (processed text)
                InvestmentTool.negative_keywords) as nh.
  intros nh ph dbts profs revs.
  unfold InvestmentTool.margin_lines, InvestmentTool.debt_lines.
  unfold Store.bind, Store.new_list, Store.lift, Store.ret.
  run_call; eexists; split; reflexivity.
Qed.

(** The same for [RiskTool._run]. *)
Lemma risk_call (text : string) (h : Store.heap) (self : Store.ref) :
  exists l,
    fst (RiskTool.call self text h) = (h ++ [Store.ListOf l])%list /\
    snd (RiskTool.call self text h) = RiskTool._run text.
Proof.
  unfold RiskTool._run, RiskTool.insights_of. rewrite risk_steps.
  unfold RiskTool.call, assets, profits, debts.
  cbv zeta.
  generalize (amounts (asset_matches (processed text))) as assts.
  generalize (amounts (profit_matches (processed text))) as profs.
  generalize (amounts (debt_matches (processed text))) as dbts.
  generalize (RiskTool.found (processed text) RiskTool.market_risks) as mh.
  generalize (RiskTool.found (processed text) RiskTool.operational_risks)
    as oh.
  generalize (RiskTool.found (processed text) RiskTool.negative_signals)
    as nh.
  intros nh oh mh dbts profs assts.
  unfold RiskTool.solvency_lines, RiskTool.servicing_lines,
    RiskTool.keyword_line.
  unfold Store.bind, Store.new_list, Store.lift, Store.ret.
  run_call; eexists; split; reflexivity.
Qed.

End Calls.


(** ** The claims *)

(** C1 (the code departs from it): both tools are to return a string for
    every text, every division by a mean being guarded.  [InvestmentTool._run]
    raises [ZeroDivisionError] on ["profit 0 debt 100"], where the guard of the
    debt-to-income division tests the list [profits] and not its mean, and on
    ["revenue 0 profit 5"], where the margin of step 5 is divided without a
    guard; [RiskTool._run], whose divisions test the mean, returns on every
    text. *)
Theorem C1_investment_division_unguarded :
  InvestmentTool._run "profit 0 debt 100" = Raise ZeroDivisionError /\
  InvestmentTool._run "revenue 0 profit 5" = Raise ZeroDivisionError /\
  profits "profit 0 debt 100" = [S754_zero false] /\
  debts "profit 0 debt 100" = [of_Z 100] /\
  revenues "revenue 0 profit 5" = [S754_zero false] /\
  profits "revenue 0 profit 5" = [of_Z 5] /\
  RiskTool._run "profit 0 debt 100"
  = Ok (join newline
          ["⚖️ Debt-to-Income Ratio: inf"; RiskTool.high_servicing;
           RiskTool.rating_line RiskTool.medium_risk]) /\
  (forall text, exists out, RiskTool._run text = Ok out).
Proof.
  do 7 (split; [vm_compute; reflexivity|]).
  intros text. destruct (risk_run_returns text) as [l [_ H]].
  eexists; exact H.
Qed.

(** C5: a captured numeral that still has a decimal point after the commas
    are removed fails [isdigit] and is left out of the list of its category,
    whichever of the four categories captured it; both tools build their
    lists with the same comprehension, [amounts]. *)
Theorem C5_decimal_point_excluded (text c : string) (before after : list string)
        (H : has_point (remove_commas c) = true) :
  isdigit (remove_commas c) = false /\
  (revenue_matches (processed text) = (before ++ c :: after)%list ->
   revenues text = amounts (before ++ after)) /\
  (profit_matches (processed text) = (before ++ c :: after)%list ->
   profits text = amounts (before ++ after)) /\
  (debt_matches (processed text) = (before ++ c :: after)%list ->
   debts text = amounts (before ++ after)) /\
  (asset_matches (processed text) = (before ++ c :: after)%list ->
   assets text = amounts (before ++ after)).
Proof.
  assert (D : isdigit (remove_commas c) = false).
  { unfold isdigit. rewrite (point_not_digits _ H). apply andb_false_r. }
  split; [exact D|].
  unfold revenues, profits, debts, assets.
  repeat split; intros ->; now apply amounts_drop.
Qed.

Lemma C5_decimal_point_excluded_witness :
  has_point (remove_commas "12.50") = true /\
  revenue_matches (processed "revenue 7 then revenues of $12.50 and revenue 1,000")
  = ["7"; "12.50"; "1,000"] /\
  revenues "revenue 7 then revenues of $12.50 and revenue 1,000"
  = amounts ["7"; "1,000"] /\
  profits "profit $12.50" = [] /\
  debts "liabilities $12.50" = [] /\
  assets "assets $12.50" = [].
Proof.
  assert (P : has_point (remove_commas "12.50") = true) by reflexivity.
  split; [exact P|]. split; [vm_compute; reflexivity|].
  split; [|split; [|split]].
  - destruct (C5_decimal_point_excluded
                "revenue 7 then revenues of $12.50 and revenue 1,000"
                "12.50" ["7"] ["1,000"] P) as [_ [Hr _]].
    apply Hr. vm_compute; reflexivity.
  - destruct (C5_decimal_point_excluded "profit $12.50" "12.50" [] [] P)
      as [_ [_ [Hp _]]].
    apply Hp. vm_compute; reflexivity.
  - destruct (C5_decimal_point_excluded "liabilities $12.50" "12.50" [] [] P)
      as [_ [_ [_ [Hd _]]]].
    apply Hd. vm_compute; reflexivity.
  - destruct (C5_decimal_point_excluded "assets $12.50" "12.50" [] [] P)
      as [_ [_ [_ [_ Ha]]]].
    apply Ha. vm_compute; reflexivity.
Defined.

(** C6: on a text with the phrases [revenue $1,200], [revenue $800],
    [net income $100] and [net income $50], joined by blanks, by [and] or by
    line feeds, the revenues are [1200, 800] and the profits [100, 50] in
    the order of the text, their means 1000 and 75, and the margin 7.5,
    printed as [7.50%]. *)
Theorem C6_example_extraction :
  Forall
    (fun text =>
       revenues text = [of_Z 1200; of_Z 800] /\
       profits text = [of_Z 100; of_Z 50] /\
       mean (revenues text) = Ok (of_Z 1000) /\
       mean (profits text) = Ok (of_Z 75) /\
       InvestmentTool.margin (profits text) (revenues text)
       = Ok (decimal 75 10) /\
       InvestmentTool._run text
       = Ok (join newline
               ["📊 Average Revenue: $1,000.00";
                "📊 Average Profit: $75.00";
                "📊 Profit Margin: 7.50%";
                "ℹ️ Neutral outlook.";
                "📌 Investment Recommendation: Hold"]))
    ["revenue $1,200 revenue $800 net income $100 net income $50";
     "revenue $1,200 and revenue $800 and net income $100 and net income $50";
     join newline
       ["revenue $1,200"; "revenue $800"; "net income $100";
        "net income $50"]].
Proof.
  repeat constructor; vm_compute; reflexivity.
Qed.




(** C2, as the spec states it, fails on a text with no keyword and no
    amount: neither tool returns its fallback there. *)
Lemma C2_fallback_counterexample :
  (forall w, In w vocabularies ->
             occurs w "Quarterly report: nothing to declare." = false) /\
  revenues "Quarterly report: nothing to declare." = [] /\
  profits "Quarterly report: nothing to declare." = [] /\
  debts "Quarterly report: nothing to declare." = [] /\
  assets "Quarterly report: nothing to declare." = [] /\
  RiskTool._run "Quarterly report: nothing to declare."
  = Ok "📌 Overall Risk Rating: 🟢 Low Risk Investment" /\
  RiskTool._run "Quarterly report: nothing to declare."
  <> Ok "No significant risks detected." /\
  InvestmentTool._run "Quarterly report: nothing to declare."
  <> Ok "No meaningful financial insights extracted.".
Proof.
  split.
  { intros w Hw. unfold vocabularies in Hw. simpl in Hw.
    repeat (destruct Hw as [<-|Hw]; [vm_compute; reflexivity|]).
    destruct Hw. }
  repeat split; try (vm_compute; reflexivity); vm_compute; discriminate.
Qed.

(** C2 (amended): on a text whose cleaned form holds no word of any
    vocabulary and from which no amount is extracted, [RiskTool._run]
    returns the one line of the low rating and [InvestmentTool._run] the
    neutral outlook followed by the recommendation to hold; on every text the
    list of lines of either tool is not empty at the [return], so the
    fallback of neither is ever returned. *)
Theorem C2_no_signal_output (text : string)
        (Hk : forall w, In w vocabularies -> occurs w text = false)
        (Hr : revenues text = []) (Hp : profits text = [])
        (Hd : debts text = []) (Ha : assets text = []) :
  RiskTool._run text
  = Ok (RiskTool.rating_line RiskTool.low_risk) /\
  InvestmentTool._run text
  = Ok (join newline
          [InvestmentTool.neutral_outlook;
           InvestmentTool.recommendation_line "Hold"]) /\
  (forall t insights,
      RiskTool.insights_of t = Ok insights ->
      insights <> [] /\ RiskTool._run t = Ok (join newline insights)) /\
  (forall t insights,
      InvestmentTool.insights_of t = Ok insights ->
      insights <> [] /\ InvestmentTool._run t = Ok (join newline insights)).
Proof.
  assert (Hv : forall ws, incl ws vocabularies ->
            forall w, In w ws ->
              is_empty w = false /\
              contains w (lower (processed text)) = false).
  { intros ws Hi w Hw. split.
    - apply vocabulary_words_nonempty, Hi, Hw.
    - apply Hk, Hi, Hw. }
  assert (Hin : forall a b c d e : list string,
            incl a (a ++ b ++ c ++ d ++ e) /\ incl b (a ++ b ++ c ++ d ++ e) /\
            incl c (a ++ b ++ c ++ d ++ e) /\ incl d (a ++ b ++ c ++ d ++ e) /\
            incl e (a ++ b ++ c ++ d ++ e)).
  { intros a b c d e. unfold incl. repeat split; intros x Hx;
      rewrite !in_app_iff; tauto. }
  destruct (Hin InvestmentTool.positive_keywords
              InvestmentTool.negative_keywords RiskTool.market_risks
              RiskTool.operational_risks RiskTool.negative_signals)
    as [I1 [I2 [I3 [I4 I5]]]].
  split; [|split; [|split]].
  - unfold RiskTool._run, RiskTool.insights_of.
    rewrite risk_steps, Ha, Hd, Hp.
    rewrite !found_absent; [reflexivity | | | ]; intros w Hw;
      first [apply (Hv _ I3 w Hw) | apply (Hv _ I4 w Hw) | apply (Hv _ I5 w Hw)].
  - unfold InvestmentTool._run. rewrite investment_steps, Hr, Hp, Hd.
    unfold InvestmentTool.positive_hits, InvestmentTool.negative_hits.
    rewrite !hits_absent; [reflexivity | | ];
      first [apply (Hv _ I1) | apply (Hv _ I2)].
  - intros t insights H. unfold RiskTool._run. rewrite H. cbn [bind].
    unfold RiskTool.insights_of in H.
    destruct (RiskTool.findings t) as [l|]; [|discriminate].
    cbn [bind] in H. injection H as <-. rewrite nonempty_append.
    split; [|reflexivity]. unfold append. now destruct l.
  - intros t insights H. unfold InvestmentTool._run. rewrite H. cbn [bind].
    rewrite investment_steps in H.
    destruct (InvestmentTool.margin_lines _ _ _) as [l1|]; [|discriminate].
    cbn [bind] in H.
    destruct (InvestmentTool.debt_lines _ _ _) as [l2|]; [|discriminate].
    cbn [bind] in H.
    destruct (InvestmentTool.recommendation _ _ _ _) as [r|]; [|discriminate].
    cbn [bind] in H. injection H as <-. rewrite nonempty_append.
    split; [|reflexivity]. unfold append.
    now destruct (l2 ++ [_])%list.
Qed.

Lemma C2_no_signal_output_witness :
  (forall w, In w vocabularies ->
             occurs w "Quarterly report: nothing to declare." = false) /\
  revenues "Quarterly report: nothing to declare." = [] /\
  profits "Quarterly report: nothing to declare." = [] /\
  debts "Quarterly report: nothing to declare." = [] /\
  assets "Quarterly report: nothing to declare." = [] /\
  RiskTool._run "Quarterly report: nothing to declare."
  = Ok (RiskTool.rating_line RiskTool.low_risk) /\
  InvestmentTool._run "Quarterly report: nothing to declare."
  = Ok (join newline
          [InvestmentTool.neutral_outlook;
           InvestmentTool.recommendation_line "Hold"]).
Proof.
  assert (Hk : forall w, In w vocabularies ->
               occurs w "Quarterly report: nothing to declare." = false).
  { intros w Hw. unfold vocabularies in Hw. simpl in Hw.
    repeat (destruct Hw as [<-|Hw]; [vm_compute; reflexivity|]).
    destruct Hw. }
  assert (Hr : revenues "Quarterly report: nothing to declare." = [])
    by (vm_compute; reflexivity).
  assert (Hp : profits "Quarterly report: nothing to declare." = [])
    by (vm_compute; reflexivity).
  assert (Hd : debts "Quarterly report: nothing to declare." = [])
    by (vm_compute; reflexivity).
  assert (Ha : assets "Quarterly report: nothing to declare." = [])
    by (vm_compute; reflexivity).
  destruct (C2_no_signal_output _ Hk Hr Hp Hd Ha) as [R [I _]].
  repeat (split; [assumption|]). exact I.
Defined.

(** C8: both tools are deterministic and keep no state between calls.  A
    call on any heap, for any instance, returns what the text alone
    determines (the value of [_run] on it, or its exception) and leaves every
    object that was on the heap as it was; so a second call on the heap that
    the first one left, on the same or on another instance, returns the same
    as the first. *)
Theorem C8_deterministic (text : string) (h : Store.heap)
        (self self' : Store.ref) :
  (let first := InvestmentTool.call self text h in
   let second := InvestmentTool.call self' text (fst first) in
   snd first = snd second /\
   snd first = InvestmentTool._run text /\
   firstn (List.length h) (fst first) = h /\
   firstn (List.length (fst first)) (fst second) = fst first) /\
  (let first := RiskTool.call self text h in
   let second := RiskTool.call self' text (fst first) in
   snd first = snd second /\
   snd first = RiskTool._run text /\
   firstn (List.length h) (fst first) = h /\
   firstn (List.length (fst first)) (fst second) = fst first).
Proof.
  split; cbv zeta.
  - destruct (investment_call text h self) as [l [E1 R1]].
    destruct (investment_call text (fst (InvestmentTool.call self text h))
                self') as [l' [E2 R2]].
    rewrite R1, R2. repeat split; [rewrite E1 | rewrite E2];
      apply firstn_app_length.
  - destruct (risk_call text h self) as [l [E1 R1]].
    destruct (risk_call text (fst (RiskTool.call self text h))
                self') as [l' [E2 R2]].
    rewrite R1, R2. repeat split; [rewrite E1 | rewrite E2];
      apply firstn_app_length.
Qed.

(** C9: the test for a medium marker also sees the line of the negative
    signals.  When the lines gathered before step 5 hold a high ratio
    classification (solvency or debt servicing) and the cleaned text holds a
    negative-signal word, the score is 3 and the last line of the output is
    the high rating, whether or not a moderate classification was
    appended. *)
Theorem C9_negative_signals_raise_score (text : string) (insights : list string)
        (Hf : RiskTool.findings text = Ok insights)
        (Hhigh : In RiskTool.high_solvency insights \/
                 In RiskTool.high_servicing insights)
        (Hneg : exists w, In w RiskTool.negative_signals /\
                          occurs w text = true) :
  RiskTool.risk_score insights = 3 /\
  exists out,
    RiskTool._run text = Ok out /\
    last_line out = RiskTool.rating_line RiskTool.high_risk.
Proof.
  assert (Hm : existsb (contains RiskTool.medium_marker) insights = true).
  { rewrite risk_steps in Hf.
    destruct (RiskTool.solvency_lines _ _ _) as [l1|]; [|discriminate].
    cbn [bind] in Hf.
    destruct (RiskTool.servicing_lines _ _ _) as [l2|]; [|discriminate].
    cbn [bind] in Hf. apply ok_inj in Hf. subst insights.
    destruct Hneg as [w [Hw Ho]].
    pose proof (found_present _ _ _ Hw Ho) as Hne.
    unfold RiskTool.keyword_line at 1.
    destruct (RiskTool.found (processed text) RiskTool.negative_signals)
      as [|v vs]; [congruence|]. cbn [nonempty].
    apply existsb_exists. eexists. split.
    - unfold append. apply in_or_app. right. left. reflexivity.
    - apply contains_prefix.
      change RiskTool.negative_label
        with (RiskTool.medium_marker ++ " Negative Signals: ").
      rewrite string_app_assoc. apply starts_with_app. }
  assert (Hh : existsb (contains RiskTool.high_marker) insights = true).
  { apply existsb_exists. destruct Hhigh as [H|H]; eexists; (split; [exact H|]);
      reflexivity. }
  assert (Hs : RiskTool.risk_score insights = 3).
  { unfold RiskTool.risk_score. now rewrite Hm, Hh. }
  split; [exact Hs|].
  destruct (risk_run_returns text) as [l [Hl Hrun]].
  rewrite Hf in Hl. injection Hl as <-.
  eexists. split; [exact Hrun|].
  rewrite last_line_join; [now rewrite Hs | apply rating_line_lines].
Qed.

Lemma C9_negative_signals_raise_score_witness :
  RiskTool.findings "debt 70 assets 100 loss"
  = Ok ["⚖️ Debt-to-Assets Ratio: 0.70"; RiskTool.high_solvency;
        "⚠️ Negative Signals: loss"] /\
  (exists w, In w RiskTool.negative_signals /\
             occurs w "debt 70 assets 100 loss" = true) /\
  RiskTool.risk_score
    ["⚖️ Debt-to-Assets Ratio: 0.70"; RiskTool.high_solvency;
     "⚠️ Negative Signals: loss"] = 3 /\
  exists out,
    RiskTool._run "debt 70 assets 100 loss" = Ok out /\
    last_line out = RiskTool.rating_line RiskTool.high_risk.
Proof.
  assert (Hf : RiskTool.findings "debt 70 assets 100 loss"
               = Ok ["⚖️ Debt-to-Assets Ratio: 0.70"; RiskTool.high_solvency;
                     "⚠️ Negative Signals: loss"])
    by (vm_compute; reflexivity).
  assert (Hneg : exists w, In w RiskTool.negative_signals /\
                           occurs w "debt 70 assets 100 loss" = true).
  { exists "loss". split; [now left | vm_compute; reflexivity]. }
  split; [exact Hf|]. split; [exact Hneg|].
  apply (C9_negative_signals_raise_score _ _ Hf); [|exact Hneg].
  left. right. left. reflexivity.
Defined.

(** C10: when [InvestmentTool._run] returns an output whose last line
    recommends to buy, the line before it is the positive outlook, and so
    neither the neutral nor the negative one. *)
Theorem C10_buy_has_positive_outlook (text out : string)
        (H : InvestmentTool._run text = Ok out)
        (HB : last_line out = InvestmentTool.recommendation_line "Buy") :
  line_before_last out = InvestmentTool.positive_outlook /\
  line_before_last out <> InvestmentTool.neutral_outlook /\
  line_before_last out <> InvestmentTool.negative_outlook.
Proof.
  destruct (investment_last_lines _ _ H) as [r [Hr [Hl Hb]]].
  rewrite Hl in HB. apply recommendation_line_inj in HB. subst r.
  assert (Hlt : (InvestmentTool.negative_hits text
                 <? InvestmentTool.positive_hits text)%nat = true).
  { unfold InvestmentTool.recommendation in Hr.
    destruct (nonempty (profits text) && nonempty (revenues text));
      [|discriminate].
    destruct (InvestmentTool.margin _ _) as [m|]; [|discriminate].
    cbn [bind] in Hr. injection Hr as Hv.
    unfold InvestmentTool.verdict in Hv.
    destruct (gt m (of_Z 15)); cbn [andb] in Hv.
    - destruct (_ <? _)%nat; [reflexivity|].
      destruct (lt m (of_Z 5) || _); discriminate.
    - destruct (lt m (of_Z 5) || _); discriminate. }
  rewrite Hb. unfold InvestmentTool.sentiment. rewrite Hlt.
  repeat split; discriminate.
Qed.

Lemma C10_buy_has_positive_outlook_witness :
  InvestmentTool._run "Revenue 100, profit 20 after strong growth"
  = Ok (join newline
          ["📊 Average Revenue: $100.00"; "📊 Average Profit: $20.00";
           "📊 Profit Margin: 20.00%"; InvestmentTool.positive_outlook;
           InvestmentTool.recommendation_line "Buy"]) /\
  last_line
    (join newline
       ["📊 Average Revenue: $100.00"; "📊 Average Profit: $20.00";
        "📊 Profit Margin: 20.00%"; InvestmentTool.positive_outlook;
        InvestmentTool.recommendation_line "Buy"])
  = InvestmentTool.recommendation_line "Buy" /\
  line_before_last
    (join newline
       ["📊 Average Revenue: $100.00"; "📊 Average Profit: $20.00";
        "📊 Profit Margin: 20.00%"; InvestmentTool.positive_outlook;
        InvestmentTool.recommendation_line "Buy"])
  = InvestmentTool.positive_outlook.
Proof.
  assert (H : InvestmentTool._run "Revenue 100, profit 20 after strong growth"
              = Ok (join newline
                      ["📊 Average Revenue: $100.00";
                       "📊 Average Profit: $20.00";
                       "📊 Profit Margin: 20.00%";
                       InvestmentTool.positive_outlook;
                       InvestmentTool.recommendation_line "Buy"]))
    by (vm_compute; reflexivity).
  assert (HB : last_line
                 (join newline
                    ["📊 Average Revenue: $100.00";
                     "📊 Average Profit: $20.00";
                     "📊 Profit Margin: 20.00%";
                     InvestmentTool.positive_outlook;
                     InvestmentTool.recommendation_line "Buy"])
               = InvestmentTool.recommendation_line "Buy")
    by (vm_compute; reflexivity).
  split; [exact H|]. split; [exact HB|].
  exact (proj1 (C10_buy_has_positive_outlook _ _ H HB)).
Defined.

(** C3: with revenues and profits extracted and a mean revenue that is not
    zero, the margin is [mean(profits) / mean(revenues) * 100] and the
    output recommends to buy exactly when the margin is above 15 and the
    positive count above the negative one; a margin equal to 15 does not
    buy: the tool then sells when the negative count is above the positive
    one and holds otherwise; and whenever the tool returns without buying, it
    sells when the margin is below 5 or the negative count above the
    positive one, and holds otherwise. *)
Theorem C3_recommendation_thresholds (text : string) (mr mp : float)
        (Hr : revenues text <> []) (Hp : profits text <> [])
        (Hmr : mean (revenues text) = Ok mr)
        (Hmp : mean (profits text) = Ok mp)
        (Hnz : is_zero mr = false) :
  let margin := mul (SFdiv prec emax mp mr) (of_Z 100) in
  let pos := InvestmentTool.positive_hits text in
  let neg := InvestmentTool.negative_hits text in
  ((exists out,
       InvestmentTool._run text = Ok out /\
       last_line out = InvestmentTool.recommendation_line "Buy")
   <-> gt margin (of_Z 15) = true /\ neg < pos) /\
  (SFeqb margin (of_Z 15) = true ->
   exists out,
     InvestmentTool._run text = Ok out /\
     last_line out
     = InvestmentTool.recommendation_line
         (if (pos <? neg)%nat then "Sell" else "Hold")) /\
  (forall out,
      InvestmentTool._run text = Ok out ->
      ~ (gt margin (of_Z 15) = true /\ neg < pos) ->
      (lt margin (of_Z 5) = true \/ pos < neg ->
       last_line out = InvestmentTool.recommendation_line "Sell") /\
      (~ (lt margin (of_Z 5) = true \/ pos < neg) ->
       last_line out = InvestmentTool.recommendation_line "Hold")).
Proof.
  intros margin pos neg.
  pose proof (recommendation_value _ _ pos neg mp mr Hp Hr Hmp Hmr Hnz) as Hv.
  fold margin in Hv.
  assert (Hlast : forall out,
             InvestmentTool._run text = Ok out ->
             last_line out
             = InvestmentTool.recommendation_line
                 (InvestmentTool.verdict margin pos neg)).
  { intros out H. destruct (investment_last_lines _ _ H) as [r [Hrec [Hl _]]].
    fold pos neg in Hrec. rewrite Hv in Hrec. apply ok_inj in Hrec.
    now subst r. }
  assert (Hret : is_zero mp = false ->
                 exists out, InvestmentTool._run text = Ok out).
  { intros Hz. now apply (investment_run_returns text mp mr). }
  assert (Hzp : gt margin (of_Z 15) = true \/
                SFeqb margin (of_Z 15) = true ->
                is_zero mp = false).
  { intros H. destruct (is_zero mp) eqn:Z; [|reflexivity].
    destruct (zero_profit_margin mp mr Z Hnz) as [G E]. fold margin in G, E.
    rewrite G, E in H. destruct H; discriminate. }
  split; [split|split].
  - intros [out [H HB]]. rewrite (Hlast out H) in HB.
    apply recommendation_line_inj in HB. now apply verdict_buy.
  - intros HB. destruct (Hret (Hzp (or_introl (proj1 HB)))) as [out H].
    exists out. split; [exact H|]. rewrite (Hlast out H).
    f_equal. now apply verdict_buy.
  - intros E. destruct (Hret (Hzp (or_intror E))) as [out H].
    exists out. split; [exact H|]. rewrite (Hlast out H). f_equal.
    apply eqb_15 in E. fold margin. rewrite E.
    unfold InvestmentTool.verdict.
    change (gt (of_Z 15) (of_Z 15)) with false.
    change (lt (of_Z 15) (of_Z 5)) with false. reflexivity.
  - intros out H Hb. split; intros Hs; rewrite (Hlast out H); f_equal.
    + now apply verdict_sell.
    + now apply verdict_hold.
Qed.

Lemma C3_recommendation_thresholds_witness :
  revenues "revenue 100 profit 15 growth" <> [] /\
  profits "revenue 100 profit 15 growth" <> [] /\
  mean (revenues "revenue 100 profit 15 growth") = Ok (of_Z 100) /\
  mean (profits "revenue 100 profit 15 growth") = Ok (of_Z 15) /\
  is_zero (of_Z 100) = false /\
  mul (SFdiv prec emax (of_Z 15) (of_Z 100)) (of_Z 100) = of_Z 15 /\
  InvestmentTool.positive_hits "revenue 100 profit 15 growth" = 2 /\
  InvestmentTool.negative_hits "revenue 100 profit 15 growth" = 0 /\
  exists out,
    InvestmentTool._run "revenue 100 profit 15 growth" = Ok out /\
    last_line out = InvestmentTool.recommendation_line "Hold".
Proof.
  assert (Hr : revenues "revenue 100 profit 15 growth" <> [])
    by (vm_compute; discriminate).
  assert (Hp : profits "revenue 100 profit 15 growth" <> [])
    by (vm_compute; discriminate).
  assert (Hmr : mean (revenues "revenue 100 profit 15 growth")
                = Ok (of_Z 100)) by (vm_compute; reflexivity).
  assert (Hmp : mean (profits "revenue 100 profit 15 growth")
                = Ok (of_Z 15)) by (vm_compute; reflexivity).
  assert (Hnz : is_zero (of_Z 100) = false) by reflexivity.
  repeat (split; [assumption || (vm_compute; reflexivity)|]).
  destruct (C3_recommendation_thresholds _ _ _ Hr Hp Hmr Hmp Hnz)
    as [_ [H15 _]].
  apply H15. vm_compute; reflexivity.
Defined.

(** C4: with assets and debts extracted, the ratio is
    [mean(debts) / mean(assets)], or 0 when the mean of the assets is zero;
    the first two lines are the ratio and its classification, and no other
    line is a solvency classification: high above 0.6, moderate above 0.4 and
    up to 0.6, healthy up to 0.4; a ratio equal to 0.6 is moderate.  The
    high line carries the high marker, the moderate line the medium marker,
    the healthy line neither. *)
Theorem C4_solvency_classification (text : string)
        (Ha : assets text <> []) (Hd : debts text <> []) :
  exists (ma md ratio : float) (class : string) (rest : list string),
    mean (assets text) = Ok ma /\
    mean (debts text) = Ok md /\
    ratio = (if is_zero ma then of_Z 0 else SFdiv prec emax md ma) /\
    RiskTool.insights_of text = Ok (ratio_line ratio :: class :: rest) /\
    List.length
      (filter is_solvency_line (ratio_line ratio :: class :: rest)) = 1 /\
    (gt ratio (decimal 6 10) = true -> class = RiskTool.high_solvency) /\
    (gt ratio (decimal 4 10) = true -> SFleb ratio (decimal 6 10) = true ->
     class = RiskTool.moderate_solvency) /\
    (SFleb ratio (decimal 4 10) = true -> class = RiskTool.healthy_solvency) /\
    (SFeqb ratio (decimal 6 10) = true -> class = RiskTool.moderate_solvency) /\
    contains RiskTool.high_marker RiskTool.high_solvency = true /\
    contains RiskTool.medium_marker RiskTool.moderate_solvency = true /\
    contains RiskTool.high_marker RiskTool.healthy_solvency = false /\
    contains RiskTool.medium_marker RiskTool.healthy_solvency = false.
Proof.
  destruct (mean_returns _ Ha) as [ma Hma].
  destruct (mean_returns _ Hd) as [md Hmd].
  set (ratio := if is_zero ma then of_Z 0 else SFdiv prec emax md ma).
  assert (H1 : RiskTool.solvency_lines (assets text) (debts text) []
               = Ok [ratio_line ratio; RiskTool.solvency_class ratio]).
  { unfold RiskTool.solvency_lines.
    apply nonempty_true in Ha, Hd. rewrite Ha, Hd, Hma, Hmd. cbn [andb bind].
    unfold RiskTool.debt_to_assets, truthy, div, ratio.
    destruct (is_zero ma); reflexivity. }
  destruct (risk_findings_return text) as [l Hl].
  destruct (findings_extend text _ l H1 Hl) as [extra [-> Oe]].
  exists ma, md, ratio, (RiskTool.solvency_class ratio),
    (extra ++ [RiskTool.rating_line
                 (RiskTool.overall
                    (RiskTool.risk_score
                       ([ratio_line ratio; RiskTool.solvency_class ratio]
                          ++ extra)))])%list.
  split; [exact Hma|]. split; [exact Hmd|]. split; [reflexivity|].
  split.
  { unfold RiskTool.insights_of. rewrite Hl. reflexivity. }
  split.
  { cbn [filter]. rewrite ratio_line_other, solvency_class_counts.
    rewrite filter_other_lines; [reflexivity|].
    apply other_lines_app; [exact Oe | apply rating_line_other]. }
  split; [apply solvency_class_high|].
  split; [apply solvency_class_moderate|].
  split; [apply solvency_class_healthy|].
  split; [apply solvency_class_at_06|].
  repeat split.
Qed.

Lemma C4_solvency_classification_witness :
  assets "Total debt 6 and total assets 10" <> [] /\
  debts "Total debt 6 and total assets 10" <> [] /\
  exists (ma md ratio : float) (class : string) (rest : list string),
    mean (assets "Total debt 6 and total assets 10") = Ok ma /\
    mean (debts "Total debt 6 and total assets 10") = Ok md /\
    ratio = (if is_zero ma then of_Z 0 else SFdiv prec emax md ma) /\
    RiskTool.insights_of "Total debt 6 and total assets 10"
    = Ok (ratio_line ratio :: class :: rest) /\
    List.length
      (filter is_solvency_line (ratio_line ratio :: class :: rest)) = 1 /\
    (gt ratio (decimal 6 10) = true -> class = RiskTool.high_solvency) /\
    (gt ratio (decimal 4 10) = true -> SFleb ratio (decimal 6 10) = true ->
     class = RiskTool.moderate_solvency) /\
    (SFleb ratio (decimal 4 10) = true -> class = RiskTool.healthy_solvency) /\
    (SFeqb ratio (decimal 6 10) = true -> class = RiskTool.moderate_solvency) /\
    contains RiskTool.high_marker RiskTool.high_solvency = true /\
    contains RiskTool.medium_marker RiskTool.moderate_solvency = true /\
    contains RiskTool.high_marker RiskTool.healthy_solvency = false /\
    contains RiskTool.medium_marker RiskTool.healthy_solvency = false.
Proof.
  assert (Ha : assets "Total debt 6 and total assets 10" <> [])
    by (vm_compute; discriminate).
  assert (Hd : debts "Total debt 6 and total assets 10" <> [])
    by (vm_compute; discriminate).
  split; [exact Ha|]. split; [exact Hd|].
  exact (C4_solvency_classification _ Ha Hd).
Defined.

(** The ratio 0.6 on a text: debts of 6 against assets of 10 are classified
    moderate, and the rating stays low. *)
Example ratio_06_is_moderate :
  RiskTool._run "Total debt 6 and total assets 10"
  = Ok (join newline
          ["⚖️ Debt-to-Assets Ratio: 0.60"; RiskTool.moderate_solvency;
           RiskTool.rating_line RiskTool.low_risk]) /\
  (ma <- mean (assets "Total debt 6 and total assets 10") ;;
   md <- mean (debts "Total debt 6 and total assets 10") ;;
   RiskTool.debt_to_assets md ma) = Ok (decimal 6 10).
Proof. split; vm_compute; reflexivity. Qed.

(** * More of the two tools *)

Import Facts.

(** ** What the patterns capture *)

Section Captures.

Lemma string_length_app (a b : string) :
  String.length (a ++ b) = String.length a + String.length b.
Proof. induction a as [|c a IH]; simpl; [reflexivity | now rewrite IH]. Qed.

Lemma substring_prefix (a b : string) :
  substring 0 (String.length a) (a ++ b) = a.
Proof.
  induction a as [|c a IH]; simpl; [now destruct b | now rewrite IH].
Qed.

Lemma consumed_app (a b : string) : consumed (a ++ b) b = a.
Proof.
  unfold consumed. rewrite string_length_app.
  replace (String.length a + String.length b - String.length b)
    with (String.length a) by lia.
  apply substring_prefix.
Qed.

Lemma star_lazy_some (cls : list item) (s : string) (caps : list string)
      (k : cont) (x : string * list string) :
  star_lazy cls s caps k = Some x -> exists s', k s' caps = Some x.
Proof.
  induction s as [|c s IH]; cbn [star_lazy]; intros H;
    apply or_else_some in H; destruct H as [H|H]; try (now exists EmptyString);
    try discriminate.
  - now exists (String c s).
  - destruct (class_match cls c); [now apply IH | discriminate].
Qed.

Lemma star_greedy_some (cls : list item) (s : string) (caps : list string)
      (k : cont) (x : string * list string) :
  star_greedy cls s caps k = Some x ->
  exists pre s',
    s = pre ++ s' /\ all_chars (class_match cls) pre = true /\
    k s' caps = Some x.
Proof.
  induction s as [|c s IH]; cbn [star_greedy]; intros H.
  - exists EmptyString, EmptyString. now repeat split.
  - destruct (class_match cls c) eqn:E.
    + apply or_else_some in H. destruct H as [H|H].
      * destruct (IH H) as [pre [s' [-> [Hp Hk]]]].
        exists (String c pre), s'. cbn [all_chars]. rewrite E, Hp.
        now repeat split.
      * exists EmptyString, (String c s). now repeat split.
    + exists EmptyString, (String c s). now repeat split.
Qed.

Lemma lit_some (w s : string) (caps : list string) (k : cont)
      (x : string * list string) :
  lit w s caps k = Some x -> exists s', k s' caps = Some x.
Proof.
  revert s. induction w as [|p w IH]; intros s H; [now exists s|].
  cbn [lit] in H.
  destruct (lit_char p s) as [s'|]; [now apply IH in H | discriminate].
Qed.

(** A pattern without a group hands on the groups it was given. *)
Lemma groupless_some (r : regex) :
  groupless r = true ->
  forall (s : string) (caps : list string) (k : cont) x,
    run r s caps k = Some x -> exists s', k s' caps = Some x.
Proof.
  induction r as [w|cls|r1 IH1 r2 IH2|r1 IH1 r2 IH2|r1 IH1|cls|cls|r1 IH1];
    cbn [groupless]; intros G s caps k x H; cbn [run] in H.
  - now apply lit_some in H.
  - destruct (class_char cls s) as [s'|]; [now exists s' | discriminate].
  - apply andb_true_iff in G. destruct G as [G1 G2].
    destruct (IH1 G1 _ _ _ _ H) as [s1 H1]. now apply (IH2 G2) in H1.
  - apply andb_true_iff in G. destruct G as [G1 G2].
    apply or_else_some in H. destruct H as [H|H];
      [now apply (IH1 G1) in H | now apply (IH2 G2) in H].
  - apply or_else_some in H. destruct H as [H|H];
      [now apply (IH1 G) in H | now exists s].
  - destruct s as [|c s]; [discriminate|].
    destruct (class_match cls c); [|discriminate].
    destruct (star_greedy_some _ _ _ _ _ H) as [pre [s' [_ [_ Hk]]]].
    now exists s'.
  - now apply star_lazy_some in H.
  - discriminate.
Qed.

(** A group around a pattern without a group adds one capture. *)
Lemma group_some (r : regex) :
  groupless r = true ->
  forall (s : string) (caps : list string) (k : cont) x,
    run (RGroup r) s caps k = Some x ->
    exists s' g, k s' (caps ++ [g])%list = Some x.
Proof.
  intros G s caps k x H. cbn [run] in H.
  destruct (groupless_some r G _ _ _ _ H) as [s' H']. now exists s', (consumed s s').
Qed.

(** The tail of every pattern adds one capture, a numeral. *)
Lemma amount_tail_some (s : string) (caps : list string) (k : cont)
      (x : string * list string) :
  run amount_tail s caps k = Some x ->
  exists s' g, numeral g = true /\ k s' (caps ++ [g])%list = Some x.
Proof.
  intros H. unfold amount_tail in H. cbn [run] in H.
  apply star_lazy_some in H. destruct H as [s1 H].
  assert (K : forall s2,
             run (RGroup (RPlus [IDigit; IChar ","; IChar "."])) s2 caps k
             = Some x ->
             exists s' g, numeral g = true /\ k s' (caps ++ [g])%list = Some x).
  { intros s2 H2. cbn [run] in H2. destruct s2 as [|c s2]; [discriminate|].
    destruct (class_match _ c) eqn:E; [|discriminate].
    destruct (star_greedy_some _ _ _ _ _ H2) as [pre [s' [-> [Hp Hk]]]].
    change (String c (pre ++ s')) with (String c pre ++ s') in Hk.
    rewrite consumed_app in Hk. exists s', (String c pre). split; [|exact Hk].
    unfold numeral. cbn [is_empty negb all_chars andb].
    assert (C : forall a, class_match [IDigit; IChar ","; IChar "."] a
                          = numeral_char a).
    { intros a. destruct a as [[|] [|] [|] [|] [|] [|] [|] [|]]; reflexivity. }
    rewrite <- C, E. cbn [andb]. clear -Hp C. induction pre as [|a pre IH];
      [reflexivity|]. cbn [all_chars] in *. apply andb_true_iff in Hp.
    destruct Hp as [Ha Hp]. now rewrite <- C, Ha, IH. }
  apply or_else_some in H. destruct H as [H|H].
  - apply lit_some in H. destruct H as [s2 H]. now apply K in H.
  - now apply K in H.
Qed.

Lemma revenue_capture (s rest : string) (caps : list string) :
  match_here revenue_pattern s = Some (rest, caps) ->
  numeral (group 1 caps) = true.
Proof.
  unfold match_here, revenue_pattern. intros H.
  change (run (RLit "revenue" >> ROpt (RClass [IChar "s"]) >> RPlus [ISpace]
               >> amount_tail) s [] (fun s' caps => Some (s', caps)))
    with (run (RLit "revenue" >> ROpt (RClass [IChar "s"]) >> RPlus [ISpace])
            s [] (fun s' caps' =>
                    run amount_tail s' caps' (fun s' caps => Some (s', caps))))
    in H.
  apply (groupless_some
           (RLit "revenue" >> ROpt (RClass [IChar "s"]) >> RPlus [ISpace])
           eq_refl) in H.
  destruct H as [s1 H].
  apply amount_tail_some in H. destruct H as [s' [g [Hg H]]].
  injection H as _ <-. exact Hg.
Qed.

Lemma labelled_capture (label : regex) (s rest : string) (caps : list string) :
  groupless label = true ->
  match_here (RGroup label >> amount_tail) s = Some (rest, caps) ->
  numeral (group 2 caps) = true.
Proof.
  unfold match_here. intros G H. cbn [run] in H.
  apply (groupless_some _ G) in H. destruct H as [s1 H].
  apply amount_tail_some in H. destruct H as [s' [g [Hg H]]].
  injection H as _ <-. exact Hg.
Qed.

Lemma findall_from_forall (r : regex) (P : list string -> Prop) :
  (forall s rest caps, match_here r s = Some (rest, caps) -> P caps) ->
  forall (s : string) (skip : nat), Forall P (findall_from r s skip).
Proof.
  intros HP s. induction s as [|c s IH]; intros skip; cbn [findall_from].
  - destruct (match_here r EmptyString) as [[rest caps]|] eqn:E;
      [|constructor]. constructor; [now apply (HP _ _ _ E) | constructor].
  - destruct skip as [|n]; [|apply IH].
    destruct (match_here r (String c s)) as [[rest caps]|] eqn:E; [|apply IH].
    constructor; [now apply (HP _ _ _ E) | apply IH].
Qed.

Lemma matches_numerals (r : regex) (n : nat) (processed_data : string) :
  (forall s rest caps, match_here r s = Some (rest, caps) ->
                       numeral (group n caps) = true) ->
  Forall (fun g => numeral g = true)
    (map (group n) (findall r processed_data)).
Proof.
  intros H. apply Forall_map.
  now apply (findall_from_forall r (fun caps => numeral (group n caps) = true)).
Qed.


Lemma numeral_captures (processed_data : string) :
  Forall (fun g => numeral g = true) (revenue_matches processed_data) /\
  Forall (fun g => numeral g = true) (profit_matches processed_data) /\
  Forall (fun g => numeral g = true) (debt_matches processed_data) /\
  Forall (fun g => numeral g = true) (asset_matches processed_data).
Proof.
  repeat split; apply matches_numerals; intros s rest caps H.
  - now apply revenue_capture in H.
  - exact (labelled_capture (RAlt (RLit "net income") (RLit "profit"))
             s rest caps eq_refl H).
  - exact (labelled_capture (RAlt (RLit "debt") (RLit "liabilities"))
             s rest caps eq_refl H).
  - exact (labelled_capture (RLit "asset" >> ROpt (RClass [IChar "s"]))
             s rest caps eq_refl H).
Qed.

End Captures.

(** X1: whatever the text, every numeral that one of the four patterns
    captures is a string of digits, commas and points that is not empty. *)
Theorem X1_captures_are_numerals (processed_data : string) :
  Forall (fun g => numeral g = true) (revenue_matches processed_data) /\
  Forall (fun g => numeral g = true) (profit_matches processed_data) /\
  Forall (fun g => numeral g = true) (debt_matches processed_data) /\
  Forall (fun g => numeral g = true) (asset_matches processed_data).
Proof. apply numeral_captures. Qed.

(** ** Which captures become amounts, and what the amounts are *)

Section Amounts.

Lemma numeral_char_cases (c : ascii) :
  numeral_char c = true ->
  (is_digit c, (code c =? 44)%N, (code c =? 46)%N) = (true, false, false) \/
  (is_digit c, (code c =? 44)%N, (code c =? 46)%N) = (false, true, false) \/
  (is_digit c, (code c =? 44)%N, (code c =? 46)%N) = (false, false, true).
Proof.
  destruct c as [[|] [|] [|] [|] [|] [|] [|] [|]]; cbn; intros H;
    try discriminate; tauto.
Qed.

Lemma numeral_chars_digits (g : string) :
  all_chars numeral_char g = true ->
  all_digits (remove_commas g) = negb (has_point g) /\
  is_empty (remove_commas g) = negb (has_digit g || has_point g).
Proof.
  induction g as [|c g IH]; [now split|].
  cbn [all_chars remove_commas has_point has_digit]. intros H.
  apply andb_true_iff in H. destruct H as [Hc Hg].
  destruct (IH Hg) as [IH1 IH2].
  destruct (numeral_char_cases c Hc) as [E|[E|E]];
    injection E as D C P; rewrite ?C, ?P, ?D;
    cbn [all_digits is_empty orb negb andb]; rewrite ?D, ?IH1, ?IH2;
    destruct (has_digit g), (has_point g); split; reflexivity.
Qed.

Lemma numeral_isdigit (g : string) :
  numeral g = true -> isdigit (remove_commas g) = kept g.
Proof.
  unfold numeral, isdigit, kept. intros H. apply andb_true_iff in H.
  destruct H as [_ H]. destruct (numeral_chars_digits g H) as [-> ->].
  destruct (has_point g), (has_digit g); reflexivity.
Qed.

Lemma amounts_kept (captures : list string) :
  Forall (fun g => numeral g = true) captures ->
  amounts captures
  = map (fun c => of_str (remove_commas c)) (filter kept captures).
Proof.
  intros H. unfold amounts. f_equal. apply filter_ext_in.
  intros g Hg. apply numeral_isdigit. rewrite Forall_forall in H. now apply H.
Qed.

Lemma digit_value_nonneg (c : ascii) :
  is_digit c = true -> (0 <= digit_value c <= 9)%Z.
Proof.
  unfold is_digit, between, digit_value. intros H.
  apply andb_true_iff in H. destruct H as [H1 H2].
  apply N.leb_le in H1, H2. lia.
Qed.

Lemma fold_digits_nonneg (l : list ascii) (acc : Z) :
  forallb is_digit l = true -> (0 <= acc)%Z ->
  (0 <= fold_left (fun a c => (10 * a + digit_value c)%Z) l acc)%Z.
Proof.
  revert acc. induction l as [|c l IH]; intros acc H Ha; [exact Ha|].
  cbn [forallb] in H. apply andb_true_iff in H. destruct H as [Hc Hl].
  cbn [fold_left]. apply IH; [exact Hl|].
  pose proof (digit_value_nonneg c Hc). lia.
Qed.

Lemma int_of_digits_nonneg (s : string) :
  all_digits s = true -> (0 <= int_of_digits s)%Z.
Proof.
  intros H. unfold int_of_digits. apply fold_digits_nonneg; [|lia].
  induction s as [|c s IH]; [reflexivity|].
  cbn [all_digits] in H. apply andb_true_iff in H. destruct H as [Hc Hs].
  cbn [list_ascii_of_string forallb]. now rewrite Hc, IH.
Qed.

(** Shifting to the right keeps a mantissa that is not negative so. *)
Lemma shr_1_nonneg (mrs : shr_record) :
  (0 <= shr_m mrs)%Z -> (0 <= shr_m (shr_1 mrs))%Z.
Proof.
  destruct mrs as [m r b]. cbn [shr_m]. intros H.
  destruct m as [|p|p]; [cbn; lia | | lia].
  destruct p; cbn; lia.
Qed.

Lemma iter_shr_1_nonneg (n : positive) (mrs : shr_record) :
  (0 <= shr_m mrs)%Z -> (0 <= shr_m (iter_pos shr_1 n mrs))%Z.
Proof.
  revert mrs. induction n as [n IH|n IH|]; intros mrs H; cbn [iter_pos].
  - apply IH, IH. now apply shr_1_nonneg.
  - now apply IH, IH.
  - now apply shr_1_nonneg.
Qed.

Lemma shr_fexp_nonneg (m e : Z) (l : location) :
  (0 <= m)%Z -> (0 <= shr_m (fst (shr_fexp prec emax m e l)))%Z.
Proof.
  intros H. unfold shr_fexp, shr.
  assert (H0 : (0 <= shr_m (shr_record_of_loc m l))%Z).
  { destruct l as [|[| |]]; exact H. }
  destruct (fexp prec emax (Zdigits2 m + e) - e)%Z;
    cbn [fst]; [exact H0 | now apply iter_shr_1_nonneg | exact H0].
Qed.

Lemma round_aux_nonneg (m e : Z) (l : location) :
  (0 <= m)%Z -> nonneg (binary_round_aux prec emax false m e l) = true.
Proof.
  intros H. unfold binary_round_aux.
  pose proof (shr_fexp_nonneg m e l H) as H1.
  destruct (shr_fexp prec emax m e l) as [mrs' e'] eqn:E1. cbn [fst] in H1.
  assert (H2 : (0 <= round_nearest_even (shr_m mrs')
                       (loc_of_shr_record mrs'))%Z).
  { unfold round_nearest_even.
    destruct (loc_of_shr_record mrs') as [|[| |]];
      try destruct (Z.even (shr_m mrs')); lia. }
  pose proof (shr_fexp_nonneg _ e' loc_Exact H2) as H3.
  destruct (shr_fexp prec emax _ e' loc_Exact) as [mrs'' e''].
  cbn [fst] in H3. destruct (shr_m mrs'') as [|p|p]; [reflexivity | | lia].
  now destruct (e'' <=? emax - prec)%Z.
Qed.

Lemma of_Z_nonneg (n : Z) : (0 <= n)%Z -> nonneg (of_Z n) = true.
Proof.
  intros H. unfold of_Z, binary_normalize.
  destruct n as [|p|p]; [reflexivity | | lia].
  unfold binary_round.
  destruct (shl_align p 0 _) as [mz ez]. now apply round_aux_nonneg.
Qed.

Lemma amounts_nonneg (captures : list string) :
  Forall (fun v => nonneg v = true) (amounts captures).
Proof.
  unfold amounts. apply Forall_map, Forall_forall. intros r Hr.
  apply filter_In in Hr. destruct Hr as [_ Hr]. unfold isdigit in Hr.
  apply andb_true_iff in Hr. destruct Hr as [_ Hr].
  apply of_Z_nonneg, int_of_digits_nonneg, Hr.
Qed.

End Amounts.

(** X2: the amounts of a category are, in the order of the text, the
    captures of its pattern that hold no decimal point and one digit at
    least, each read as a float once its commas are removed; every other
    capture is dropped. *)
Theorem X2_amounts_are_kept_captures (text : string) :
  revenues text
  = map (fun c => of_str (remove_commas c))
      (filter kept (revenue_matches (processed text))) /\
  profits text
  = map (fun c => of_str (remove_commas c))
      (filter kept (profit_matches (processed text))) /\
  debts text
  = map (fun c => of_str (remove_commas c))
      (filter kept (debt_matches (processed text))) /\
  assets text
  = map (fun c => of_str (remove_commas c))
      (filter kept (asset_matches (processed text))).
Proof.
  destruct (numeral_captures (processed text)) as [R [P [D A]]].
  unfold revenues, profits, debts, assets.
  repeat split; now apply amounts_kept.
Qed.

(** X3: an extracted amount is zero, a positive number or the positive
    infinity: never negative, never a NaN. *)
Theorem X3_amounts_never_negative (text : string) :
  Forall (fun v => nonneg v = true) (revenues text) /\
  Forall (fun v => nonneg v = true) (profits text) /\
  Forall (fun v => nonneg v = true) (debts text) /\
  Forall (fun v => nonneg v = true) (assets text).
Proof. repeat split; apply amounts_nonneg. Qed.

(** ** When [InvestmentTool._run] raises *)

Section Failures.

Lemma debt_lines_outcome (ds ps : list float) (l : list string) :
  (nonempty ds && nonempty ps && zero_mean ps = true /\
   InvestmentTool.debt_lines ds ps l = Raise ZeroDivisionError) \/
  (nonempty ds && nonempty ps && zero_mean ps = false /\
   exists l', InvestmentTool.debt_lines ds ps l = Ok l').
Proof.
  unfold InvestmentTool.debt_lines, zero_mean.
  destruct (nonempty ds) eqn:Ed; [|right; split; [reflexivity | now eexists]].
  destruct (nonempty ps) eqn:Ep; [|right; split; [reflexivity | now eexists]].
  cbn [andb].
  destruct (mean_returns ds) as [d ->]; [now apply nonempty_true|].
  destruct (mean_returns ps) as [mp ->]; [now apply nonempty_true|].
  cbn [bind]. unfold div. destruct (is_zero mp).
  - left. now split.
  - right. split; [reflexivity | now eexists].
Qed.

Lemma recommendation_outcome (ps rs : list float) (p n : nat) :
  (nonempty ps && nonempty rs && zero_mean rs = true /\
   InvestmentTool.recommendation ps rs p n = Raise ZeroDivisionError) \/
  (nonempty ps && nonempty rs && zero_mean rs = false /\
   exists r, InvestmentTool.recommendation ps rs p n = Ok r).
Proof.
  unfold InvestmentTool.recommendation, InvestmentTool.margin, zero_mean.
  destruct (nonempty ps) eqn:Ep; [|right; split; [reflexivity | now eexists]].
  destruct (nonempty rs) eqn:Er; [|right; split; [reflexivity | now eexists]].
  cbn [andb].
  destruct (mean_returns ps) as [mp ->]; [now apply nonempty_true|].
  destruct (mean_returns rs) as [mr ->]; [now apply nonempty_true|].
  cbn [bind]. unfold div. destruct (is_zero mr).
  - left. now split.
  - right. split; [reflexivity | now eexists].
Qed.

Lemma investment_outcome (text : string) :
  (divides_by_zero text = true /\
   InvestmentTool._run text = Raise ZeroDivisionError) \/
  (divides_by_zero text = false /\
   exists out, InvestmentTool._run text = Ok out).
Proof.
  unfold divides_by_zero, InvestmentTool._run. rewrite investment_steps.
  destruct (margin_lines_returns (revenues text) (profits text) [])
    as [l1 ->]. cbn [bind].
  destruct (debt_lines_outcome (debts text) (profits text) l1)
    as [[-> ->]|[-> [l2 ->]]]; cbn [bind orb].
  - left. now split.
  - destruct (recommendation_outcome (profits text) (revenues text)
                (InvestmentTool.positive_hits text)
                (InvestmentTool.negative_hits text))
      as [[-> ->]|[-> [r ->]]]; cbn [bind].
    + left. now split.
    + right. split; [reflexivity | now eexists].
Qed.

Lemma zero_mean_of_zeros (data : list float) :
  data <> [] -> forallb is_zero data = true -> zero_mean data = true.
Proof.
  intros Hne Hz. unfold zero_mean, mean.
  destruct data as [|x data]; [congruence|].
  assert (F : forallb is_finite (x :: data) = true).
  { clear Hne. induction (x :: data) as [|y l IH]; [reflexivity|].
    cbn [forallb] in *. apply andb_true_iff in Hz. destruct Hz as [Hy Hl].
    rewrite (IH Hl). now destruct y. }
  rewrite F.
  assert (S : fold_left dyadic_add (map dyadic_of (x :: data)) (0, 0)%Z
              = (0, 0)%Z).
  { clear Hne F. induction (x :: data) as [|y l IH]; [reflexivity|].
    cbn [forallb] in Hz. apply andb_true_iff in Hz. destruct Hz as [Hy Hl].
    cbn [map fold_left]. destruct y; try discriminate. now apply IH. }
  now rewrite S.
Qed.

End Failures.

(** X4: [InvestmentTool._run] raises exactly on the texts where the debt
    block or the recommendation divides by a mean that is zero, and the
    exception is then [ZeroDivisionError]; on every other text it returns a
    string. *)
Theorem X4_investment_raises_exactly (text : string) :
  (divides_by_zero text = true /\
   InvestmentTool._run text = Raise ZeroDivisionError) \/
  (divides_by_zero text = false /\
   exists out, InvestmentTool._run text = Ok out).
Proof. apply investment_outcome. Qed.

(** X5: when a debt is extracted and every extracted profit is zero, or
    when a profit is extracted and every extracted revenue is zero,
    [InvestmentTool._run] raises [ZeroDivisionError]. *)
Theorem X5_zero_figures_raise (text : string)
        (H : (debts text <> [] /\ profits text <> [] /\
              forallb is_zero (profits text) = true) \/
             (profits text <> [] /\ revenues text <> [] /\
              forallb is_zero (revenues text) = true)) :
  InvestmentTool._run text = Raise ZeroDivisionError.
Proof.
  destruct (investment_outcome text) as [[_ R]|[Z _]]; [exact R|].
  unfold divides_by_zero in Z. exfalso.
  destruct H as [[Hd [Hp Hz]]|[Hp [Hr Hz]]].
  - apply nonempty_true in Hd. apply zero_mean_of_zeros in Hz; [|exact Hp].
    apply nonempty_true in Hp. rewrite Hd, Hp, Hz in Z. discriminate.
  - apply zero_mean_of_zeros in Hz; [|exact Hr].
    apply nonempty_true in Hr. apply nonempty_true in Hp.
    rewrite Hr, Hp, Hz in Z.
    rewrite orb_true_r in Z. discriminate.
Qed.

Lemma X5_zero_figures_raise_witness :
  ((debts "Net income: nil. Profit 0 and 000; liabilities of $1,500"
    <> [] /\
    profits "Net income: nil. Profit 0 and 000; liabilities of $1,500"
    <> [] /\
    forallb is_zero
      (profits "Net income: nil. Profit 0 and 000; liabilities of $1,500")
    = true) \/
   (profits "Net income: nil. Profit 0 and 000; liabilities of $1,500"
    <> [] /\
    revenues "Net income: nil. Profit 0 and 000; liabilities of $1,500"
    <> [] /\
    forallb is_zero
      (revenues "Net income: nil. Profit 0 and 000; liabilities of $1,500")
    = true)) /\
  InvestmentTool._run
    "Net income: nil. Profit 0 and 000; liabilities of $1,500"
  = Raise ZeroDivisionError.
Proof.
  assert (H : (debts "Net income: nil. Profit 0 and 000; liabilities of $1,500"
               <> [] /\
               profits
                 "Net income: nil. Profit 0 and 000; liabilities of $1,500"
               <> [] /\
               forallb is_zero
                 (profits
                    "Net income: nil. Profit 0 and 000; liabilities of $1,500")
               = true) \/
              (profits
                 "Net income: nil. Profit 0 and 000; liabilities of $1,500"
               <> [] /\
               revenues
                 "Net income: nil. Profit 0 and 000; liabilities of $1,500"
               <> [] /\
               forallb is_zero
                 (revenues
                    "Net income: nil. Profit 0 and 000; liabilities of $1,500")
               = true)).
  { left. split; [vm_compute; discriminate|].
    split; [vm_compute; discriminate | vm_compute; reflexivity]. }
  split; [exact H|].
  exact (X5_zero_figures_raise _ H).
Defined.

(** ** The characters of the lines *)

Section Characters.

Lemma all_chars_app (p : ascii -> bool) (a b : string) :
  all_chars p (a ++ b) = all_chars p a && all_chars p b.
Proof.
  induction a as [|c a IH]; [reflexivity|].
  cbn [String.append all_chars]. now rewrite IH, andb_assoc.
Qed.

Lemma all_chars_impl (p q : ascii -> bool) (s : string) :
  (forall c, p c = true -> q c = true) ->
  all_chars p s = true -> all_chars q s = true.
Proof.
  intros Hpq. induction s as [|c s IH]; [reflexivity|].
  cbn [all_chars]. intros H. apply andb_true_iff in H. destruct H as [Hc Hs].
  now rewrite (Hpq c Hc), IH.
Qed.

Lemma printable_app (a b : string) :
  printable (a ++ b) = printable a && printable b.
Proof. apply all_chars_app. Qed.

Lemma printable_newline_free (s : string) :
  printable s = true -> newline_free s = true.
Proof.
  apply all_chars_impl. intros c. unfold between.
  destruct (N.eqb_spec (code c) 10) as [->|]; [discriminate | reflexivity].
Qed.

Lemma newline_free_app (a b : string) :
  newline_free (a ++ b) = newline_free a && newline_free b.
Proof. apply all_chars_app. Qed.

Lemma printable_uint (d : Decimal.uint) :
  printable (NilEmpty.string_of_uint d) = true.
Proof. induction d; [reflexivity | exact IHd ..]. Qed.

Lemma printable_digits_of (n : Z) : printable (digits_of n) = true.
Proof.
  unfold digits_of, NilZero.string_of_uint.
  destruct (N.to_uint (Z.to_N n)); try reflexivity; apply printable_uint.
Qed.

Lemma printable_group3 (s : string) :
  printable s = true -> printable (group3 s) = true.
Proof.
  induction s as [|c s IH]; [reflexivity|].
  unfold printable in *. cbn [all_chars group3]. intros H.
  apply andb_true_iff in H. destruct H as [Hc Hs]. rewrite Hc. cbn [andb].
  destruct (negb (is_empty s) && (String.length s mod 3 =? 0)%nat);
    [|now apply IH].
  rewrite all_chars_app. now rewrite (IH Hs).
Qed.

Lemma printable_format (commas : bool) (x : float) :
  printable (format_2f commas x) = true.
Proof.
  unfold format_2f, two_digits, sign_of.
  destruct x as [s|s| |s m e]; try (destruct s; reflexivity); [reflexivity|].
  rewrite !printable_app, !printable_digits_of.
  destruct commas; [rewrite printable_group3 by apply printable_digits_of|];
    rewrite ?printable_digits_of; now destruct s.
Qed.

Lemma printable_join (sep : string) (l : list string) :
  printable sep = true -> Forall (fun w => printable w = true) l ->
  printable (join sep l) = true.
Proof.
  intros Hs H. induction H as [|w l Hw Hl IH]; [reflexivity|].
  destruct l as [|v l]; [exact Hw|].
  change (join sep (w :: v :: l)) with (w ++ sep ++ join sep (v :: l)).
  now rewrite !printable_app, Hw, Hs, IH.
Qed.

Lemma printable_found (processed_data : string) (vocabulary : list string) :
  Forall (fun w => printable w = true) vocabulary ->
  printable (join ", " (RiskTool.found processed_data vocabulary)) = true.
Proof.
  intros H. apply printable_join; [reflexivity|].
  unfold RiskTool.found. rewrite Forall_forall in *. intros w Hw.
  apply filter_In in Hw. now apply H.
Qed.

(** A word of high bytes cannot start in front of, nor inside, printable
    text. *)
Lemma starts_with_high (w x y : string) :
  high_bytes w = true -> printable y = true ->
  starts_with w (x ++ y) = starts_with w x.
Proof.
  revert x. induction w as [|c w IH]; intros x Hw Hy; [reflexivity|].
  unfold high_bytes in Hw. cbn [all_chars] in Hw.
  apply andb_true_iff in Hw. destruct Hw as [Hc Hw].
  destruct x as [|a x].
  - cbn [String.append starts_with]. destruct y as [|d y]; [reflexivity|].
    unfold printable in Hy. cbn [all_chars] in Hy.
    apply andb_true_iff in Hy. destruct Hy as [Hd _].
    destruct (Ascii.eqb_spec c d) as [->|]; [|reflexivity].
    unfold between in Hd. apply andb_true_iff in Hd. destruct Hd as [_ Hd].
    apply N.leb_le in Hc, Hd. lia.
  - cbn [String.append starts_with]. now rewrite (IH x Hw Hy).
Qed.

Lemma contains_printable (w y : string) :
  high_bytes w = true -> is_empty w = false -> printable y = true ->
  contains w y = false.
Proof.
  intros Hw He. induction y as [|d y IH]; intros Hy.
  - now destruct w.
  - cbn [contains].
    pose proof (starts_with_high w EmptyString (String d y) Hw Hy) as S.
    cbn [String.append] in S. rewrite S.
    unfold printable in Hy. cbn [all_chars] in Hy.
    apply andb_true_iff in Hy. destruct Hy as [_ Hy].
    rewrite (IH Hy). now destruct w.
Qed.

Lemma contains_high (w x y : string) :
  high_bytes w = true -> is_empty w = false -> printable y = true ->
  contains w (x ++ y) = contains w x.
Proof.
  intros Hw He Hy. induction x as [|a x IH].
  - cbn [String.append]. rewrite (contains_printable w y Hw He Hy).
    now destruct w.
  - change (String a x ++ y) with (String a (x ++ y)). cbn [contains].
    rewrite IH.
    pose proof (starts_with_high w (String a x) y Hw Hy) as S.
    change (String a x ++ y) with (String a (x ++ y)) in S. now rewrite S.
Qed.

Lemma lines_from_free (cur s : string) :
  newline_free s = true -> lines_from cur s = [cur ++ s].
Proof.
  revert cur. induction s as [|c s IH]; intros cur H.
  - cbn. f_equal. clear. induction cur as [|a cur IH]; [reflexivity|].
    cbn. now rewrite <- IH.
  - unfold newline_free in H. cbn [all_chars] in H.
    apply andb_true_iff in H. destruct H as [Hc Hs].
    cbn [lines_from]. apply negb_true_iff in Hc. rewrite Hc.
    rewrite (IH _ Hs). now rewrite string_app_assoc.
Qed.

Lemma lines_free (s : string) : newline_free s = true -> lines s = [s].
Proof. apply lines_from_free. Qed.

Lemma lines_join (l : list string) :
  l <> [] -> Forall (fun x => newline_free x = true) l ->
  lines (join newline l) = l.
Proof.
  intros Hne H. induction H as [|x l Hx Hl IH]; [congruence|].
  destruct l as [|y l]; [now apply lines_free|].
  change (join newline (x :: y :: l))
    with (x ++ newline ++ join newline (y :: l)).
  rewrite lines_app, (lines_free x Hx), IH; [reflexivity | discriminate].
Qed.

End Characters.

(** ** The lines of [RiskTool._run] and their markers *)

Section RiskLines.

Lemma ratio_line_marks (label : string) (r : float) :
  contains RiskTool.high_marker label = false ->
  contains RiskTool.medium_marker label = false ->
  newline_free label = true ->
  contains RiskTool.high_marker (label ++ format_2f false r) = false /\
  contains RiskTool.medium_marker (label ++ format_2f false r) = false /\
  newline_free (label ++ format_2f false r) = true.
Proof.
  intros Hh Hm Hn.
  rewrite !contains_high, Hh, Hm, newline_free_app, Hn,
    (printable_newline_free _ (printable_format false r));
    try reflexivity; try apply printable_format.
  now repeat split.
Qed.

Lemma solvency_block (text : string) :
  exists S,
    RiskTool.solvency_lines (assets text) (debts text) [] = Ok S /\
    block S (is_line RiskTool.high_solvency (solvency text))
      (is_line RiskTool.moderate_solvency (solvency text)) 2.
Proof.
  unfold RiskTool.solvency_lines, solvency.
  destruct (nonempty (assets text) && nonempty (debts text)) eqn:E.
  - apply andb_true_iff in E. destruct E as [Ea Ed].
    destruct (mean_returns (assets text)) as [a ->]; [now apply nonempty_true|].
    destruct (mean_returns (debts text)) as [d ->]; [now apply nonempty_true|].
    cbn [bind].
    assert (R : exists r, RiskTool.debt_to_assets d a = Ok r).
    { unfold RiskTool.debt_to_assets. destruct (truthy a) eqn:T;
        [now apply risk_div_returns | now eexists]. }
    destruct R as [r ->]. cbn [bind]. eexists. split; [reflexivity|].
    destruct (ratio_line_marks "⚖️ Debt-to-Assets Ratio: " r
                eq_refl eq_refl eq_refl) as [Hh [Hm Hn]].
    unfold block, append. cbn [app existsb List.length]. rewrite Hh, Hm.
    unfold RiskTool.solvency_class.
    destruct (gt r (decimal 6 10));
      [|destruct (gt r (decimal 4 10))];
      (repeat split; [repeat constructor; assumption || reflexivity | lia]).
  - exists []. split; [reflexivity|]. unfold block. cbn.
    repeat split; [constructor | lia].
Qed.

Lemma servicing_block (text : string) (l : list string) :
  exists V,
    RiskTool.servicing_lines (profits text) (debts text) l = Ok (l ++ V)%list /\
    block V (is_line RiskTool.high_servicing (servicing text))
      (is_line RiskTool.moderate_servicing (servicing text)) 2.
Proof.
  unfold RiskTool.servicing_lines, servicing.
  destruct (nonempty (profits text) && nonempty (debts text)) eqn:E.
  - apply andb_true_iff in E. destruct E as [Ea Ed].
    destruct (mean_returns (profits text)) as [a ->]; [now apply nonempty_true|].
    destruct (mean_returns (debts text)) as [d ->]; [now apply nonempty_true|].
    cbn [bind].
    assert (R : exists r, RiskTool.debt_to_income d a = Ok r).
    { unfold RiskTool.debt_to_income. destruct (truthy a) eqn:T;
        [now apply risk_div_returns | now eexists]. }
    destruct R as [r ->]. cbn [bind].
    exists ["⚖️ Debt-to-Income Ratio: " ++ format_2f false r;
            RiskTool.servicing_class r].
    split; [unfold append; now rewrite <- app_assoc|].
    destruct (ratio_line_marks "⚖️ Debt-to-Income Ratio: " r
                eq_refl eq_refl eq_refl) as [Hh [Hm Hn]].
    unfold block. cbn [existsb List.length]. rewrite Hh, Hm.
    unfold RiskTool.servicing_class.
    destruct (gt r (of_Z 4));
      [|destruct (gt r (of_Z 2))];
      (repeat split; [repeat constructor; assumption || reflexivity | lia]).
  - exists []. split; [now rewrite app_nil_r|]. unfold block. cbn.
    repeat split; [constructor | lia].
Qed.

Lemma keyword_block (label : string) (processed_data : string)
      (vocabulary l : list string) :
  Forall (fun w => printable w = true) vocabulary ->
  newline_free label = true ->
  exists K,
    RiskTool.keyword_line label (RiskTool.found processed_data vocabulary) l
    = (l ++ K)%list /\
    block K
      (contains RiskTool.high_marker label
       && nonempty (RiskTool.found processed_data vocabulary))
      (contains RiskTool.medium_marker label
       && nonempty (RiskTool.found processed_data vocabulary)) 1.
Proof.
  intros Hv Hl. unfold RiskTool.keyword_line.
  pose proof (printable_found processed_data vocabulary Hv) as Hp.
  destruct (nonempty (RiskTool.found processed_data vocabulary)).
  - eexists. split; [reflexivity|]. unfold block. cbn [existsb List.length].
    rewrite !contains_high by (reflexivity || exact Hp).
    rewrite !orb_false_r, !andb_true_r.
    repeat split; [|lia]. repeat constructor.
    now rewrite newline_free_app, Hl, (printable_newline_free _ Hp).
  - exists []. split; [now rewrite app_nil_r|]. unfold block. cbn.
    rewrite !andb_false_r. repeat split; [constructor | lia].
Qed.

Lemma block_app (a b : list string) (h1 m1 h2 m2 : bool) (n1 n2 : nat) :
  block a h1 m1 n1 -> block b h2 m2 n2 ->
  block (a ++ b) (h1 || h2) (m1 || m2) (n1 + n2).
Proof.
  intros [H1 [M1 [F1 L1]]] [H2 [M2 [F2 L2]]]. unfold block.
  rewrite !existsb_app, H1, H2, M1, M2, length_app.
  repeat split; [now apply Forall_app | lia].
Qed.

Lemma vocabularies_printable :
  Forall (fun w => printable w = true) RiskTool.market_risks /\
  Forall (fun w => printable w = true) RiskTool.operational_risks /\
  Forall (fun w => printable w = true) RiskTool.negative_signals.
Proof. repeat split; repeat constructor. Qed.

(** The lines gathered before step 5. *)
Lemma findings_block (text : string) :
  exists l,
    RiskTool.findings text = Ok l /\
    block l (flagged_high text) (flagged_medium text) 7.
Proof.
  rewrite risk_steps.
  destruct (solvency_block text) as [S [-> BS]]. cbn [bind].
  destruct (servicing_block text S) as [V [-> BV]]. cbn [bind].
  destruct vocabularies_printable as [P1 [P2 P3]].
  destruct (keyword_block RiskTool.market_label (processed text)
              RiskTool.market_risks (S ++ V) P1 eq_refl) as [K1 [-> B1]].
  destruct (keyword_block RiskTool.operational_label (processed text)
              RiskTool.operational_risks ((S ++ V) ++ K1) P2 eq_refl)
    as [K2 [-> B2]].
  destruct (keyword_block RiskTool.negative_label (processed text)
              RiskTool.negative_signals (((S ++ V) ++ K1) ++ K2) P3 eq_refl)
    as [K3 [-> B3]].
  eexists. split; [reflexivity|].
  pose proof (block_app _ _ _ _ _ _ _ _
                (block_app _ _ _ _ _ _ _ _
                   (block_app _ _ _ _ _ _ _ _
                      (block_app _ _ _ _ _ _ _ _ BS BV) B1) B2) B3) as B.
  unfold flagged_high, flagged_medium.
  change (contains RiskTool.high_marker RiskTool.market_label) with false in B.
  change (contains RiskTool.medium_marker RiskTool.market_label)
    with false in B.
  change (contains RiskTool.high_marker RiskTool.operational_label)
    with false in B.
  change (contains RiskTool.medium_marker RiskTool.operational_label)
    with false in B.
  change (contains RiskTool.high_marker RiskTool.negative_label)
    with false in B.
  change (contains RiskTool.medium_marker RiskTool.negative_label)
    with true in B.
  cbn [andb] in B. rewrite !orb_false_r in B. exact B.
Qed.

Lemma overall_of_flags (l : list string) (high medium : bool) :
  existsb (contains RiskTool.high_marker) l = high ->
  existsb (contains RiskTool.medium_marker) l = medium ->
  RiskTool.overall (RiskTool.risk_score l) = rating_of_flags high medium.
Proof.
  intros Hh Hm. unfold RiskTool.risk_score, rating_of_flags.
  rewrite Hh, Hm. destruct high, medium; reflexivity.
Qed.

End RiskLines.

(** X6: the rating of [RiskTool._run] depends on two facts only: whether a
    high classification (solvency or debt servicing) was appended, and
    whether a moderate classification or the line of the negative signals
    was.  Both give the high rating, the first alone the medium rating, and
    without a high classification the rating is low; the market and the
    operational words never weigh on it. *)
Theorem X6_risk_rating_from_flags (text : string) :
  exists out,
    RiskTool._run text = Ok out /\
    last_line out
    = RiskTool.rating_line
        (rating_of_flags (flagged_high text) (flagged_medium text)).
Proof.
  destruct (findings_block text) as [l [Hl [Hh [Hm _]]]].
  unfold RiskTool._run, RiskTool.insights_of. rewrite Hl. cbn [bind].
  rewrite nonempty_append. eexists. split; [reflexivity|].
  rewrite last_line_join by apply rating_line_lines.
  now rewrite (overall_of_flags l _ _ Hh Hm).
Qed.

(** X7: [RiskTool._run] returns on every text, the lines of its output
    are the lines it appended, one to eight of them, and the last one is the
    rating. *)
Theorem X7_risk_output_lines (text : string) :
  exists out insights,
    RiskTool._run text = Ok out /\
    RiskTool.insights_of text = Ok insights /\
    lines out = insights /\
    1 <= List.length insights <= 8 /\
    exists rating,
      In rating [RiskTool.high_risk; RiskTool.medium_risk; RiskTool.low_risk]
      /\ last insights EmptyString = RiskTool.rating_line rating.
Proof.
  destruct (findings_block text) as [l [Hl [_ [_ [Hf Hn]]]]].
  unfold RiskTool._run, RiskTool.insights_of. rewrite Hl. cbn [bind].
  rewrite nonempty_append. eexists. eexists. split; [reflexivity|].
  split; [reflexivity|]. unfold append. split; [|split].
  - apply lines_join; [now destruct l|].
    apply Forall_app. split; [exact Hf|]. repeat constructor.
    apply andb_true_iff. split; [reflexivity|].
    unfold RiskTool.overall.
    destruct (3 <=? _)%nat; [reflexivity|]. destruct (_ =? 2)%nat; reflexivity.
  - rewrite List.length_app. cbn [List.length]. lia.
  - rewrite last_last. eexists. split; [|reflexivity].
    unfold RiskTool.overall. cbn [In].
    destruct (3 <=? _)%nat; [tauto|]. destruct (_ =? 2)%nat; tauto.
Qed.

(** ** The lines of [InvestmentTool._run] *)

Section InvestmentLines.

Lemma figure_line_free (label tail : string) (commas : bool) (x : float) :
  newline_free label = true -> newline_free tail = true ->
  newline_free (label ++ format_2f commas x ++ tail) = true.
Proof.
  intros Hl Ht.
  now rewrite !newline_free_app, Hl, Ht,
    (printable_newline_free _ (printable_format commas x)).
Qed.

Lemma amount_line_free (label : string) (commas : bool) (x : float) :
  newline_free label = true ->
  newline_free (label ++ format_2f commas x) = true.
Proof.
  intros Hl.
  now rewrite newline_free_app, Hl,
    (printable_newline_free _ (printable_format commas x)).
Qed.

Lemma margin_block (rs ps : list float) :
  exists M,
    InvestmentTool.margin_lines rs ps [] = Ok M /\
    Forall (fun x => newline_free x = true) M /\
    List.length M = if nonempty rs && nonempty ps then 3 else 0.
Proof.
  unfold InvestmentTool.margin_lines.
  destruct (nonempty rs && nonempty ps) eqn:E;
    [|exists []; now repeat split].
  apply andb_true_iff in E. destruct E as [Er Ep].
  destruct (mean_returns rs) as [a ->]; [now apply nonempty_true|].
  destruct (mean_returns ps) as [b ->]; [now apply nonempty_true|].
  cbn [bind].
  assert (R : exists m,
             (if truthy a
              then q <- div b a ;; Ok (mul q (of_Z 100))
              else Ok (of_Z 0)) = Ok m).
  { destruct (truthy a) eqn:T; [|now eexists].
    destruct (risk_div_returns b a T) as [q ->]. now eexists. }
  destruct R as [m ->]. cbn [bind]. eexists. split; [reflexivity|].
  split; [|reflexivity]. unfold append. cbn [app]. repeat constructor.
  - now apply amount_line_free.
  - now apply amount_line_free.
  - now apply figure_line_free.
Qed.

Lemma debt_block (ds ps : list float) (l l' : list string) :
  InvestmentTool.debt_lines ds ps l = Ok l' ->
  exists D,
    l' = (l ++ D)%list /\
    Forall (fun x => newline_free x = true) D /\
    List.length D = if nonempty ds && nonempty ps then 2 else 0.
Proof.
  unfold InvestmentTool.debt_lines.
  destruct (nonempty ds && nonempty ps) eqn:E.
  - destruct (mean ds) as [d|]; [|discriminate]. cbn [bind].
    destruct (if nonempty ps then _ else _) as [r|]; [|discriminate].
    cbn [bind]. intros H. apply ok_inj in H. subst l'.
    exists ["⚖️ Avg Debt: $" ++ format_2f true d;
            "⚖️ Debt-to-Income Ratio: " ++ format_2f false r].
    split; [unfold append; now rewrite <- app_assoc|].
    split; [|reflexivity]. repeat constructor.
    + now apply amount_line_free.
    + now apply amount_line_free.
  - intros H. apply ok_inj in H. subst l'. exists [].
    split; [now rewrite app_nil_r | now split].
Qed.

End InvestmentLines.

(** X8: when [InvestmentTool._run] returns, the lines of its output are the
    lines it appended: three for the margin when revenues and profits were
    extracted, two for the debt when debts and profits were, then the
    sentiment and the recommendation. *)
Theorem X8_investment_output_lines (text out : string)
        (H : InvestmentTool._run text = Ok out) :
  exists insights,
    InvestmentTool.insights_of text = Ok insights /\
    lines out = insights /\
    List.length insights
    = (if nonempty (revenues text) && nonempty (profits text) then 3 else 0)
      + (if nonempty (debts text) && nonempty (profits text) then 2 else 0)
      + 2.
Proof.
  unfold InvestmentTool._run in H. rewrite investment_steps in *.
  destruct (margin_block (revenues text) (profits text)) as [M [HM [FM LM]]].
  rewrite HM in *. cbn [bind] in *.
  destruct (InvestmentTool.debt_lines _ _ M) as [l2|] eqn:HD; [|discriminate].
  destruct (debt_block _ _ _ _ HD) as [D [-> [FD LD]]]. cbn [bind] in *.
  destruct (InvestmentTool.recommendation _ _ _ _) as [r|] eqn:HR;
    [|discriminate].
  cbn [bind] in *. rewrite nonempty_append in H. apply ok_inj in H. subst out.
  eexists. split; [reflexivity|]. unfold append. split.
  - apply lines_join; [now destruct ((M ++ D) ++ [_])%list|].
    repeat (apply Forall_app; split); try assumption; repeat constructor.
    + unfold InvestmentTool.sentiment.
      destruct (_ <? _)%nat; [reflexivity|]. destruct (_ <? _)%nat; reflexivity.
    + destruct (recommendation_cases _ _ _ _ _ HR) as [->|[->| ->]];
        reflexivity.
  - rewrite !List.length_app, LM, LD. cbn [List.length]. lia.
Qed.

Lemma X8_investment_output_lines_witness :
  InvestmentTool._run "Revenue 100, profit 20, debt 50 after strong growth"
  = Ok (join newline
          ["📊 Average Revenue: $100.00"; "📊 Average Profit: $20.00";
           "📊 Profit Margin: 20.00%"; "⚖️ Avg Debt: $50.00";
           "⚖️ Debt-to-Income Ratio: 2.50";
           InvestmentTool.positive_outlook;
           InvestmentTool.recommendation_line "Buy"]) /\
  exists insights,
    InvestmentTool.insights_of
      "Revenue 100, profit 20, debt 50 after strong growth" = Ok insights /\
    lines
      (join newline
         ["📊 Average Revenue: $100.00"; "📊 Average Profit: $20.00";
          "📊 Profit Margin: 20.00%"; "⚖️ Avg Debt: $50.00";
          "⚖️ Debt-to-Income Ratio: 2.50";
          InvestmentTool.positive_outlook;
          InvestmentTool.recommendation_line "Buy"]) = insights /\
    List.length insights
    = (if nonempty
            (revenues "Revenue 100, profit 20, debt 50 after strong growth")
          && nonempty
               (profits "Revenue 100, profit 20, debt 50 after strong growth")
       then 3 else 0)
      + (if nonempty
              (debts "Revenue 100, profit 20, debt 50 after strong growth")
            && nonempty
                 (profits "Revenue 100, profit 20, debt 50 after strong growth")
         then 2 else 0)
      + 2.
Proof.
  assert (H : InvestmentTool._run
                "Revenue 100, profit 20, debt 50 after strong growth"
              = Ok (join newline
                      ["📊 Average Revenue: $100.00";
                       "📊 Average Profit: $20.00";
                       "📊 Profit Margin: 20.00%"; "⚖️ Avg Debt: $50.00";
                       "⚖️ Debt-to-Income Ratio: 2.50";
                       InvestmentTool.positive_outlook;
                       InvestmentTool.recommendation_line "Buy"]))
    by (vm_compute; reflexivity).
  split; [exact H|].
  exact (X8_investment_output_lines _ _ H).
Defined.

(** ** Letter case *)

Section LetterCase.

Lemma lower_char_idem (c : ascii) : lower_char (lower_char c) = lower_char c.
Proof. destruct c as [[|] [|] [|] [|] [|] [|] [|] [|]]; reflexivity. Qed.

Lemma class_lower (c : ascii) :
  is_word (lower_char c) = is_word c /\
  is_space (lower_char c) = is_space c /\
  is_digit (lower_char c) = is_digit c.
Proof.
  destruct c as [[|] [|] [|] [|] [|] [|] [|] [|]]; repeat split; reflexivity.
Qed.

Lemma class_match_lower (cls : list item) (c : ascii) :
  class_match cls (lower_char c) = class_match cls c.
Proof.
  unfold class_match. induction cls as [|i cls IH]; [reflexivity|].
  cbn [existsb]. rewrite IH. f_equal.
  destruct (class_lower c) as [W [S D]].
  destruct i; cbn [item_match]; rewrite ?lower_char_idem; auto.
Qed.

Lemma lower_idem (s : string) : lower (lower s) = lower s.
Proof.
  induction s as [|c s IH]; [reflexivity|].
  cbn [lower]. now rewrite lower_char_idem, IH.
Qed.

Lemma lower_length (s : string) : String.length (lower s) = String.length s.
Proof. induction s as [|c s IH]; [reflexivity|]. cbn. now rewrite IH. Qed.

Lemma lower_substring (n m : nat) (s : string) :
  substring n m (lower s) = lower (substring n m s).
Proof.
  revert n m. induction s as [|c s IH]; intros n m.
  - destruct n, m; reflexivity.
  - destruct n as [|n]; [destruct m as [|m]|]; cbn [lower substring];
      [reflexivity | now rewrite IH | apply IH].
Qed.

Lemma consumed_lower (s rest : string) :
  consumed (lower s) (lower rest) = lower (consumed s rest).
Proof. unfold consumed. now rewrite !lower_length, lower_substring. Qed.

Lemma lower_answer_or_else (a b : answer) :
  lower_answer (or_else a b) = or_else (lower_answer a) (lower_answer b).
Proof. destruct a as [[r c]|]; reflexivity. Qed.

Lemma eqb_high_lower (p c : ascii) :
  (128 <=? code p)%N = true ->
  Ascii.eqb p (lower_char c) = Ascii.eqb p c.
Proof.
  intros Hp. unfold lower_char. destruct (is_upper c) eqn:U; [|reflexivity].
  unfold is_upper, between in U. apply andb_true_iff in U.
  destruct U as [U1 U2]. apply N.leb_le in U1, U2.
  rewrite (high_differs p c Hp) by (apply N.ltb_lt; lia).
  apply high_differs; [exact Hp|]. apply N.ltb_lt. unfold code at 1.
  rewrite N_ascii_embedding by lia. lia.
Qed.

Lemma after_lower (w s : string) :
  high_bytes w = true ->
  after w (lower s) = option_map lower (after w s).
Proof.
  unfold high_bytes. revert s. induction w as [|p w IH]; intros s H;
    [reflexivity|].
  cbn [all_chars] in H. apply andb_true_iff in H. destruct H as [Hp Hw].
  destruct s as [|c s]; [reflexivity|]. cbn [lower after].
  rewrite (eqb_high_lower _ _ Hp).
  destruct (Ascii.eqb p c); [now apply IH | reflexivity].
Qed.

Lemma first_after_lower (ws : list string) (s : string) :
  Forall (fun w => high_bytes w = true) ws ->
  first_after ws (lower s) = option_map lower (first_after ws s).
Proof.
  intros H. induction H as [|w ws Hw Hws IH]; [reflexivity|].
  cbn [first_after fold_right]. fold (first_after ws (lower s)).
  fold (first_after ws s). rewrite (after_lower _ _ Hw), IH.
  now destruct (after w s).
Qed.

Lemma folded_high (p : ascii) :
  Forall (fun w => high_bytes w = true) (folded p).
Proof.
  unfold folded.
  destruct (code (lower_char p) =? 105)%N;
    [|destruct (code (lower_char p) =? 115)%N;
      [|destruct (code (lower_char p) =? 107)%N]];
    repeat constructor.
Qed.

Lemma lit_char_lower (p : ascii) (s : string) :
  lit_char p (lower s) = option_map lower (lit_char p s).
Proof.
  destruct s as [|c s]; [reflexivity|].
  change (lower (String c s)) with (String (lower_char c) (lower s)).
  cbn [lit_char]. rewrite lower_char_idem.
  destruct (Ascii.eqb _ _); [reflexivity|].
  exact (first_after_lower _ (String c s) (folded_high p)).
Qed.

Lemma class_char_lower (cls : list item) (s : string) :
  class_char cls (lower s) = option_map lower (class_char cls s).
Proof.
  destruct s as [|c s]; [reflexivity|].
  change (lower (String c s)) with (String (lower_char c) (lower s)).
  cbn [class_char]. rewrite class_match_lower.
  destruct (class_match cls c); [reflexivity|].
  apply (first_after_lower _ (String c s)).
  clear. induction cls as [|i cls IH]; [constructor|].
  cbn [flat_map]. apply Forall_app. split; [|exact IH].
  destruct i; [apply folded_high | constructor ..].
Qed.

Lemma lit_lower (w s : string) (caps : list string) (k k' : cont) :
  (forall s c, k' (lower s) (map lower c) = lower_answer (k s c)) ->
  lit w (lower s) (map lower caps) k' = lower_answer (lit w s caps k).
Proof.
  intros R. revert s. induction w as [|p w IH]; intros s; [apply R|].
  cbn [lit]. rewrite lit_char_lower.
  destruct (lit_char p s) as [s'|]; [apply IH | reflexivity].
Qed.

Lemma star_greedy_lower (cls : list item) (s : string) (caps : list string)
      (k k' : cont) :
  (forall s c, k' (lower s) (map lower c) = lower_answer (k s c)) ->
  star_greedy cls (lower s) (map lower caps) k'
  = lower_answer (star_greedy cls s caps k).
Proof.
  intros R. induction s as [|c s IH]; [apply (R EmptyString)|].
  cbn [lower star_greedy]. rewrite class_match_lower.
  destruct (class_match cls c); [|apply (R (String c s))].
  now rewrite lower_answer_or_else, IH, <- (R (String c s)).
Qed.

Lemma star_lazy_lower (cls : list item) (s : string) (caps : list string)
      (k k' : cont) :
  (forall s c, k' (lower s) (map lower c) = lower_answer (k s c)) ->
  star_lazy cls (lower s) (map lower caps) k'
  = lower_answer (star_lazy cls s caps k).
Proof.
  intros R. induction s as [|c s IH]; cbn [lower star_lazy];
    rewrite lower_answer_or_else.
  - now rewrite <- (R EmptyString).
  - rewrite <- (R (String c s)). cbn [lower]. f_equal.
    rewrite class_match_lower. destruct (class_match cls c);
      [apply IH | reflexivity].
Qed.

Lemma run_lower (r : regex) :
  forall (s : string) (caps : list string) (k k' : cont),
    (forall s c, k' (lower s) (map lower c) = lower_answer (k s c)) ->
    run r (lower s) (map lower caps) k' = lower_answer (run r s caps k).
Proof.
  induction r as [w|cls|r1 IH1 r2 IH2|r1 IH1 r2 IH2|r1 IH1|cls|cls|r1 IH1];
    intros s caps k k' R; cbn [run].
  - now apply lit_lower.
  - rewrite class_char_lower.
    destruct (class_char cls s) as [s'|]; [apply R | reflexivity].
  - apply IH1. intros s' c'. now apply IH2.
  - now rewrite lower_answer_or_else, (IH1 s caps k k' R), (IH2 s caps k k' R).
  - now rewrite lower_answer_or_else, (IH1 s caps k k' R), <- R.
  - destruct s as [|c s]; [reflexivity|]. cbn [lower].
    rewrite class_match_lower. destruct (class_match cls c);
      [now apply star_greedy_lower | reflexivity].
  - now apply star_lazy_lower.
  - apply IH1. intros s' c'.
    rewrite <- R, map_app, consumed_lower. reflexivity.
Qed.

Lemma match_here_lower (r : regex) (s : string) :
  match_here r (lower s) = lower_answer (match_here r s).
Proof.
  unfold match_here. now apply (run_lower r s [] _ _).
Qed.

Lemma findall_from_lower (r : regex) (s : string) (skip : nat) :
  findall_from r (lower s) skip = map (map lower) (findall_from r s skip).
Proof.
  revert skip. induction s as [|c s IH]; intros skip.
  - cbn [lower findall_from].
    change EmptyString with (lower EmptyString) at 1.
    rewrite match_here_lower.
    destruct (match_here r EmptyString) as [[rest caps]|]; reflexivity.
  - cbn [findall_from]. change (lower (String c s))
      with (String (lower_char c) (lower s)). cbn [findall_from].
    destruct skip as [|n]; [|apply IH].
    change (String (lower_char c) (lower s)) with (lower (String c s)).
    rewrite match_here_lower.
    destruct (match_here r (String c s)) as [[rest caps]|]; cbn [lower_answer];
      [|apply IH].
    cbn [map]. rewrite !lower_length. cbn [lower String.length]. now rewrite IH.
Qed.

Lemma numeral_lower (g : string) :
  all_chars numeral_char g = true -> lower g = g.
Proof.
  induction g as [|c g IH]; [reflexivity|]. cbn [all_chars lower].
  intros H. apply andb_true_iff in H. destruct H as [Hc Hg].
  rewrite (IH Hg). f_equal. clear -Hc.
  destruct c as [[|] [|] [|] [|] [|] [|] [|] [|]]; try discriminate;
    reflexivity.
Qed.

Lemma matches_lower (r : regex) (n : nat) (processed_data : string) :
  Forall (fun g => numeral g = true)
    (map (group n) (findall r processed_data)) ->
  map (group n) (findall r (lower processed_data))
  = map (group n) (findall r processed_data).
Proof.
  unfold findall. rewrite findall_from_lower, map_map. intros H.
  rewrite Forall_map in H. apply map_ext_Forall.
  revert H. apply Forall_impl. intros caps Hn. unfold group at 1.
  change EmptyString with (lower EmptyString). rewrite map_nth.
  apply numeral_lower. unfold numeral in Hn. apply andb_true_iff in Hn.
  exact (proj2 Hn).
Qed.

Lemma split_from_lower (cur s : string) :
  split_from (lower cur) (lower s) = map lower (split_from cur s).
Proof.
  revert cur. induction s as [|c s IH]; intros cur; cbn [lower split_from].
  - now destruct cur.
  - destruct (class_lower c) as [_ [-> _]].
    destruct (is_space c).
    + change EmptyString with (lower EmptyString) at 1 2.
      rewrite IH. now destruct cur.
    + rewrite <- IH. f_equal. clear. induction cur as [|a cur IH];
        [reflexivity|]. cbn. now rewrite IH.
Qed.

Lemma join_lower (sep : string) (l : list string) :
  join (lower sep) (map lower l) = lower (join sep l).
Proof.
  induction l as [|x l IH]; [reflexivity|]. destruct l as [|y l];
    [reflexivity|].
  change (join sep (x :: y :: l)) with (x ++ sep ++ join sep (y :: l)).
  change (join (lower sep) (map lower (x :: y :: l)))
    with (lower x ++ lower sep ++ join (lower sep) (map lower (y :: l))).
  rewrite IH. clear.
  generalize (join sep (y :: l)) as z. intros z.
  induction x as [|a x IH]; cbn.
  - induction sep as [|b sep IH]; cbn; [reflexivity | now rewrite IH].
  - now rewrite IH.
Qed.

Lemma processed_lower (text : string) :
  processed (lower text) = lower (processed text).
Proof.
  unfold processed, split.
  pose proof (split_from_lower EmptyString text) as S. cbn [lower] in S.
  rewrite S. exact (join_lower " " _).
Qed.

Lemma lists_lower (text : string) :
  revenues (lower text) = revenues text /\
  profits (lower text) = profits text /\
  debts (lower text) = debts text /\
  assets (lower text) = assets text.
Proof.
  destruct (numeral_captures (processed text)) as [R [P [D A]]].
  unfold revenues, profits, debts, assets,
    revenue_matches, profit_matches, debt_matches, asset_matches in *.
  rewrite !processed_lower.
  now rewrite !matches_lower by assumption.
Qed.

End LetterCase.

(** X9: two texts of ASCII that differ only in the case of their letters
    get the same result from either tool.  (Beyond ASCII [str.lower] and
    [re.IGNORECASE] disagree: the patterns take the capital I with a dot
    for an [i], and [str.lower] makes two characters of it.) *)
Theorem X9_tools_ignore_letter_case (a b : string)
        (Aa : isascii a = true) (Ab : isascii b = true)
        (H : lower a = lower b) :
  InvestmentTool._run a = InvestmentTool._run b /\
  RiskTool._run a = RiskTool._run b.
Proof.
  assert (L : forall t,
             InvestmentTool._run (lower t) = InvestmentTool._run t /\
             RiskTool._run (lower t) = RiskTool._run t).
  { intros t. destruct (lists_lower t) as [R [P [D A]]]. split.
    - unfold InvestmentTool._run. rewrite !investment_steps, R, P, D.
      unfold InvestmentTool.positive_hits, InvestmentTool.negative_hits,
        InvestmentTool.hits.
      now rewrite processed_lower, lower_idem.
    - unfold RiskTool._run, RiskTool.insights_of.
      rewrite !risk_steps, P, D, A. unfold RiskTool.found.
      now rewrite processed_lower, lower_idem. }
  destruct (L a) as [<- <-]. destruct (L b) as [<- <-]. now rewrite H.
Qed.

Lemma X9_tools_ignore_letter_case_witness :
  isascii "REVENUE 100, Net Income 20, LOSS" = true /\
  isascii "revenue 100, net income 20, loss" = true /\
  lower "REVENUE 100, Net Income 20, LOSS"
  = lower "revenue 100, net income 20, loss" /\
  InvestmentTool._run "REVENUE 100, Net Income 20, LOSS"
  = InvestmentTool._run "revenue 100, net income 20, loss" /\
  RiskTool._run "REVENUE 100, Net Income 20, LOSS"
  = RiskTool._run "revenue 100, net income 20, loss".
Proof.
  assert (H : lower "REVENUE 100, Net Income 20, LOSS"
              = lower "revenue 100, net income 20, loss") by reflexivity.
  split; [reflexivity|]. split; [reflexivity|]. split; [exact H|].
  exact (X9_tools_ignore_letter_case
           "REVENUE 100, Net Income 20, LOSS"
           "revenue 100, net income 20, loss" eq_refl eq_refl H).
Defined.

(** * The document tool and the upload handler *)

Import PyLib Facts2.

(** ** The document tool *)

Section Pages.

Lemma loop_spec (docs : list string) (i : nat)
      (pages : list FinancialDocumentTool.page_entry)
      (full_report : list string) :
  FinancialDocumentTool.loop docs i pages full_report
  = ((pages ++
      map (fun p => {| FinancialDocumentTool.page := fst p;
                       FinancialDocumentTool.content := snd p |})
        (combine (seq i (List.length docs))
           (map FinancialDocumentTool.clean docs)))%list,
     (full_report ++ map FinancialDocumentTool.clean docs)%list).
Proof.
  revert i pages full_report.
  induction docs as [|data docs IH]; intros i pages full_report.
  - cbn. now rewrite !app_nil_r.
  - cbn [FinancialDocumentTool.loop]. rewrite IH. unfold append.
    cbn [List.length seq map combine fst snd]. now rewrite <- !app_assoc.
Qed.

Lemma map_combine_fst {A B C : Type} (f : A * B -> C) (g : C -> A)
      (la : list A) (lb : list B) :
  (forall p, g (f p) = fst p) -> List.length la = List.length lb ->
  map g (map f (combine la lb)) = la.
Proof.
  intros Hg. revert lb. induction la as [|a la IH]; intros [|b lb] H;
    try discriminate; [reflexivity|].
  cbn. rewrite Hg. cbn. f_equal. apply IH. now injection H.
Qed.

Lemma map_combine_snd {A B C : Type} (f : A * B -> C) (g : C -> B)
      (la : list A) (lb : list B) :
  (forall p, g (f p) = snd p) -> List.length la = List.length lb ->
  map g (map f (combine la lb)) = lb.
Proof.
  intros Hg. revert lb. induction la as [|a la IH]; intros [|b lb] H;
    try discriminate; [reflexivity|].
  cbn. rewrite Hg. cbn. f_equal. apply IH. now injection H.
Qed.

End Pages.

(** X10: [FinancialDocumentTool._run] numbers the pages from 1 in the order
    in which the loader returned them, keeps for each page its cleaned
    content, and [full_text] is the cleaned contents joined by line
    feeds. *)
Theorem X10_pages_numbered (docs : list string) :
  map FinancialDocumentTool.page
    (FinancialDocumentTool.pages (FinancialDocumentTool.build docs))
  = seq 1 (List.length docs) /\
  map FinancialDocumentTool.content
    (FinancialDocumentTool.pages (FinancialDocumentTool.build docs))
  = map FinancialDocumentTool.clean docs /\
  FinancialDocumentTool.full_text (FinancialDocumentTool.build docs)
  = join newline (map FinancialDocumentTool.clean docs).
Proof.
  unfold FinancialDocumentTool.build. rewrite loop_spec.
  cbn [app FinancialDocumentTool.pages FinancialDocumentTool.full_text].
  repeat split.
  - apply map_combine_fst; [reflexivity|]. now rewrite length_seq, length_map.
  - apply map_combine_snd; [reflexivity|]. now rewrite length_seq, length_map.
Qed.

Section Cleaning2.

Lemma line_feed_eqb (c : ascii) :
  Ascii.eqb (ascii_of_N 10) c = (code c =? 10)%N.
Proof. destruct c as [[|] [|] [|] [|] [|] [|] [|] [|]]; reflexivity. Qed.

Lemma clean_nil : FinancialDocumentTool.clean EmptyString = EmptyString.
Proof. reflexivity. Qed.

Lemma clean_one (a : ascii) :
  FinancialDocumentTool.clean (String a EmptyString) = String a EmptyString.
Proof.
  unfold FinancialDocumentTool.clean, replace, newline.
  cbn [is_empty String.append replace_from starts_with].
  now rewrite andb_false_r.
Qed.

Lemma clean_two (a b : ascii) (s : string) :
  FinancialDocumentTool.clean (String a (String b s))
  = if (code a =? 10)%N && (code b =? 10)%N
    then String (ascii_of_N 10) (FinancialDocumentTool.clean s)
    else String a (FinancialDocumentTool.clean (String b s)).
Proof.
  unfold FinancialDocumentTool.clean, replace, newline.
  cbn [is_empty String.append replace_from starts_with String.length Nat.sub].
  pose proof line_feed_eqb as E.
  rewrite !E. rewrite andb_true_r.
  destruct (code a =? 10)%N, (code b =? 10)%N; reflexivity.
Qed.

(** An induction that steps over one or two characters. *)
Lemma string_ind2 (P : string -> Prop) :
  P EmptyString ->
  (forall a, P (String a EmptyString)) ->
  (forall a b s, P s -> P (String b s) -> P (String a (String b s))) ->
  forall s, P s.
Proof.
  intros H0 H1 H2 s.
  assert (G : P s /\ forall a, P (String a s)).
  { induction s as [|b s [IH1 IH2]]; split.
    - exact H0.
    - exact H1.
    - apply IH2.
    - intros a. apply H2; [exact IH1 | apply IH2]. }
  apply G.
Qed.

Lemma clean_without_newlines (s : string) :
  without_newlines (FinancialDocumentTool.clean s) = without_newlines s.
Proof.
  induction s as [|a|a b s IH1 IH2] using string_ind2.
  - reflexivity.
  - now rewrite clean_one.
  - rewrite clean_two.
    destruct (code a =? 10)%N eqn:A, (code b =? 10)%N eqn:B;
      cbn [andb without_newlines]; rewrite ?A, ?B, ?IH1, ?IH2;
      cbn [without_newlines]; rewrite ?A, ?B; reflexivity.
Qed.

Lemma clean_fixed (s : string) :
  contains (newline ++ newline) s = false ->
  FinancialDocumentTool.clean s = s.
Proof.
  induction s as [|a|a b s IH1 IH2] using string_ind2; intros H.
  - reflexivity.
  - apply clean_one.
  - rewrite clean_two.
    pose proof (contains_head _ _ H) as Hh.
    pose proof (contains_tail _ _ _ H) as Ht.
    unfold newline in Hh. cbn [String.append starts_with] in Hh.
    pose proof line_feed_eqb as E.
    rewrite !E, andb_true_r in Hh. rewrite Hh. now rewrite (IH2 Ht).
Qed.

Lemma count_one (a : ascii) :
  count (String a EmptyString) (newline ++ newline) = 0.
Proof.
  unfold count, newline. cbn [is_empty String.append count_from starts_with].
  now rewrite andb_false_r.
Qed.

Lemma count_two (a b : ascii) (s : string) :
  count (String a (String b s)) (newline ++ newline)
  = if (code a =? 10)%N && (code b =? 10)%N
    then S (count s (newline ++ newline))
    else count (String b s) (newline ++ newline).
Proof.
  unfold count, newline.
  cbn [is_empty String.append count_from starts_with String.length Nat.sub].
  pose proof line_feed_eqb as E.
  rewrite !E. rewrite andb_true_r.
  destruct (code a =? 10)%N, (code b =? 10)%N; reflexivity.
Qed.

Lemma clean_length_count (s : string) :
  String.length (FinancialDocumentTool.clean s)
  + count s (newline ++ newline) = String.length s.
Proof.
  induction s as [|a|a b s IH1 IH2] using string_ind2.
  - reflexivity.
  - now rewrite clean_one, count_one.
  - rewrite clean_two, count_two.
    destruct (_ && _); cbn [String.length] in *; lia.
Qed.

Lemma contains_count (s : string) :
  contains (newline ++ newline) s = true ->
  0 < count s (newline ++ newline).
Proof.
  induction s as [|a|a b s IH1 IH2] using string_ind2; intros H.
  - discriminate H.
  - unfold newline in H. cbn in H. rewrite andb_false_r in H. discriminate H.
  - rewrite count_two.
    pose proof line_feed_eqb as E.
    cbn [contains] in H. unfold newline in H at 1 2.
    cbn [String.append starts_with] in H. rewrite !E, andb_true_r in H.
    destruct (_ && _); [lia|]. apply IH2. exact H.
Qed.

Lemma clean_changes (s : string) :
  String.eqb (FinancialDocumentTool.clean s) s
  = negb (contains (newline ++ newline) s).
Proof.
  destruct (contains (newline ++ newline) s) eqn:C; cbn [negb].
  - apply String.eqb_neq. intros E. pose proof (clean_length_count s) as L.
    pose proof (contains_count s C). rewrite E in L. lia.
  - rewrite (clean_fixed s C). apply String.eqb_refl.
Qed.

Lemma clean_split_from (s cur : string) :
  split_from cur (FinancialDocumentTool.clean s) = split_from cur s.
Proof.
  revert cur. induction s as [|a|a b s IH1 IH2] using string_ind2; intros cur.
  - reflexivity.
  - now rewrite clean_one.
  - rewrite clean_two.
    destruct (code a =? 10)%N eqn:A, (code b =? 10)%N eqn:B; cbn [andb].
    + apply N.eqb_eq in A, B.
      assert (Ea : a = ascii_of_N 10)
        by (rewrite <- (ascii_N_embedding a); unfold code in A; now rewrite A).
      assert (Eb : b = ascii_of_N 10)
        by (rewrite <- (ascii_N_embedding b); unfold code in B; now rewrite B).
      subst a b. cbn [split_from].
      change (is_space (ascii_of_N 10)) with true. cbv iota.
      rewrite IH1. now destruct (is_empty cur).
    + cbn [split_from]. destruct (is_space a); now rewrite ?IH2.
    + cbn [split_from]. destruct (is_space a); now rewrite ?IH2.
    + cbn [split_from]. destruct (is_space a); now rewrite ?IH2.
Qed.

Lemma clean_processed (s : string) :
  processed (FinancialDocumentTool.clean s) = processed s.
Proof. unfold processed, split. now rewrite clean_split_from. Qed.

Lemma split_from_space (a b cur : string) (sp : ascii) :
  is_space sp = true ->
  split_from cur (a ++ String sp b)
  = (split_from cur a ++ split_from EmptyString b)%list.
Proof.
  intros Hs. revert cur. induction a as [|c a IH]; intros cur.
  - cbn [String.append split_from]. rewrite Hs. now destruct (is_empty cur).
  - change (String c a ++ String sp b) with (String c (a ++ String sp b)).
    cbn [split_from]. destruct (is_space c); [|apply IH].
    rewrite IH. now destruct (is_empty cur).
Qed.

Lemma split_join_lines (l : list string) :
  split (join newline l) = List.concat (map split l).
Proof.
  induction l as [|x l IH]; [reflexivity|].
  destruct l as [|y l]; [cbn; now rewrite app_nil_r|].
  change (join newline (x :: y :: l))
    with (x ++ String (ascii_of_N 10) (join newline (y :: l))).
  unfold split at 1. rewrite split_from_space by reflexivity.
  fold (split x). fold (split (join newline (y :: l))). now rewrite IH.
Qed.

End Cleaning2.

Section Layout.

Lemma line_feeds_app (a b : string) :
  line_feeds (a ++ b) = line_feeds a + line_feeds b.
Proof.
  induction a as [|c a IH]; [reflexivity|].
  cbn [String.append line_feeds]. rewrite IH. lia.
Qed.

Lemma line_feeds_printable (s : string) :
  printable s = true -> line_feeds s = 0.
Proof.
  unfold printable. induction s as [|c s IH]; [reflexivity|].
  cbn [all_chars line_feeds]. intros H. apply andb_true_iff in H.
  destruct H as [Hc Hs]. rewrite (IH Hs). unfold between in Hc.
  destruct (N.eqb_spec (code c) 10) as [E|]; [|reflexivity].
  rewrite E in Hc. discriminate Hc.
Qed.

Lemma plain_text_app (a b : string) :
  plain_text (a ++ b) = plain_text a && plain_text b.
Proof. apply all_chars_app. Qed.

Lemma printable_plain (s : string) : printable s = true -> plain_text s = true.
Proof. apply all_chars_impl. intros c H. now rewrite H. Qed.

Lemma printable_json_char (c : ascii) : printable (json_char c) = true.
Proof. destruct c as [[|] [|] [|] [|] [|] [|] [|] [|]]; reflexivity. Qed.

Lemma printable_json_string (s : string) : printable (json_string s) = true.
Proof.
  unfold json_string. rewrite !printable_app.
  assert (H : printable (json_chars s) = true).
  { induction s as [|c s IH]; [reflexivity|].
    cbn [json_chars]. now rewrite printable_app, printable_json_char, IH. }
  now rewrite H.
Qed.

Lemma page_json_layout (p : FinancialDocumentTool.page_entry) :
  plain_text (FinancialDocumentTool.page_json p) = true /\
  line_feeds (FinancialDocumentTool.page_json p) = 3.
Proof.
  unfold FinancialDocumentTool.page_json.
  rewrite !plain_text_app, !line_feeds_app.
  rewrite (printable_plain _ (printable_digits_of _)),
    (printable_plain _ (printable_json_string _)),
    (line_feeds_printable _ (printable_digits_of _)),
    (line_feeds_printable _ (printable_json_string _)).
  split; reflexivity.
Qed.

Lemma pages_layout (pages : list FinancialDocumentTool.page_entry) :
  pages <> [] ->
  plain_text
    (join ("," ++ newline) (map FinancialDocumentTool.page_json pages)) = true /\
  line_feeds
    (join ("," ++ newline) (map FinancialDocumentTool.page_json pages)) + 1
  = 4 * List.length pages.
Proof.
  induction pages as [|p pages IH]; [congruence|]. intros _.
  destruct (page_json_layout p) as [P L].
  destruct pages as [|q pages]; [cbn [map join List.length]; split; [exact P | lia]|].
  destruct IH as [P' L']; [discriminate|].
  change (join ("," ++ newline)
            (map FinancialDocumentTool.page_json (p :: q :: pages)))
    with (FinancialDocumentTool.page_json p ++ ("," ++ newline) ++
          join ("," ++ newline)
            (map FinancialDocumentTool.page_json (q :: pages))).
  rewrite !plain_text_app, !line_feeds_app, P, P', L.
  split; [reflexivity|].
  change (line_feeds ",") with 0. change (line_feeds newline) with 1.
  cbn [List.length] in *. lia.
Qed.

Lemma pages_json_layout (pages : list FinancialDocumentTool.page_entry) :
  plain_text (FinancialDocumentTool.pages_json pages) = true /\
  line_feeds (FinancialDocumentTool.pages_json pages)
  = match pages with [] => 0 | _ => 4 * List.length pages + 1 end.
Proof.
  destruct pages as [|p pages]; [split; reflexivity|].
  destruct (pages_layout (p :: pages)) as [P L]; [discriminate|].
  unfold FinancialDocumentTool.pages_json.
  rewrite !plain_text_app, !line_feeds_app, P.
  split; [reflexivity|].
  change (line_feeds "[") with 0. change (line_feeds newline) with 1.
  change (line_feeds "  ]") with 0. lia.
Qed.

Lemma build_pages_length (docs : list string) :
  List.length (FinancialDocumentTool.pages (FinancialDocumentTool.build docs))
  = List.length docs.
Proof.
  unfold FinancialDocumentTool.build. rewrite loop_spec.
  cbn [FinancialDocumentTool.pages app].
  now rewrite length_map, length_combine, length_seq, length_map, Nat.min_id.
Qed.

Lemma dumps_layout (result : FinancialDocumentTool.result_dict) :
  plain_text (FinancialDocumentTool.dumps result) = true /\
  line_feeds (FinancialDocumentTool.dumps result)
  = match FinancialDocumentTool.pages result with
    | [] => 3
    | pages => 4 * List.length pages + 4
    end.
Proof.
  destruct (pages_json_layout (FinancialDocumentTool.pages result)) as [P L].
  unfold FinancialDocumentTool.dumps.
  rewrite !plain_text_app, !line_feeds_app, P, L.
  rewrite (printable_plain _ (printable_json_string _)),
    (line_feeds_printable _ (printable_json_string _)).
  split; [reflexivity|].
  change (line_feeds newline) with 1.
  destruct (FinancialDocumentTool.pages result); cbn; lia.
Qed.

End Layout.

(** X11: the clean-up of a page takes away line feeds only: the other
    characters stay, in their order; the length falls by
    [page_content.count] of the pair of line feeds; and the content is
    unchanged exactly when it holds no two line feeds in a row. *)
Theorem X11_clean_removes_line_feeds_only (page_content : string) :
  without_newlines (FinancialDocumentTool.clean page_content)
  = without_newlines page_content /\
  String.length (FinancialDocumentTool.clean page_content)
  + count page_content (newline ++ newline)
  = String.length page_content /\
  String.eqb (FinancialDocumentTool.clean page_content) page_content
  = negb (contains (newline ++ newline) page_content).
Proof.
  split; [apply clean_without_newlines|].
  split; [apply clean_length_count | apply clean_changes].
Qed.

(** X12: the clean-up of a page does not show in the two analysis tools:
    [InvestmentTool._run] and [RiskTool._run] return the same text, or raise
    the same exception, on a page content and on its cleaned form. *)
Theorem X12_cleaning_invisible_to_tools (page_content : string) :
  InvestmentTool._run (FinancialDocumentTool.clean page_content)
  = InvestmentTool._run page_content /\
  RiskTool._run (FinancialDocumentTool.clean page_content)
  = RiskTool._run page_content.
Proof.
  unfold InvestmentTool._run, InvestmentTool.insights_of, RiskTool._run,
    RiskTool.insights_of, RiskTool.findings.
  now rewrite clean_processed.
Qed.

(** X13: the words of [full_text] are the words of the pages, page after
    page: joining the pages neither merges two words across a page break nor
    loses one. *)
Theorem X13_full_text_words (docs : list string) :
  split (FinancialDocumentTool.full_text (FinancialDocumentTool.build docs))
  = List.concat (map split docs).
Proof.
  unfold FinancialDocumentTool.build. rewrite loop_spec.
  cbn [FinancialDocumentTool.full_text app]. rewrite split_join_lines.
  f_equal. rewrite map_map. apply map_ext. intros s.
  unfold split. apply clean_split_from.
Qed.

(** X14: the text that [FinancialDocumentTool._run] returns holds printable
    characters of ASCII and line feeds only, and the number of its line
    feeds depends on the number of pages alone, 3 without a page and
    [4 * n + 4] for [n] pages: the line feeds of the contents are
    escaped. *)
Theorem X14_json_layout (docs : list string) :
  plain_text (FinancialDocumentTool._run docs) = true /\
  line_feeds (FinancialDocumentTool._run docs)
  = match docs with
    | [] => 3
    | _ => 4 * List.length docs + 4
    end.
Proof.
  unfold FinancialDocumentTool._run.
  destruct (dumps_layout (FinancialDocumentTool.build docs)) as [P L].
  split; [exact P|]. rewrite L.
  pose proof (build_pages_length docs) as N.
  destruct docs as [|x docs];
    destruct (FinancialDocumentTool.pages _) as [|p pages];
    cbn [List.length] in *; try discriminate; try reflexivity; lia.
Qed.

(** ** The upload handler *)

Section Paths.

Lemma substring_all (s : string) : substring 0 (String.length s) s = s.
Proof. induction s as [|c s IH]; [reflexivity|]. cbn. now rewrite IH. Qed.

Lemma substring_suffix (a b : string) (n : nat) :
  substring (String.length a) n (a ++ b) = substring 0 n b.
Proof. induction a as [|c a IH]; [reflexivity|]. cbn. apply IH. Qed.

Lemma substring_cut (s : string) (k : nat) :
  k <= String.length s ->
  s = substring 0 k s ++ substring k (String.length s - k) s.
Proof.
  revert k. induction s as [|c s IH]; intros k Hk.
  - destruct k; [reflexivity | cbn in Hk; lia].
  - destruct k as [|k].
    + cbn [substring String.append Nat.sub String.length].
      now rewrite substring_all.
    + cbn [String.length] in Hk. cbn [substring String.append String.length Nat.sub].
      f_equal. apply IH. lia.
Qed.

Lemma substring_length (s : string) (k n : nat) :
  k + n <= String.length s -> String.length (substring k n s) = n.
Proof.
  revert k n. induction s as [|c s IH]; intros k n H.
  - cbn in H. destruct k, n; try lia; reflexivity.
  - cbn [String.length] in H. destruct k as [|k].
    + destruct n as [|n]; [reflexivity|]. cbn. f_equal. apply IH. lia.
    + cbn. apply IH. lia.
Qed.

Lemma ends_with_cut (suffix s : string) :
  ends_with suffix s = true ->
  exists pre e, s = pre ++ e /\ e = suffix.
Proof.
  unfold ends_with. intros H. apply andb_true_iff in H. destruct H as [L E].
  apply Nat.leb_le in L. apply String.eqb_eq in E.
  exists (substring 0 (String.length s - String.length suffix) s), suffix.
  split; [|reflexivity].
  rewrite <- E at 2.
  rewrite (substring_cut s (String.length s - String.length suffix)) at 1 by lia.
  do 2 f_equal. lia.
Qed.

(** An accepted name ends with four characters that are [.pdf] up to the
    case of the letters. *)
Lemma allowed_cut (filename : string) :
  Main.allowed filename = true ->
  exists pre e, filename = pre ++ e /\ lower e = ".pdf".
Proof.
  unfold Main.allowed, ends_with. intros H.
  apply andb_true_iff in H. destruct H as [L E].
  apply Nat.leb_le in L. apply String.eqb_eq in E.
  rewrite lower_length in L, E. rewrite lower_substring in E.
  cbn [String.length] in L, E.
  exists (substring 0 (String.length filename - 4) filename),
         (substring (String.length filename - 4) 4 filename).
  split; [|exact E].
  rewrite (substring_cut filename (String.length filename - 4)) at 1 by lia.
  do 2 f_equal. lia.
Qed.

Lemma lower_char_dot (c : ascii) :
  Ascii.eqb c "." = Ascii.eqb (lower_char c) ".".
Proof. destruct c as [[|] [|] [|] [|] [|] [|] [|] [|]]; reflexivity. Qed.

Lemma lower_char_slash (c : ascii) :
  Ascii.eqb c "/" = Ascii.eqb (lower_char c) "/".
Proof. destruct c as [[|] [|] [|] [|] [|] [|] [|] [|]]; reflexivity. Qed.

Lemma rfind_from_app (c : ascii) (a b : string) (i : nat) (last : option nat) :
  PosixPath.rfind_from c (a ++ b) i last
  = PosixPath.rfind_from c b (i + String.length a)
      (PosixPath.rfind_from c a i last).
Proof.
  revert i last. induction a as [|x a IH]; intros i last.
  - cbn. now rewrite Nat.add_0_r.
  - cbn [String.append PosixPath.rfind_from String.length]. rewrite IH.
    now replace (S i + String.length a) with (i + S (String.length a)) by lia.
Qed.

Lemma rfind_from_bound (c : ascii) (p : string) (i : nat) (last : option nat)
      (k : nat) :
  PosixPath.rfind_from c p i last = Some k ->
  last = Some k \/ (i <= k < i + String.length p).
Proof.
  revert i last. induction p as [|a p IH]; intros i last H.
  - now left.
  - cbn [PosixPath.rfind_from] in H. apply IH in H. cbn [String.length].
    destruct H as [H|H]; [|right; lia].
    destruct (Ascii.eqb a c); [|now left].
    injection H as <-. right. lia.
Qed.

Lemma skip_dots_cases (p : string) (filenameIndex n dotIndex : nat) :
  snd (PosixPath.skip_dots p filenameIndex n dotIndex) = EmptyString \/
  snd (PosixPath.skip_dots p filenameIndex n dotIndex)
  = substring dotIndex (String.length p - dotIndex) p.
Proof.
  revert filenameIndex. induction n as [|n IH]; intros filenameIndex.
  - now left.
  - cbn [PosixPath.skip_dots].
    destruct (get filenameIndex p) as [c|]; [|now right].
    destruct (Ascii.eqb c "."); [apply IH | now right].
Qed.

(** The extension of an accepted name. *)
Lemma ext_of_allowed (filename : string) :
  Main.allowed filename = true ->
  Main.ext_of filename = ".pdf" \/ Main.ext_of filename = EmptyString.
Proof.
  intros H. destruct (allowed_cut _ H) as (pre & e & -> & He).
  destruct e as [|c1 [|c2 [|c3 [|c4 [|c5 e]]]]]; try discriminate He.
  cbn [lower] in He.
  injection He as H1 H2 H3 H4.
  assert (D1 : Ascii.eqb c1 "." = true) by (rewrite lower_char_dot, H1; reflexivity).
  assert (D2 : Ascii.eqb c2 "." = false) by (rewrite lower_char_dot, H2; reflexivity).
  assert (D3 : Ascii.eqb c3 "." = false) by (rewrite lower_char_dot, H3; reflexivity).
  assert (D4 : Ascii.eqb c4 "." = false) by (rewrite lower_char_dot, H4; reflexivity).
  assert (S1 : Ascii.eqb c1 "/" = false) by (rewrite lower_char_slash, H1; reflexivity).
  assert (S2 : Ascii.eqb c2 "/" = false) by (rewrite lower_char_slash, H2; reflexivity).
  assert (S3 : Ascii.eqb c3 "/" = false) by (rewrite lower_char_slash, H3; reflexivity).
  assert (S4 : Ascii.eqb c4 "/" = false) by (rewrite lower_char_slash, H4; reflexivity).
  set (e := String c1 (String c2 (String c3 (String c4 EmptyString)))).
  assert (Le : lower e = ".pdf")
    by (unfold e; cbn [lower]; now rewrite H1, H2, H3, H4).
  unfold Main.ext_of, PosixPath.splitext, PosixPath.rfind.
  rewrite !rfind_from_app. cbn [Nat.add].
  assert (Rd : forall l, PosixPath.rfind_from "." e (String.length pre) l
                         = Some (String.length pre)).
  { intros l. unfold e. cbn [PosixPath.rfind_from].
    now rewrite D1, D2, D3, D4. }
  assert (Rs : forall l, PosixPath.rfind_from "/" e (String.length pre) l = l).
  { intros l. unfold e. cbn [PosixPath.rfind_from].
    now rewrite S1, S2, S3, S4. }
  rewrite Rd, Rs.
  assert (Sub : substring (String.length pre)
                  (String.length (pre ++ e) - String.length pre) (pre ++ e) = e).
  { rewrite substring_suffix, string_length_app.
    replace (String.length pre + String.length e - String.length pre)
      with (String.length e) by lia.
    apply substring_all. }
  assert (G : forall i n,
             lower (snd (PosixPath.skip_dots (pre ++ e) i n (String.length pre)))
             = ".pdf" \/
             lower (snd (PosixPath.skip_dots (pre ++ e) i n (String.length pre)))
             = EmptyString).
  { intros i n.
    destruct (skip_dots_cases (pre ++ e) i n (String.length pre)) as [-> | ->].
    - now right.
    - rewrite Sub. now left. }
  destruct (PosixPath.rfind_from "/" pre 0 None) as [sepIndex|] eqn:Sep.
  - apply rfind_from_bound in Sep. destruct Sep as [Sep|Sep]; [discriminate|].
    replace (sepIndex <? String.length pre)%nat with true
      by (symmetry; apply Nat.ltb_lt; lia).
    apply G.
  - apply G.
Qed.

Lemma uuid_text_head (file_id rest : string) :
  uuid_text file_id = true ->
  starts_with "/" (file_id ++ rest) = false.
Proof.
  unfold uuid_text. intros H. apply andb_true_iff in H. destruct H as [N A].
  destruct file_id as [|c s]; [discriminate|].
  cbn [all_chars] in A. apply andb_true_iff in A. destruct A as [A _].
  cbn [String.append starts_with]. rewrite andb_true_r.
  destruct c as [[|] [|] [|] [|] [|] [|] [|] [|]];
    try reflexivity; discriminate A.
Qed.

Lemma file_path_join (file_id ext : string) :
  uuid_text file_id = true ->
  PosixPath.join "data" (file_id ++ ext) = "data/" ++ file_id ++ ext.
Proof.
  intros H. unfold PosixPath.join. now rewrite (uuid_text_head _ ext H).
Qed.

End Paths.

(** X15: for a name that passed the test of the extension, the path of the
    stored upload is the directory [data], the text of the UUID and the
    extension [.pdf] in small letters or no extension at all: nothing else
    of the name that the client sent is part of it. *)
Theorem X15_stored_path (file_id filename : string) :
  uuid_text file_id = true ->
  Main.allowed filename = true ->
  Main.file_path_of file_id filename = "data/" ++ file_id ++ ".pdf" \/
  Main.file_path_of file_id filename = "data/" ++ file_id.
Proof.
  intros U A. unfold Main.file_path_of.
  destruct (ext_of_allowed _ A) as [-> | ->].
  - left. now apply file_path_join.
  - right. rewrite (file_path_join _ _ U).
    f_equal. clear. induction file_id as [|c s IH]; [reflexivity|].
    cbn. now rewrite IH.
Qed.

Lemma X15_stored_path_witness :
  Main.file_path_of "123e4567-e89b-42d3-a456-426614174000" "Q3/Report.PDF"
  = "data/123e4567-e89b-42d3-a456-426614174000.pdf" \/
  Main.file_path_of "123e4567-e89b-42d3-a456-426614174000" "Q3/Report.PDF"
  = "data/123e4567-e89b-42d3-a456-426614174000".
Proof.
  apply (X15_stored_path "123e4567-e89b-42d3-a456-426614174000"
           "Q3/Report.PDF"); reflexivity.
Defined.

Section Uploads.

Lemma string_app_nil (s : string) : s ++ EmptyString = s.
Proof. induction s as [|c s IH]; [reflexivity|]. cbn. now rewrite IH. Qed.

Lemma upload_cons (chunk : string) (reads : list string) :
  is_empty chunk = false ->
  upload (chunk :: reads) = chunk ++ upload reads.
Proof.
  intros H. unfold upload. cbn [chunks_of]. rewrite H.
  cbn [String.concat]. destruct (chunks_of reads) as [|x l].
  - cbn. now rewrite string_app_nil.
  - reflexivity.
Qed.

Lemma size_of_app (a b : string) :
  size_of (a ++ b) = (size_of a + size_of b)%N.
Proof. unfold size_of. rewrite string_length_app. lia. Qed.

Lemma save_spec (reads : list string) (size : N) (written : string) :
  (size <= Main.max_size)%N ->
  ((size + size_of (upload reads) <= Main.max_size)%N /\
   Main.save reads size written
   = (written ++ upload reads,
      Main.Returned (size + size_of (upload reads))%N)) \/
  ((Main.max_size < size + size_of (upload reads))%N /\
   exists kept rest,
     upload reads = kept ++ rest /\
     (size + size_of kept <= Main.max_size)%N /\
     Main.save reads size written
     = (written ++ kept,
        Main.Raised
          (Main.HTTPException 413 "Uploaded file too large (max 10 MB).")))%N.
Proof.
  assert (M : Main.max_size = 10485760%N) by reflexivity.
  revert size written. induction reads as [|chunk reads IH];
    intros size written Hs.
  - left. unfold upload, size_of.
    cbn [Main.save chunks_of String.concat String.length].
    rewrite string_app_nil. split; [lia | do 2 f_equal; lia].
  - cbn [Main.save]. destruct (is_empty chunk) eqn:E.
    + left. unfold upload, size_of. cbn [chunks_of]. rewrite E.
      cbn [String.concat String.length].
      rewrite string_app_nil. split; [lia | do 2 f_equal; lia].
    + rewrite (upload_cons _ _ E), size_of_app. fold (size_of chunk).
      destruct (Main.max_size <? size + size_of chunk)%N eqn:L.
      * apply N.ltb_lt in L. right. split; [lia|].
        exists EmptyString, (chunk ++ upload reads).
        rewrite string_app_nil. repeat split.
        unfold size_of. cbn [String.length]. lia.
      * apply N.ltb_ge in L.
        destruct (IH (size + size_of chunk)%N (written ++ chunk) L)
          as [[B ->] | [B (kept & rest & U & K & ->)]].
        -- left. split; [lia|]. rewrite string_app_assoc.
           do 2 f_equal. lia.
        -- right. split; [lia|]. exists (chunk ++ kept), rest.
           rewrite U, size_of_app, !string_app_assoc.
           repeat split. lia.
Qed.

End Uploads.

(** X16: the loop that saves the upload.  If the upload has at most
    [max_size] bytes, the file holds all of them and [size] is their number;
    otherwise the loop raises the [HTTPException] 413, and the file holds a
    prefix of the upload of at most [max_size] bytes. *)
Theorem X16_upload_loop (reads : list string) :
  (Main.save reads 0 EmptyString
   = (upload reads, Main.Returned (size_of (upload reads))) /\
   (size_of (upload reads) <= Main.max_size)%N) \/
  (snd (Main.save reads 0 EmptyString)
   = Main.Raised
       (Main.HTTPException 413 "Uploaded file too large (max 10 MB).") /\
   (Main.max_size < size_of (upload reads))%N /\
   (size_of (fst (Main.save reads 0 EmptyString)) <= Main.max_size)%N /\
   exists rest, upload reads = fst (Main.save reads 0 EmptyString) ++ rest).
Proof.
  destruct (save_spec reads 0 EmptyString) as [[B E] | [B (kept & rest & U & K & E)]];
    [unfold Main.max_size; lia | |].
  - left. split; [exact E | exact B].
  - right. rewrite E. cbn [fst snd String.append].
    repeat split; [exact B | exact K | now exists rest].
Qed.

Section Queries.

Lemma lstrip_cases (s : string) :
  (blank s = true /\ lstrip s = EmptyString) \/
  (blank s = false /\
   exists c t, lstrip s = String c t /\ is_space c = false).
Proof.
  induction s as [|c s IH]; [now left|].
  unfold blank in *. cbn [all_chars lstrip]. destruct (is_space c) eqn:E.
  - exact IH.
  - right. split; [reflexivity|]. now exists c, s.
Qed.

Lemma rstrip_head (c : ascii) (t : string) :
  is_space c = false -> rstrip (String c t) = String c (rstrip t).
Proof. intros H. cbn [rstrip]. now rewrite H. Qed.

Lemma rstrip_idem (s : string) : rstrip (rstrip s) = rstrip s.
Proof.
  induction s as [|c s IH]; [reflexivity|].
  cbn [rstrip]. destruct (is_space c && is_empty (rstrip s)) eqn:E;
    [reflexivity|].
  cbn [rstrip]. now rewrite IH, E.
Qed.

Lemma strip_cases (s : string) :
  (blank s = true /\ strip s = EmptyString) \/
  (blank s = false /\
   exists c t, strip s = String c (rstrip t) /\ is_space c = false).
Proof.
  unfold strip. destruct (lstrip_cases s) as [[B ->] | [B (c & t & -> & E)]].
  - now left.
  - right. split; [exact B|]. exists c, t. now rewrite (rstrip_head _ _ E).
Qed.

Lemma strip_idem (s : string) : strip (strip s) = strip s.
Proof.
  destruct (strip_cases s) as [[_ ->] | [_ (c & t & -> & E)]];
    [reflexivity|].
  unfold strip. cbn [lstrip]. rewrite E.
  now rewrite (rstrip_head _ _ E), rstrip_idem.
Qed.

Lemma normalize_query_cases (query : string) :
  Main.normalize_query query
  = if blank query then Main.default_query else strip query.
Proof.
  unfold Main.normalize_query.
  destruct (strip_cases query) as [[-> ->] | [-> (c & t & -> & _)]];
    reflexivity.
Qed.

Lemma normalize_query_stripped (query : string) :
  blank (Main.normalize_query query) = false /\
  strip (Main.normalize_query query) = Main.normalize_query query.
Proof.
  unfold Main.normalize_query.
  destruct (strip_cases query) as [[_ E] | [_ (c & t & E & Hc)]].
  - rewrite E. split; reflexivity.
  - rewrite E. cbn [is_empty]. split.
    + unfold blank. cbn [all_chars]. now rewrite Hc.
    + rewrite <- E. apply strip_idem.
Qed.

End Queries.

(** X17: the query given to the crew is the default query when the form
    field is white space only, the field without the white space around it
    otherwise; it is never blank, has no white space around it, and
    normalizing it again changes nothing. *)
Theorem X17_query_normalized (query : string) :
  Main.normalize_query query
  = (if blank query then Main.default_query else strip query) /\
  blank (Main.normalize_query query) = false /\
  strip (Main.normalize_query query) = Main.normalize_query query /\
  Main.normalize_query (Main.normalize_query query)
  = Main.normalize_query query.
Proof.
  destruct (normalize_query_stripped query) as [B S].
  repeat split; [apply normalize_query_cases | exact B | exact S |].
  rewrite (normalize_query_cases (Main.normalize_query query)), B. exact S.
Qed.

Section Handler.

Variable crew : Main.crew_type.
Variable abspath : string -> string.
Variables (file_id filename : string) (reads : list string) (query : string).
Variable d : Main.disk.

(** The [finally] block: what it leaves at the path of the upload, and that
    it leaves the other paths alone. *)
Lemma finally_at (d' : Main.disk) (path : string) :
  match d' path with
  | Some _ =>
      match Main.os_remove d' path with
      | Main.Returned d'' => d''
      | Main.Raised _ => d'
      end
  | None => d'
  end path
  = match d' path with
    | Some e => if Main.removable e then None else Some e
    | None => None
    end.
Proof.
  unfold Main.os_remove. destruct (d' path) as [e|] eqn:E; [|exact E].
  destruct (Main.removable e); [|exact E].
  unfold Main.without. now rewrite String.eqb_refl.
Qed.


Lemma handler_file_after :
  Main.allowed filename = true ->
  fst (Main.analyze_document crew abspath file_id (Some filename) reads
         query d) (Main.file_path_of file_id filename)
  = if (size_of (upload reads) <=? Main.max_size)%N then
      match fst (crew (Main.normalize_query query)
                   (abspath (Main.file_path_of file_id filename))
                   (Main.write_file d (Main.file_path_of file_id filename)
                      (upload reads)))
              (Main.file_path_of file_id filename) with
      | Some e => if Main.removable e then None else Some e
      | None => None
      end
    else None.
Proof.
  intros A. unfold Main.analyze_document. rewrite A. cbn [negb].
  destruct (save_spec reads 0 EmptyString)
    as [[B E] | [B (kept & rest & U & K & E)]];
    [unfold Main.max_size; lia | |]; rewrite E.
  - cbn [String.append N.add] in *.
    replace (size_of (upload reads) <=? Main.max_size)%N with true
      by (symmetry; apply N.leb_le; exact B).
    destruct (crew _ _ _) as [d' [a|e]]; cbn [fst]; apply finally_at.
  - cbn [N.add] in B.
    replace (size_of (upload reads) <=? Main.max_size)%N with false
      by (symmetry; apply N.leb_gt; exact B).
    cbn [fst]. rewrite finally_at. unfold Main.write_file.
    now rewrite String.eqb_refl.
Qed.

Lemma handler_answer :
  Main.allowed filename = true ->
  snd (Main.analyze_document crew abspath file_id (Some filename) reads
         query d)
  = if (size_of (upload reads) <=? Main.max_size)%N then
      match snd (crew (Main.normalize_query query)
                   (abspath (Main.file_path_of file_id filename))
                   (Main.write_file d (Main.file_path_of file_id filename)
                      (upload reads))) with
      | Main.Returned a =>
          Main.Success (Main.normalize_query query) a filename
      | Main.Raised (Main.HTTPException status_code detail) =>
          Main.Failure status_code detail
      | Main.Raised (Main.OtherException message) =>
          Main.on_exception message
      end
    else Main.Failure 413 "Uploaded file too large (max 10 MB).".
Proof.
  intros A. unfold Main.analyze_document. rewrite A. cbn [negb].
  destruct (save_spec reads 0 EmptyString)
    as [[B E] | [B (kept & rest & U & K & E)]];
    [unfold Main.max_size; lia | |]; rewrite E.
  - cbn [String.append N.add] in *.
    replace (size_of (upload reads) <=? Main.max_size)%N with true
      by (symmetry; apply N.leb_le; exact B).
    destruct (crew _ _ _) as [d' [a|[s det|m]]]; reflexivity.
  - cbn [N.add] in B.
    replace (size_of (upload reads) <=? Main.max_size)%N with false
      by (symmetry; apply N.leb_gt; exact B).
    reflexivity.
Qed.



End Handler.

(** X18: what a request with an accepted name leaves at the path of the
    stored upload.  After too large an upload nothing is there.  Otherwise
    the crew has run, and nothing is there either, unless the crew left at
    that path something that [os.remove] cannot remove: the handler catches
    the exception of the removal, and what is there stays. *)
Theorem X18_upload_removed (crew : Main.crew_type) (abspath : string -> string)
        (file_id filename : string) (reads : list string) (query : string)
        (d : Main.disk) :
  Main.allowed filename = true ->
  fst (Main.analyze_document crew abspath file_id (Some filename) reads
         query d) (Main.file_path_of file_id filename)
  = if (size_of (upload reads) <=? Main.max_size)%N then
      match fst (crew (Main.normalize_query query)
                   (abspath (Main.file_path_of file_id filename))
                   (Main.write_file d (Main.file_path_of file_id filename)
                      (upload reads)))
              (Main.file_path_of file_id filename) with
      | Some e => if Main.removable e then None else Some e
      | None => None
      end
    else None.
Proof. apply handler_file_after. Qed.

Lemma X18_upload_removed_witness :
  fst (Main.analyze_document
         (fun query path d =>
            (fun p =>
               match d p with
               | Some e =>
                   Some {| Main.content := Main.content e;
                           Main.removable := false |}
               | None => None
               end,
             Main.Raised (Main.OtherException "huggingface: 503")))
         (fun p => "/srv/app/" ++ p)
         "123e4567-e89b-42d3-a456-426614174000" (Some "Report.PDF")
         ["%PDF-1.4"; "%%EOF"] "  "
         (fun _ => None))
    (Main.file_path_of "123e4567-e89b-42d3-a456-426614174000" "Report.PDF")
  = Some {| Main.content := "%PDF-1.4%%EOF"; Main.removable := false |}.
Proof.
  rewrite (X18_upload_removed _ _ _ "Report.PDF") by reflexivity.
  reflexivity.
Defined.

(** X19: the answer to a request with an accepted name.  An upload of more
    than [max_size] bytes gets the status 413; otherwise the crew is called
    with the normalized query and the absolute path, the whole upload being
    on the disk at that path, and the answer is the success with the crew's
    analysis, the crew's own [HTTPException], or what the last handler makes
    of another exception. *)
Theorem X19_answer (crew : Main.crew_type) (abspath : string -> string)
        (file_id filename : string) (reads : list string) (query : string)
        (d : Main.disk) :
  Main.allowed filename = true ->
  snd (Main.analyze_document crew abspath file_id (Some filename) reads
         query d)
  = if (size_of (upload reads) <=? Main.max_size)%N then
      match snd (crew (Main.normalize_query query)
                   (abspath (Main.file_path_of file_id filename))
                   (Main.write_file d (Main.file_path_of file_id filename)
                      (upload reads))) with
      | Main.Returned a =>
          Main.Success (Main.normalize_query query) a filename
      | Main.Raised (Main.HTTPException status_code detail) =>
          Main.Failure status_code detail
      | Main.Raised (Main.OtherException message) =>
          Main.on_exception message
      end
    else Main.Failure 413 "Uploaded file too large (max 10 MB).".
Proof. apply handler_answer. Qed.

Lemma X19_answer_witness :
  snd (Main.analyze_document
         (fun query path d =>
            (d, match d "data/123e4567-e89b-42d3-a456-426614174000.pdf" with
                | Some e =>
                    Main.Returned (path ++ ": " ++ Main.content e)
                | None => Main.Raised (Main.OtherException "no file")
                end))
         (fun p => "/srv/app/" ++ p)
         "123e4567-e89b-42d3-a456-426614174000" (Some "Report.PDF")
         ["%PDF-1.4"; " %%EOF"; EmptyString; "not read"] "  "
         (fun _ => None))
  = Main.Success "Analyze this financial document for investment insights"
      "/srv/app/data/123e4567-e89b-42d3-a456-426614174000.pdf: %PDF-1.4 %%EOF"
      "Report.PDF".
Proof.
  rewrite (X19_answer _ _ _ "Report.PDF") by reflexivity. reflexivity.
Defined.


